(** * Gym membership server: membership windows, member directory, payments

    A shallow embedding of the Express handlers of [server.js]
    (routes/members.js, routes/payments.js, middleware/auth.js, the two
    Mongoose schemas) and of [getDaysRemaining] of the user dashboard
    (src/pages/user/Dashboard.js in [App.js]).

    Layout:
    - [JsDate]   : the ECMAScript time-value arithmetic the handlers rely on
                   ([new Date()], [getMonth], [setMonth], [getFullYear],
                   [setFullYear]), and what the platform supplies
                   ([Platform]);
    - [Double]   : the rounding of the arithmetic on Numbers ([amount * 100],
                   [amount / 100], [endDate - today], the quotient under
                   [Math.ceil]);
    - [Js]       : request-body values, their truthiness and conversions;
    - [Bson]     : ObjectIds and the strings that spell them;
    - [Mongoose] : casters, validators and the two schemas;
    - the world (the two collections, the clock, the supply of ObjectIds),
      the model operations and the handlers, in a state-and-exception
      monad;
    - the lemmas on rounding and on the calendar, then one section per
      route. *)

From Stdlib Require Import ZArith List String Ascii Bool Lia.
From Stdlib Require Import QArith Qround Qabs Qpower Lqa.
Import ListNotations.

Local Open Scope string_scope.
Local Open Scope list_scope.
Local Open Scope Z_scope.

(* ================================================================== *)
(** ** ECMAScript time values *)
(* ================================================================== *)

Module JsDate.

(** A time value is a number of milliseconds since the epoch.  A [Date]
    object holds either such a value or NaN ("Invalid Date"), which is
    [None] here. *)
Definition Date := option Z.

Definition msPerDay : Z := 86400000.

(** The largest magnitude a Date may hold: 8.64e15 ms. *)
Definition maxTime : Z := 8640000000000000.

Definition TimeClip (t : Z) : Date :=
  if Z.abs t <=? maxTime then Some t else None.

Definition Day (t : Z) : Z := t / msPerDay.
Definition TimeWithinDay (t : Z) : Z := t mod msPerDay.

Definition isLeap (y : Z) : bool :=
  if negb (y mod 4 =? 0) then false
  else if negb (y mod 100 =? 0) then true
  else if negb (y mod 400 =? 0) then false
  else true.

Definition DaysInYear (y : Z) : Z := if isLeap y then 366 else 365.

Definition DayFromYear (y : Z) : Z :=
  365 * (y - 1970) + (y - 1969) / 4 - (y - 1901) / 100 + (y - 1601) / 400.

Definition TimeFromYear (y : Z) : Z := msPerDay * DayFromYear y.

(** [YearFromTime t] is "the largest integer y such that
    TimeFromYear(y) <= t".  It is computed from an estimate that is off by
    at most one year; [YearFromDay_spec] below shows the result is that
    largest integer. *)
Definition YearFromDay (d : Z) : Z :=
  let y0 := 1970 + (400 * d) / 146097 in
  if d <? DayFromYear y0 then y0 - 1
  else if DayFromYear (y0 + 1) <=? d then y0 + 1
  else y0.

Definition YearFromTime (t : Z) : Z := YearFromDay (Day t).

Definition InLeapYear (t : Z) : Z :=
  if isLeap (YearFromTime t) then 1 else 0.

Definition DayWithinYear (t : Z) : Z := Day t - DayFromYear (YearFromTime t).

(** First day-within-year of month [m] (0 = January), [leap] being 0 or 1. *)
Definition monthStart (m leap : Z) : Z :=
  match m with
  | 0 => 0
  | 1 => 31
  | 2 => 59 + leap
  | 3 => 90 + leap
  | 4 => 120 + leap
  | 5 => 151 + leap
  | 6 => 181 + leap
  | 7 => 212 + leap
  | 8 => 243 + leap
  | 9 => 273 + leap
  | 10 => 304 + leap
  | 11 => 334 + leap
  | _ => 365 + leap
  end.

Definition monthOfYearDay (dwy leap : Z) : Z :=
  if dwy <? 31 then 0
  else if dwy <? 59 + leap then 1
  else if dwy <? 90 + leap then 2
  else if dwy <? 120 + leap then 3
  else if dwy <? 151 + leap then 4
  else if dwy <? 181 + leap then 5
  else if dwy <? 212 + leap then 6
  else if dwy <? 243 + leap then 7
  else if dwy <? 273 + leap then 8
  else if dwy <? 304 + leap then 9
  else if dwy <? 334 + leap then 10
  else 11.

Definition MonthFromTime (t : Z) : Z :=
  monthOfYearDay (DayWithinYear t) (InLeapYear t).

Definition DateFromTime (t : Z) : Z :=
  DayWithinYear t - monthStart (MonthFromTime t) (InLeapYear t) + 1.

(** [MakeDay(year, month, date)]: months outside 0..11 carry into the year,
    dates outside the month roll into the neighbouring months. *)
Definition MakeDay (year month date : Z) : Z :=
  let ym := year + month / 12 in
  let mn := month mod 12 in
  DayFromYear ym + monthStart mn (if isLeap ym then 1 else 0) + date - 1.

Definition MakeDate (day time : Z) : Z := day * msPerDay + time.

(** Number of days of month [m] (0..11) of year [y]. *)
Definition DaysInMonth (y m : Z) : Z :=
  let leap := if isLeap y then 1 else 0 in
  monthStart (m + 1) leap - monthStart m leap.

(** What the platform supplies and the repository does not define: the
    local time zone adjustment (ECMAScript's implementation-defined
    [LocalTZA(t, isUTC)]), the reading of a date or a number off a string,
    and the printing of a number.  The two laws hold of every platform: a
    zone offset is less than a day, and no number prints as the empty
    string. *)
Class Platform := {
  LocalTZA : Z -> bool -> Z;
  DateParse : string -> option Z;
  StringToNumber : string -> option Q;
  NumberToString : Q -> string;
  LocalTZA_bound : forall t b, Z.abs (LocalTZA t b) < msPerDay;
  NumberToString_nonempty : forall q, NumberToString q <> EmptyString
}.

Section LocalTime.
Context {P : Platform}.

Definition LocalTime (t : Z) : Z := t + LocalTZA t true.
Definition UTC (t : Z) : Z := t - LocalTZA t false.

Definition getMonth (t : Z) : Z := MonthFromTime (LocalTime t).
Definition getFullYear (t : Z) : Z := YearFromTime (LocalTime t).

(** [d.setMonth(month)] on a Date holding the time value [t]: the new time
    value the Date holds afterwards. *)
Definition setMonth (t month : Z) : Date :=
  let t' := LocalTime t in
  let newDate :=
    MakeDate (MakeDay (YearFromTime t') month (DateFromTime t'))
             (TimeWithinDay t') in
  TimeClip (UTC newDate).

(** [d.setFullYear(year)]. *)
Definition setFullYear (t year : Z) : Date :=
  let t' := LocalTime t in
  let newDate :=
    MakeDate (MakeDay year (MonthFromTime t') (DateFromTime t'))
             (TimeWithinDay t') in
  TimeClip (UTC newDate).

End LocalTime.

(** The least integer that is no less than the quotient of the integer [a]
    by the positive integer [b]. *)
Definition ceilDiv (a b : Z) : Z := - ((- a) / b).

(** ToIntegerOrInfinity on a finite number: truncation towards zero. *)
Definition truncate (q : Q) : Z :=
  if Qle_bool 0 q then Qfloor q else Qceiling q.

End JsDate.

Import JsDate.

(* ================================================================== *)
(** ** Arithmetic on Numbers *)
(* ================================================================== *)

Module Double.

Local Open Scope Q_scope.

(** A finite Number is taken as the rational it holds.  The result of an
    operation is the exact result rounded as IEEE 754 binary64 asks: to
    the nearest value with a significand of 53 bits, a tie going to the
    even significand, the exponent of the last place not going below that
    of the subnormal numbers, -1074. *)
Definition pow2 (e : Z) : Q := 2 ^ e.

(** The binary exponent of a positive rational: the [k] with
    [2^k <= x < 2^(k+1)]. *)
Definition ilog2 (x : Q) : Z :=
  let k0 := (Z.log2 (Qnum x) - Z.log2 (Zpos (Qden x)))%Z in
  if Qle_bool (pow2 k0) x then k0 else (k0 - 1)%Z.

(** The nearest integer, a tie going to the even one. *)
Definition rne (y : Q) : Z :=
  let f := Qfloor y in
  match Qcompare (y - inject_Z f) (1 # 2) with
  | Lt => f
  | Gt => (f + 1)%Z
  | Eq => if Z.even f then f else (f + 1)%Z
  end.

(** The exponent of the last place of the double nearest to [x]. *)
Definition fexp (x : Q) : Z := Z.max (ilog2 (Qabs x) - 52) (-1074).

Definition round (x : Q) : Q :=
  if Qeq_bool x 0 then 0
  else inject_Z (rne (x / pow2 (fexp x))) * pow2 (fexp x).

(** What an operation gives when its result may leave the range of the
    finite Numbers. *)
Inductive Number : Type :=
| NaN
| Infinity (negative : bool)
| Finite (q : Q).

Definition overflowing (x : Q) : Number :=
  let r := round x in
  if Qle_bool (pow2 1024) (Qabs r) then Infinity (negb (Qle_bool 0 r))
  else Finite r.

End Double.

(* ================================================================== *)
(** ** Request values *)
(* ================================================================== *)

Module Js.

(** A field of a JSON request body, or of a stored document read back by
    the client: absent ([JUndefined]) or a JSON scalar, a string being a
    string of 8-bit characters and a number the finite double its literal
    was read as, held as a rational.  Objects and arrays, which
    [express.json()] also delivers, are not among these values: what is
    proved of a request is proved of the requests whose fields are
    scalars. *)
Inductive JsVal : Type :=
| JUndefined
| JNull
| JBool (b : bool)
| JNum (q : Q)
| JStr (s : string).

(** ToBoolean: what [if (v)] tests. *)
Definition truthy (v : JsVal) : bool :=
  match v with
  | JUndefined | JNull => false
  | JBool b => b
  | JNum q => negb (Qeq_bool q 0)
  | JStr s => negb (String.eqb s EmptyString)
  end.

(** [v === 'literal']. *)
Definition strictEqStr (v : JsVal) (lit : string) : bool :=
  match v with
  | JStr s => String.eqb s lit
  | _ => false
  end.

Section Conversions.
Context {P : Platform}.

(** ToNumber; [None] is NaN. *)
Definition ToNumber (v : JsVal) : option Q :=
  match v with
  | JUndefined => None
  | JNull => Some 0%Q
  | JBool b => Some (if b then 1%Q else 0%Q)
  | JNum q => Some q
  | JStr s => StringToNumber s
  end.

(** [new Date(v)] for a scalar [v]. *)
Definition newDateOf (v : JsVal) : Date :=
  match v with
  | JStr s => match DateParse s with Some t => TimeClip t | None => None end
  | _ => match ToNumber v with
         | Some q => TimeClip (truncate q)
         | None => None
         end
  end.

End Conversions.

End Js.

Import Js.

(* ================================================================== *)
(** ** ObjectIds *)
(* ================================================================== *)

Module Bson.

(** An ObjectId is twelve bytes. *)
Inductive ObjectId : Type :=
| mkObjectId (b0 b1 b2 b3 b4 b5 b6 b7 b8 b9 b10 b11 : ascii).

Definition toBytes (o : ObjectId) : string :=
  let 'mkObjectId b0 b1 b2 b3 b4 b5 b6 b7 b8 b9 b10 b11 := o in
  String b0 (String b1 (String b2 (String b3 (String b4 (String b5
  (String b6 (String b7 (String b8 (String b9 (String b10 (String b11
  EmptyString))))))))))).

(** A string of exactly twelve characters, taken as the twelve bytes. *)
Definition ofBytes (s : string) : option ObjectId :=
  match s with
  | String b0 (String b1 (String b2 (String b3 (String b4 (String b5
    (String b6 (String b7 (String b8 (String b9 (String b10 (String b11
    EmptyString))))))))))) =>
      Some (mkObjectId b0 b1 b2 b3 b4 b5 b6 b7 b8 b9 b10 b11)
  | _ => None
  end.

(** The digit of a value below sixteen, in lower case. *)
Definition hexDigit (n : N) : ascii :=
  ascii_of_N (if (n <? 10)%N then 48 + n else 87 + n).

(** The value of a hexadecimal digit of either case. *)
Definition hexValue (c : ascii) : option N :=
  let n := N_of_ascii c in
  if ((48 <=? n) && (n <=? 57))%N then Some (n - 48)%N
  else if ((97 <=? n) && (n <=? 102))%N then Some (n - 87)%N
  else if ((65 <=? n) && (n <=? 70))%N then Some (n - 55)%N
  else None.

Fixpoint hexOfBytes (s : string) : string :=
  match s with
  | EmptyString => EmptyString
  | String b r =>
      String (hexDigit (N_of_ascii b / 16))
        (String (hexDigit (N_of_ascii b mod 16)) (hexOfBytes r))
  end.

Fixpoint bytesOfHex (s : string) : option string :=
  match s with
  | EmptyString => Some EmptyString
  | String _ EmptyString => None
  | String h (String l r) =>
      match hexValue h, hexValue l, bytesOfHex r with
      | Some x, Some y, Some bytes =>
          Some (String (ascii_of_N (16 * x + y)) bytes)
      | _, _, _ => None
      end
  end.

(** [toHexString()], which is also how an ObjectId is written in JSON and
    what [user.id] is: twenty-four hexadecimal digits in lower case. *)
Definition toHexString (o : ObjectId) : string := hexOfBytes (toBytes o).

(** [new ObjectId(s)] for a string [s]: twelve characters are the bytes
    themselves, twenty-four hexadecimal digits of either case spell them,
    and any other string is refused ([None]). *)
Definition ofString (s : string) : option ObjectId :=
  match ofBytes s with
  | Some o => Some o
  | None =>
      match bytesOfHex s with
      | Some bytes => ofBytes bytes
      | None => None
      end
  end.

(** The ObjectId a string of twenty-four hexadecimal digits names (and
    the ObjectId of twelve zero bytes for any string that names none). *)
Definition oid (hex : string) : ObjectId :=
  match ofString hex with
  | Some o => o
  | None =>
      mkObjectId zero zero zero zero zero zero zero zero zero zero zero zero
  end.

End Bson.

Import Bson.

(** Where a string is expected, an ObjectId stands for its hexadecimal
    form. *)
Coercion toHexString : ObjectId >-> string.

(* ================================================================== *)
(** ** Documents, collections and model operations *)
(* ================================================================== *)

Module Mongoose.

(** What a path holds once the value it was given has gone through the
    schema type: nothing when the value was undefined, null
    ([CastOk None]), a value, or a CastError. *)
Inductive Cast (A : Type) : Type :=
| CastUndefined
| CastOk (v : option A)
| CastError.
Arguments CastUndefined {A}.
Arguments CastOk {A} v.
Arguments CastError {A}.

Section Casters.
Context {P : Platform}.

(** The String caster on scalars. *)
Definition castString (v : JsVal) : Cast string :=
  match v with
  | JUndefined => CastUndefined
  | JNull => CastOk None
  | JBool b => CastOk (Some (if b then "true" else "false")%string)
  | JNum q => CastOk (Some (NumberToString q))
  | JStr s => CastOk (Some s)
  end.

(** The Date caster on scalars: null and the empty string are null,
    booleans are refused, anything else must make a valid Date. *)
Definition castDate (v : JsVal) : Cast Z :=
  match v with
  | JUndefined => CastUndefined
  | JNull => CastOk None
  | JBool _ => CastError
  | JStr s =>
      if String.eqb s EmptyString then CastOk None
      else match newDateOf v with
           | Some t => CastOk (Some t)
           | None => CastError
           end
  | JNum _ =>
      match newDateOf v with
      | Some t => CastOk (Some t)
      | None => CastError
      end
  end.

End Casters.

(** The Date caster on a Date object: an Invalid Date is refused. *)
Definition castDateObject (d : Date) : Cast Z :=
  match d with
  | Some t => CastOk (Some t)
  | None => CastError
  end.

(** The ObjectId caster on a string. *)
Definition castObjectId (s : string) : Cast ObjectId :=
  match ofString s with
  | Some o => CastOk (Some o)
  | None => CastError
  end.

(** The Number caster on a number: NaN is refused. *)
Definition castNumber (n : option Q) : Cast Q :=
  match n with
  | Some q => CastOk (Some q)
  | None => CastError
  end.

(** *** Validators *)

(** [required: true] on a String path: a non-empty string. *)
Definition requiredString (c : Cast string) : option string :=
  match c with
  | CastOk (Some s) => if String.eqb s EmptyString then None else Some s
  | _ => None
  end.

(** [required: true] on a Date, Number or ObjectId path. *)
Definition required {A} (c : Cast A) : option A :=
  match c with
  | CastOk (Some a) => Some a
  | _ => None
  end.

(** What a document stores at a path: a path that is not set and a path
    set to null both read as null. *)
Definition stored {A} (c : Cast A) : option A :=
  match c with
  | CastOk v => v
  | _ => None
  end.

(** A path that is not required: the value to store, unless the cast
    failed. *)
Definition optional {A} (c : Cast A) : option (option A) :=
  match c with
  | CastError => None
  | _ => Some (stored c)
  end.

(** [default: v]: a path that is not set takes [v]; null stays null. *)
Definition withDefault {A} (v : A) (c : Cast A) : Cast A :=
  match c with
  | CastUndefined => CastOk (Some v)
  | _ => c
  end.

(** [enum: values]: the validator is not run on a path that is not set,
    and it refuses every value that is not one of [values], null
    included. *)
Definition inEnum (values : list string) (c : Cast string) : bool :=
  match c with
  | CastUndefined => true
  | CastOk (Some s) => existsb (String.eqb s) values
  | CastOk None => false
  | CastError => false
  end.

(** *** models/User.js *)

Module User.

Record doc : Type := mk {
  _id : ObjectId;
  name : option string;
  email : option string;
  password : option string;
  phone : option string;
  role : option string;
  membershipType : option string;
  startDate : option Z;
  endDate : option Z;
  status : option string;
  createdAt : option Z
}.

Definition roles : list string := ["admin"; "member"]%string.
Definition membershipTypes : list string :=
  ["monthly"; "quarterly"; "yearly"]%string.
Definition statuses : list string := ["active"; "inactive"; "pending"]%string.

(** The fields a handler hands to [new User({...})], each as the schema's
    caster leaves it. *)
Record fields : Type := mkFields {
  f_name : Cast string;
  f_email : Cast string;
  f_password : Cast string;
  f_phone : Cast string;
  f_role : Cast string;
  f_membershipType : Cast string;
  f_startDate : Cast Z;
  f_endDate : Cast Z
}.

Definition isMember (r : option string) : bool :=
  match r with
  | Some s => String.eqb s "member"
  | None => false
  end.

(** [required: function() { return this.role === 'member'; }] *)
Definition requiredIfMember {A} (r : option string) (c : Cast A)
  : option (option A) :=
  if isMember r then
    match required c with Some a => Some (Some a) | None => None end
  else optional c.

(** Document validation as the schema declares it; [None] is a
    ValidationError.  [status] and [createdAt] are not among the fields
    the handler passes and take their defaults. *)
Definition validate (i : ObjectId) (now : Z) (f : fields) : option doc :=
  let role := withDefault "member"%string (f_role f) in
  match requiredString (f_name f), requiredString (f_email f),
        requiredString (f_password f), requiredString (f_phone f),
        optional role with
  | Some n, Some e, Some pw, Some ph, Some r =>
      match requiredIfMember r (f_membershipType f),
            requiredIfMember r (f_startDate f),
            requiredIfMember r (f_endDate f) with
      | Some mt, Some sd, Some ed =>
          if inEnum roles role
             && inEnum membershipTypes (f_membershipType f) then
            Some (mk i (Some n) (Some e) (Some pw) (Some ph) r mt sd ed
                     (Some "active"%string) (Some now))
          else None
      | _, _, _ => None
      end
  | _, _, _, _, _ => None
  end.

(** The keys of an update document ([$set]); [None] is a key that is not
    there, [Some c] a key with what the caster made of its value.  A key
    whose value is undefined or null sets the path to null. *)
Record update : Type := mkUpdate {
  u_name : option (Cast string);
  u_email : option (Cast string);
  u_phone : option (Cast string);
  u_membershipType : option (Cast string);
  u_startDate : option (Cast Z);
  u_endDate : option (Cast Z);
  u_status : option (Cast string)
}.

Definition castFailed {A} (k : option (Cast A)) : bool :=
  match k with
  | Some CastError => true
  | _ => false
  end.

Definition updateCastFailed (u : update) : bool :=
  castFailed (u_name u) || castFailed (u_email u) || castFailed (u_phone u)
  || castFailed (u_membershipType u) || castFailed (u_startDate u)
  || castFailed (u_endDate u) || castFailed (u_status u).

(** One path of [$set]: an absent key keeps the stored value. *)
Definition setPath {A} (k : option (Cast A)) (old : option A) : option A :=
  match k with
  | None | Some CastError => old
  | Some c => stored c
  end.

Definition applyUpdate (u : update) (d : doc) : doc :=
  mk (_id d)
     (setPath (u_name u) (name d))
     (setPath (u_email u) (email d))
     (password d)
     (setPath (u_phone u) (phone d))
     (role d)
     (setPath (u_membershipType u) (membershipType d))
     (setPath (u_startDate u) (startDate d))
     (setPath (u_endDate u) (endDate d))
     (setPath (u_status u) (status d))
     (createdAt d).

(** [.select('-password')] *)
Definition selectNoPassword (d : doc) : doc :=
  mk (_id d) (name d) (email d) None (phone d) (role d) (membershipType d)
     (startDate d) (endDate d) (status d) (createdAt d).

End User.

(** *** models/Payment.js *)

Module Payment.

Record doc : Type := mk {
  _id : ObjectId;
  userId : ObjectId;
  amount : Q;
  paymentType : option string;
  paymentMethod : string;
  razorpayPaymentId : option string;
  razorpayOrderId : option string;
  membership : option string;
  status : option string;
  startDate : option Z;
  endDate : option Z;
  createdAt : option Z
}.

Definition paymentTypes : list string := ["membership"; "addon"; "other"]%string.
Definition paymentMethods : list string :=
  ["card"; "upi"; "netbanking"; "cash"]%string.
Definition memberships : list string :=
  ["monthly"; "quarterly"; "yearly"]%string.
Definition statuses : list string := ["pending"; "completed"; "failed"]%string.

(** The fields a handler hands to [new Payment({...})]. *)
Record fields : Type := mkFields {
  f_userId : Cast ObjectId;
  f_amount : Cast Q;
  f_paymentType : Cast string;
  f_paymentMethod : Cast string;
  f_razorpayPaymentId : Cast string;
  f_razorpayOrderId : Cast string;
  f_membership : Cast string;
  f_status : Cast string;
  f_startDate : Cast Z;
  f_endDate : Cast Z
}.

Definition validate (i : ObjectId) (now : Z) (f : fields) : option doc :=
  let paymentType := withDefault "membership"%string (f_paymentType f) in
  let status := withDefault "pending"%string (f_status f) in
  match required (f_userId f), required (f_amount f),
        optional paymentType, requiredString (f_paymentMethod f),
        optional (f_razorpayPaymentId f) with
  | Some uid, Some a, Some pt, Some pm, Some rp =>
      match optional (f_razorpayOrderId f), optional (f_membership f),
            optional status, optional (f_startDate f),
            optional (f_endDate f) with
      | Some ro, Some m, Some st, Some sd, Some ed =>
          if inEnum paymentTypes paymentType
             && inEnum paymentMethods (f_paymentMethod f)
             && inEnum memberships (f_membership f)
             && inEnum statuses status then
            Some (mk i uid a pt pm rp ro m st sd ed (Some now))
          else None
      | _, _, _, _, _ => None
      end
  | _, _, _, _, _ => None
  end.

End Payment.

End Mongoose.

Import Mongoose.

(* ================================================================== *)
(** ** The server's world and its handlers *)
(* ================================================================== *)

(** The two collections, the wall clock ([clock n] is what the [n]-th
    reading of the current time returns) and the supply of fresh
    ObjectIds. *)
Record World : Type := mkWorld {
  users : list User.doc;
  payments : list Payment.doc;
  clock : nat -> Z;
  ticks : nat;
  oids : nat -> ObjectId;
  made : nat
}.

Definition setUsers (us : list User.doc) (w : World) : World :=
  mkWorld us (payments w) (clock w) (ticks w) (oids w) (made w).

Definition setPayments (ps : list Payment.doc) (w : World) : World :=
  mkWorld (users w) ps (clock w) (ticks w) (oids w) (made w).

(** An awaited computation either returns or throws; what it wrote before
    throwing stays written. *)
Inductive Outcome (A : Type) : Type :=
| Returned (a : A)
| Thrown.
Arguments Returned {A} a.
Arguments Thrown {A}.

Definition M (A : Type) : Type := World -> Outcome A * World.

Definition ret {A} (a : A) : M A := fun w => (Returned a, w).

Definition throw {A} : M A := fun w => (Thrown, w).

Definition bind {A B} (m : M A) (k : A -> M B) : M B :=
  fun w =>
    match m w with
    | (Returned a, w') => k a w'
    | (Thrown, w') => (Thrown, w')
    end.

Declare Scope handler_scope.
Delimit Scope handler_scope with handler.
Notation "x <- m ;; k" := (bind m (fun x => k))
  (at level 100, m at next level, right associativity) : handler_scope.
Notation "m ;;; k" := (bind m (fun _ => k))
  (at level 100, right associativity) : handler_scope.
Local Open Scope handler_scope.

(** [new Date()] / [Date.now]: one reading of the clock. *)
Definition currentTime : M Z :=
  fun w =>
    (Returned (clock w (ticks w)),
     mkWorld (users w) (payments w) (clock w) (S (ticks w)) (oids w) (made w)).

Definition newObjectId : M ObjectId :=
  fun w =>
    (Returned (oids w (made w)),
     mkWorld (users w) (payments w) (clock w) (ticks w) (oids w) (S (made w))).

Definition eqbOpt (a b : option string) : bool :=
  match a, b with
  | Some x, Some y => String.eqb x y
  | None, None => true
  | _, _ => false
  end.

(** The filter [{ _id: id }] on a user, the string [id] standing for the
    ObjectId it spells; a string that spells none finds nobody. *)
Definition hasId (id : string) (d : User.doc) : bool :=
  match ofString id with
  | Some i => String.eqb (User._id d) i
  | None => false
  end.

(** The filter [{ userId: id }] on a payment. *)
Definition paidBy (id : string) (p : Payment.doc) : bool :=
  match ofString id with
  | Some i => String.eqb (Payment.userId p) i
  | None => false
  end.

Definition hasEmail (e : option string) (d : User.doc) : bool :=
  eqbOpt (User.email d) e.

(** Replace / remove the first document with a given [_id]. *)
Fixpoint replaceById (i : string) (d' : User.doc) (l : list User.doc)
  : list User.doc :=
  match l with
  | [] => []
  | d :: r => if hasId i d then d' :: r else d :: replaceById i d' r
  end.

Fixpoint removeById (i : string) (l : list User.doc) : list User.doc :=
  match l with
  | [] => []
  | d :: r => if hasId i d then r else d :: removeById i r
  end.

Module UserModel.

(** [User.findById(id)]: the id is cast to an ObjectId, and a string that
    spells none makes the query throw a CastError. *)
Definition findById (id : string) : M (option User.doc) :=
  match castObjectId id with
  | CastOk _ => fun w => (Returned (find (hasId id) (users w)), w)
  | _ => throw
  end.

(** [User.findOne({ email })]: the filter value goes through the String
    caster; a filter that is null, or undefined, which the driver sends as
    null, matches the documents without an email. *)
Definition findOneByEmail (e : Cast string) : M (option User.doc) :=
  match optional e with
  | None => throw
  | Some v => fun w => (Returned (find (hasEmail v) (users w)), w)
  end.

(** [new User({...})]: the document gets its [_id] and the [createdAt]
    default now, its validation waits for [save]. *)
Definition new (f : User.fields) : M (ObjectId * Z * User.fields) :=
  i <- newObjectId ;;
  now <- currentTime ;;
  ret (i, now, f).

(** [member.save()]: validation, then the insert, which the unique indexes
    on [_id] and on [email] can refuse.  The database is taken to answer:
    a write has no other way to fail. *)
Definition save (m : ObjectId * Z * User.fields) : M unit :=
  let '(i, now, f) := m in
  match User.validate i now f with
  | None => throw
  | Some d =>
      fun w =>
        if existsb (hasId i) (users w)
           || existsb (hasEmail (User.email d)) (users w)
        then (Thrown, w)
        else (Returned tt, setUsers (users w ++ [d]) w)
  end.

(** [User.findByIdAndUpdate(id, { $set: u }, { new: true })]: no
    validators run, the id and the values are cast, the unique index on
    [email] is enforced when the email changes.  The database is taken to
    answer: a write has no other way to fail. *)
Definition findByIdAndUpdate (i : string) (u : User.update)
  : M (option User.doc) :=
  if User.updateCastFailed u then throw
  else
    match castObjectId i with
    | CastOk _ => fun w =>
      match find (hasId i) (users w) with
      | None => (Returned None, w)
      | Some d =>
          let d' := User.applyUpdate u d in
          if negb (eqbOpt (User.email d) (User.email d'))
             && existsb (hasEmail (User.email d')) (users w)
          then (Thrown, w)
          else (Returned (Some d'), setUsers (replaceById i d' (users w)) w)
      end
    | _ => throw
    end.

(** [User.findByIdAndDelete(id)] *)
Definition findByIdAndDelete (i : string) : M (option User.doc) :=
  match castObjectId i with
  | CastOk _ =>
      fun w =>
        (Returned (find (hasId i) (users w)),
         setUsers (removeById i (users w)) w)
  | _ => throw
  end.

End UserModel.

Module PaymentModel.

Definition new (f : Payment.fields) : M (ObjectId * Z * Payment.fields) :=
  i <- newObjectId ;;
  now <- currentTime ;;
  ret (i, now, f).

(** [payment.save()]: validation, then the insert, which the index on
    [_id] can refuse and which, the database being taken to answer, has no
    other way to fail. *)
Definition save (p : ObjectId * Z * Payment.fields) : M unit :=
  let '(i, now, f) := p in
  match Payment.validate i now f with
  | None => throw
  | Some d =>
      fun w =>
        if existsb (fun x => String.eqb (Payment._id x) i) (payments w)
        then (Thrown, w)
        else (Returned tt, setPayments (payments w ++ [d]) w)
  end.

End PaymentModel.

(** *** Requests and responses *)

(** The claims of a verified token, [req.user].  The router that signs
    the tokens is not among the sources; the [id] it puts in a token is
    taken to be an account's [user.id], the hexadecimal form of an
    ObjectId. *)
Module Claims.
Record t : Type := mk { id : ObjectId; role : string }.
End Claims.

(** [req.body] of POST /members and PUT /members/:id. *)
Module MemberBody.
Record t : Type := mk {
  name : JsVal;
  email : JsVal;
  phone : JsVal;
  membershipType : JsVal;
  startDate : JsVal;
  endDate : JsVal;
  status : JsVal
}.
End MemberBody.

(** [req.body] of POST /payments/verify. *)
Module VerifyBody.
Record t : Type := mk {
  razorpayPaymentId : JsVal;
  razorpayOrderId : JsVal;
  razorpaySignature : JsVal;
  membership : JsVal;
  amount : JsVal
}.
End VerifyBody.

Inductive Json : Type :=
| Null
| Message (message : string)
| Member (member : User.doc)
| Success (message : string).

Record Response : Type := mkResponse { status : Z; json : Json }.

Definition respond (code : Z) (j : Json) : M Response :=
  ret (mkResponse code j).

(** [try { ... } catch (err) { res.status(500).json({ message: 'Server
    error' }) }] around a handler's body. *)
Definition tryCatch (body : M Response) (w : World) : Response * World :=
  match body w with
  | (Returned r, w') => (r, w')
  | (Thrown, w') => (mkResponse 500 (Message "Server error"), w')
  end.

(** Reading a property of [req.user] throws when there is no [req.user]. *)
Definition reqUser (user : option Claims.t) : M Claims.t :=
  match user with
  | Some u => ret u
  | None => throw
  end.

(** middleware/auth.js, [isAdmin]: the route's handler runs only for an
    admin. *)
Definition isAdmin (user : option Claims.t)
  (next : World -> Response * World) (w : World) : Response * World :=
  match user with
  | Some u =>
      if String.eqb (Claims.role u) "admin" then next w
      else (mkResponse 403 (Message "Unauthorized. Admin access required"), w)
  | None =>
      (mkResponse 403 (Message "Unauthorized. Admin access required"), w)
  end.

Inductive Plan : Type := monthly | quarterly | yearly.

Definition planName (p : Plan) : string :=
  match p with
  | monthly => "monthly"
  | quarterly => "quarterly"
  | yearly => "yearly"
  end.

Section Handlers.
Context {P : Platform}.

(** *** routes/members.js *)

(** GET /members/:id (admin or self) *)
Definition members_get_id (user : option Claims.t) (id : string)
  : World -> Response * World :=
  tryCatch (
    u <- reqUser user ;;
    if negb (String.eqb (Claims.role u) "admin")
       && negb (String.eqb (Claims.id u) id)
    then respond 403 (Message "Unauthorized")
    else
      member <- UserModel.findById id ;;
      match member with
      | None => respond 404 (Message "Member not found")
      | Some m => respond 200 (Member (User.selectNoPassword m))
      end).

(** POST /members (admin only) *)
Definition members_post (user : option Claims.t) (body : MemberBody.t)
  : World -> Response * World :=
  isAdmin user (tryCatch (
    member <- UserModel.findOneByEmail (castString (MemberBody.email body)) ;;
    match member with
    | Some _ => respond 400 (Message "User already exists")
    | None =>
        member <- UserModel.new
          (User.mkFields
             (castString (MemberBody.name body))
             (castString (MemberBody.email body))
             (CastOk (Some "123456"%string))
             (castString (MemberBody.phone body))
             (CastOk (Some "member"%string))
             (castString (MemberBody.membershipType body))
             (castDate (MemberBody.startDate body))
             (castDate (MemberBody.endDate body))) ;;
        UserModel.save member ;;;
        respond 201 (Message "Member added successfully")
    end)).

(** [if (field) memberFields.field = field;] *)
Definition ifSupplied {A} (cast : JsVal -> Cast A) (v : JsVal)
  : option (Cast A) :=
  if truthy v then Some (cast v) else None.

Definition memberFields (body : MemberBody.t) : User.update :=
  User.mkUpdate
    (ifSupplied castString (MemberBody.name body))
    (ifSupplied castString (MemberBody.email body))
    (ifSupplied castString (MemberBody.phone body))
    (ifSupplied castString (MemberBody.membershipType body))
    (ifSupplied castDate (MemberBody.startDate body))
    (ifSupplied castDate (MemberBody.endDate body))
    (ifSupplied castString (MemberBody.status body)).

Definition jsonOfMember (member : option User.doc) : Json :=
  match member with
  | Some m => Member (User.selectNoPassword m)
  | None => Null
  end.

(** PUT /members/:id (admin only) *)
Definition members_put_id (user : option Claims.t) (id : string)
  (body : MemberBody.t) : World -> Response * World :=
  isAdmin user (tryCatch (
    member <- UserModel.findById id ;;
    match member with
    | None => respond 404 (Message "Member not found")
    | Some _ =>
        member <- UserModel.findByIdAndUpdate id (memberFields body) ;;
        respond 200 (jsonOfMember member)
    end)).

(** DELETE /members/:id (admin only) *)
Definition members_delete_id (user : option Claims.t) (id : string)
  : World -> Response * World :=
  isAdmin user (tryCatch (
    member <- UserModel.findById id ;;
    match member with
    | None => respond 404 (Message "Member not found")
    | Some _ =>
        UserModel.findByIdAndDelete id ;;;
        respond 200 (Message "Member deleted")
    end)).

(** *** routes/payments.js *)

(** The membership date calculation of POST /verify, on the Date [endDate]
    that [new Date()] made with the time value [t]. *)
Definition membershipEnd (membership : JsVal) (t : Z) : Date :=
  if strictEqStr membership "monthly" then setMonth t (getMonth t + 1)
  else if strictEqStr membership "quarterly" then setMonth t (getMonth t + 3)
  else if strictEqStr membership "yearly" then
    setFullYear t (getFullYear t + 1)
  else Some t.

(** [amount / 100], rounded as a division of doubles is; dividing by 100
    cannot leave the range of the finite Numbers. *)
Definition paiseToINR (amount : JsVal) : option Q :=
  match ToNumber amount with
  | Some q => Some (Double.round (q / 100))
  | None => None
  end.

(** POST /payments/verify (any authenticated caller).  The body's
    [razorpaySignature] is destructured and never used. *)
Definition payments_post_verify (user : option Claims.t)
  (body : VerifyBody.t) : World -> Response * World :=
  tryCatch (
    let membership := VerifyBody.membership body in
    startDate <- currentTime ;;
    endDate <- currentTime ;;
    let endDate := membershipEnd membership endDate in
    u <- reqUser user ;;
    payment <- PaymentModel.new
      (Payment.mkFields
         (castObjectId (Claims.id u))
         (castNumber (paiseToINR (VerifyBody.amount body)))
         (CastOk (Some "membership"%string))
         (CastOk (Some "card"%string))
         (castString (VerifyBody.razorpayPaymentId body))
         (castString (VerifyBody.razorpayOrderId body))
         (castString membership)
         (CastOk (Some "completed"%string))
         (CastOk (Some startDate))
         (castDateObject endDate)) ;;
    PaymentModel.save payment ;;;
    UserModel.findByIdAndUpdate (Claims.id u)
      (User.mkUpdate None None None
         (Some (castString membership))
         (Some (CastOk (Some startDate)))
         (Some (castDateObject endDate))
         (Some (CastOk (Some "active"%string)))) ;;;
    respond 200 (Success "Payment verified and membership updated")).

(** The membership window the handler computes when the current moment is
    [d] at both of its readings of the clock. *)
Definition computeWindow (p : Plan) (d : Z) : Date * Date :=
  (Some d, membershipEnd (JStr (planName p)) d).

End Handlers.

(** *** src/pages/user/Dashboard.js *)

(** The arithmetic of [getDaysRemaining] on the time values of [endDate]
    and [today]: the difference and the quotient are each rounded to a
    double, and [Math.ceil] is taken of the rounded quotient. *)
Definition daysRemaining (endDate today : Z) : Z :=
  let diffTime := Double.round (inject_Z (endDate - today)) in
  let diffDays :=
    Qceiling (Double.round (diffTime / inject_Z (1000 * 60 * 60 * 24))) in
  if diffDays >? 0 then diffDays else 0.

(** [getDaysRemaining()], [field] being [membershipData?.endDate] and
    [today] the reading of the clock.  With an Invalid Date every
    comparison is false and the function returns 0. *)
Definition getDaysRemaining {P : Platform} (field : JsVal) (today : Z) : Z :=
  if negb (truthy field) then 0
  else
    match newDateOf field with
    | Some endDate => daysRemaining endDate today
    | None => 0
    end.

(* ================================================================== *)
(** ** Concrete platforms, worlds and requests *)
(* ================================================================== *)

(** A server running in UTC; strings are not read as dates or numbers. *)
#[local] Instance utcPlatform : Platform := {|
  LocalTZA := fun _ _ => 0;
  DateParse := fun _ => None;
  StringToNumber := fun _ => None;
  NumberToString := fun _ => "0"%string;
  LocalTZA_bound := fun _ _ => eq_refl;
  NumberToString_nonempty := fun _ => ltac:(discriminate)
|}.

(** A server five hours behind UTC whose clocks went an hour forward on
    March 10th, 2024 at 07:00 UTC, 02:00 of its local time.  A local time
    in the hour skipped is read with the offset before the change, as
    ECMAScript has it. *)
Definition springForward : Platform := {|
  LocalTZA := fun t isUTC =>
    if isUTC then (if t <? 1710054000000 then -18000000 else -14400000)
    else (if t <? 1710039600000 then -18000000 else -14400000);
  DateParse := fun _ => None;
  StringToNumber := fun _ => None;
  NumberToString := fun _ => "0"%string;
  LocalTZA_bound := fun t b =>
    match b with
    | true =>
        match t <? 1710054000000 as c
        return Z.abs (if c then -18000000 else -14400000) < msPerDay with
        | true => eq_refl
        | false => eq_refl
        end
    | false =>
        match t <? 1710039600000 as c
        return Z.abs (if c then -18000000 else -14400000) < msPerDay with
        | true => eq_refl
        | false => eq_refl
        end
    end;
  NumberToString_nonempty := fun _ => ltac:(discriminate)
|}.

(** JS [a > b] on two Dates: false as soon as one of them is invalid. *)
Definition dateGt (a b : Date) : bool :=
  match a, b with
  | Some x, Some y => x >? y
  | _, _ => false
  end.

(** The calendar month a plan leads to from month [m] of year [y]: one
    month later, three months later, the same month of the next year. *)
Definition targetMonth (p : Plan) (y m : Z) : Z * Z :=
  match p with
  | monthly => (y + (m + 1) / 12, (m + 1) mod 12)
  | quarterly => (y + (m + 3) / 12, (m + 3) mod 12)
  | yearly => (y + 1, m)
  end.

(** The local time one plan after [d]: the same date and time of day in
    the target month, the date counted on into the following month when
    the target month is too short for it. *)
Definition shiftedLocal {P : Platform} (p : Plan) (d : Z) : Z :=
  let t := LocalTime d in
  let ym := targetMonth p (YearFromTime t) (MonthFromTime t) in
  MakeDate (MakeDay (fst ym) (snd ym) (DateFromTime t)) (TimeWithinDay t).

(** An empty value of a stored field: null, or the empty string. *)
Definition blank (v : option string) : bool :=
  match v with
  | None => true
  | Some s => String.eqb s EmptyString
  end.

Definition noDate (v : option Z) : bool :=
  match v with
  | None => true
  | Some _ => false
  end.

(** What MongoDB keeps true of the users collection: the index on [_id]
    and the schema's unique index on [email]. *)
Definition uniqueIds (w : World) : Prop := NoDup (map User._id (users w)).
Definition uniqueEmails (w : World) : Prop :=
  NoDup (map User.email (users w)).

(** *** A small gym *)

Definition ashaId : ObjectId := oid "65e1a2b3c4d5e6f7a8b9c0d1".
Definition ownerId : ObjectId := oid "6592d4e5f6a7b8c9d0e1f2a3".

(** An ObjectId no account has. *)
Definition ghostId : ObjectId := oid "60f0e0d0c0b0a09080706050".

(** The member of the end-to-end scenario: Asha, monthly from 2024-03-01 to
    2024-04-01. *)
Definition asha : User.doc :=
  User.mk ashaId (Some "Asha") (Some "a@x.com") (Some "123456")
    (Some "9999999999") (Some "member") (Some "monthly")
    (Some 1709251200000) (Some 1711929600000) (Some "active")
    (Some 1709251200000).

Definition owner : User.doc :=
  User.mk ownerId (Some "Owner") (Some "owner@x.com") (Some "secret")
    (Some "8888888888") (Some "admin") None None None (Some "active")
    (Some 1704067200000).

Definition adminClaims : Claims.t := Claims.mk ownerId "admin".
Definition ashaClaims : Claims.t := Claims.mk ashaId "member".

(** The claims of a token whose account is no longer (or never was) in the
    collection. *)
Definition ghostClaims : Claims.t := Claims.mk ghostId "member".

Definition freshIds (n : nat) : ObjectId :=
  match n with
  | O => oid "665a5c000000000000000001"
  | S O => oid "665a5c000000000000000002"
  | S (S O) => oid "665a5c000000000000000003"
  | _ => oid "665a5c000000000000000004"
  end.

(** A clock at 2024-06-01T00:00:00Z whose readings come one millisecond
    after one another. *)
Definition tickingClock (n : nat) : Z :=
  match n with
  | O => 1717200000000
  | S O => 1717200000001
  | _ => 1717200000002
  end.

Definition gym : World := mkWorld [owner; asha] [] tickingClock 0 freshIds 0.

(** The patch of the end-to-end scenario: the membership type and nothing
    else. *)
Definition yearlyOnly : MemberBody.t :=
  MemberBody.mk JUndefined JUndefined JUndefined (JStr "yearly") JUndefined
                JUndefined JUndefined.

(** A patch that supplies only falsy values. *)
Definition falsyPatch : MemberBody.t :=
  MemberBody.mk (JStr "") JNull (JNum 0) (JBool false) (JStr "") JNull
                (JStr "").

(** A new member, with a timestamp for the start and for the end date. *)
Definition ravi : MemberBody.t :=
  MemberBody.mk (JStr "Ravi") (JStr "r@x.com") (JStr "7777777777")
                (JStr "monthly") (JNum 1717200000000) (JNum 1719792000000)
                JUndefined.

(** Somebody else with Ravi's email. *)
Definition raviAgain : MemberBody.t :=
  MemberBody.mk (JStr "Ravi K") (JStr "r@x.com") (JStr "6666666666")
                (JStr "yearly") (JNum 1717200000000) (JNum 1748736000000)
                JUndefined.

(** A verify request: identifiers the caller made up, and a signature. *)
Definition verifyBody (signature : JsVal) (plan : string) : VerifyBody.t :=
  VerifyBody.mk (JStr "pay_made_up") (JStr "order_made_up") signature
                (JStr plan) (JNum 1200000).

(* ================================================================== *)
(** ** The other routes, the middleware and the mounting of the routers *)
(* ================================================================== *)

(** [s.split(sep)] for a one-character separator: the pieces between the
    separators, one piece more than there are separators. *)
Fixpoint split (sep : ascii) (s : string) : list string :=
  match s with
  | EmptyString => [EmptyString]
  | String c r =>
      if Ascii.eqb c sep then EmptyString :: split sep r
      else
        match split sep r with
        | piece :: pieces => String c piece :: pieces
        | [] => [String c EmptyString]
        end
  end.

(** Whether the character [c] occurs in [s]. *)
Fixpoint occurs (c : ascii) (s : string) : bool :=
  match s with
  | EmptyString => false
  | String x r => Ascii.eqb x c || occurs c r
  end.

(** [authHeader && authHeader.split(' ')[1]]: [None] is undefined; an
    empty header is falsy and is its own result. *)
Definition tokenOf (authHeader : option string) : option string :=
  match authHeader with
  | None => None
  | Some h =>
      if String.eqb h EmptyString then Some EmptyString
      else nth_error (split " " h) 1
  end.

(** What the two libraries the routes call answer: [jwt.verify(token,
    secret)] gives the token's claims or throws ([None]);
    [razorpay.orders.create(options, callback)] throws, or calls back with
    an error, or calls back with the order it created. *)
Module Order.
Record options : Type := mkOptions {
  o_amount : Double.Number;
  o_currency : string;
  o_receipt : string
}.
Record t : Type := mk { id : string; amount : Q; currency : string }.
End Order.

Inductive GatewayResult : Type :=
| GatewayThrew
| GatewayError
| GatewayOrder (order : Order.t).

Class Services := {
  jwtVerify : string -> option Claims.t;
  ordersCreate : Order.options -> GatewayResult
}.

(** [req.body] of POST /payments/create-order. *)
Module OrderBody.
Record t : Type := mk { amount : JsVal; membership : JsVal }.
End OrderBody.

(** The owner of a payment as [populate('userId', 'name email')] fills it
    in. *)
Module Owner.
Record t : Type := mk {
  _id : ObjectId;
  name : option string;
  email : option string
}.
End Owner.

(** The bodies the routes answer with: those of the handlers above, the
    arrays and the order of the other routes, and any other body, as its
    JSON text, for the routers that are not among the sources. *)
Inductive Payload : Type :=
| Plain (j : Json)
| MemberList (members : list User.doc)
| PaymentList (payments : list Payment.doc)
| PaymentsWithOwner (payments : list (Payment.doc * option Owner.t))
| OrderJson (id : string) (amount : Q) (currency : string)
| Other (body : string).

Record Reply : Type := mkReply { code : Z; payload : Payload }.

Definition lift (h : World -> Response * World) (w : World) : Reply * World :=
  let (r, w') := h w in (mkReply (status r) (Plain (json r)), w').

Definition reply (c : Z) (p : Payload) : M Reply := ret (mkReply c p).

Definition tryCatchReply (body : M Reply) (w : World) : Reply * World :=
  match body w with
  | (Returned r, w') => (r, w')
  | (Thrown, w') => (mkReply 500 (Plain (Message "Server error")), w')
  end.

(** [isAdmin] in front of a route that answers with an array. *)
Definition isAdminReply (user : option Claims.t)
  (next : World -> Reply * World) (w : World) : Reply * World :=
  match user with
  | Some u =>
      if String.eqb (Claims.role u) "admin" then next w
      else (mkReply 403 (Plain (Message "Unauthorized. Admin access required")),
            w)
  | None =>
      (mkReply 403 (Plain (Message "Unauthorized. Admin access required")), w)
  end.

(** [User.find({ role: 'member' }).select('-password')] *)
Definition findMembers : M (list User.doc) :=
  fun w =>
    (Returned
       (map User.selectNoPassword
            (filter (fun d => User.isMember (User.role d)) (users w))),
     w).

(** [Payment.find({ userId })]: the id is cast to an ObjectId, and a
    string that spells none makes the query throw a CastError. *)
Definition findPaymentsOf (userId : string) : M (list Payment.doc) :=
  match castObjectId userId with
  | CastOk _ => fun w => (Returned (filter (paidBy userId) (payments w)), w)
  | _ => throw
  end.

Definition ownerOf (d : User.doc) : Owner.t :=
  Owner.mk (User._id d) (User.name d) (User.email d).

(** [Payment.find().populate('userId', 'name email')]: a payment whose
    owner is not in the users collection gets null for it. *)
Definition findPaymentsPopulated : M (list (Payment.doc * option Owner.t)) :=
  fun w =>
    (Returned
       (map (fun p =>
               (p, option_map ownerOf
                     (find (hasId (Payment.userId p)) (users w))))
            (payments w)),
     w).

Section OtherRoutes.
Context {P : Platform} {Sv : Services}.

(** routes/members.js, GET / (admin only) *)
Definition members_get (user : option Claims.t) : World -> Reply * World :=
  isAdminReply user (tryCatchReply (
    members <- findMembers ;;
    reply 200 (MemberList members))).

(** routes/payments.js, GET / (admin only) *)
Definition payments_get (user : option Claims.t) : World -> Reply * World :=
  isAdminReply user (tryCatchReply (
    payments <- findPaymentsPopulated ;;
    reply 200 (PaymentsWithOwner payments))).

(** routes/payments.js, GET /user/:userId (admin or self) *)
Definition payments_get_user (user : option Claims.t) (userId : string)
  : World -> Reply * World :=
  tryCatchReply (
    u <- reqUser user ;;
    if negb (String.eqb (Claims.role u) "admin")
       && negb (String.eqb (Claims.id u) userId)
    then reply 403 (Plain (Message "Unauthorized"))
    else
      payments <- findPaymentsOf userId ;;
      reply 200 (PaymentList payments)).

(** [amount * 100], rounded as a product of doubles is, and infinite when
    it leaves their range. *)
Definition inrToPaise (amount : JsVal) : Double.Number :=
  match ToNumber amount with
  | Some q => Double.overflowing (q * 100)
  | None => Double.NaN
  end.

(** routes/payments.js, POST /create-order (any authenticated caller).
    The body's [membership] is destructured and never used. *)
Definition payments_post_create_order (user : option Claims.t)
  (body : OrderBody.t) : World -> Reply * World :=
  tryCatchReply (
    now <- currentTime ;;
    let options :=
      Order.mkOptions
        (inrToPaise (OrderBody.amount body))
        "INR"
        (String.append "receipt_" (NumberToString (inject_Z now))) in
    match ordersCreate options with
    | GatewayThrew => throw
    | GatewayError => reply 500 (Plain (Message "Error creating order"))
    | GatewayOrder order =>
        reply 200 (OrderJson (Order.id order) (Order.amount order)
                             (Order.currency order))
    end).

(** The requests the two routers answer. *)
Inductive Route : Type :=
| GetMembers
| GetMember (id : string)
| PostMember (body : MemberBody.t)
| PutMember (id : string) (body : MemberBody.t)
| DeleteMember (id : string)
| GetPayments
| GetUserPayments (userId : string)
| PostCreateOrder (body : OrderBody.t)
| PostVerify (body : VerifyBody.t).

Definition dispatch (user : option Claims.t) (route : Route)
  : World -> Reply * World :=
  match route with
  | GetMembers => members_get user
  | GetMember id => lift (members_get_id user id)
  | PostMember body => lift (members_post user body)
  | PutMember id body => lift (members_put_id user id body)
  | DeleteMember id => lift (members_delete_id user id)
  | GetPayments => payments_get user
  | GetUserPayments userId => payments_get_user user userId
  | PostCreateOrder body => payments_post_create_order user body
  | PostVerify body => lift (payments_post_verify user body)
  end.

(** middleware/auth.js, [authenticateToken], [authHeader] being
    [req.header('Authorization')]. *)
Definition authenticateToken (authHeader : option string)
  (next : option Claims.t -> World -> Reply * World) (w : World)
  : Reply * World :=
  match tokenOf authHeader with
  | None =>
      (mkReply 401 (Plain (Message "Access denied. No token provided")), w)
  | Some token =>
      if String.eqb token EmptyString then
        (mkReply 401 (Plain (Message "Access denied. No token provided")), w)
      else
        match jwtVerify token with
        | Some decoded => next (Some decoded) w
        | None => (mkReply 401 (Plain (Message "Invalid token")), w)
        end
  end.

(** [app.use('/api/members', authenticateToken, routes.memberRoutes)] and
    [app.use('/api/payments', authenticateToken, routes.paymentRoutes)]:
    the two routers whose files are among the sources. *)
Definition serve (authHeader : option string) (route : Route)
  : World -> Reply * World :=
  authenticateToken authHeader (fun user => dispatch user route).

End OtherRoutes.

(** [routes/index.js] also exports an auth, a plan and a report router.
    Their files are not among the sources: what each of them does with a
    request is a parameter. *)
Class AbsentRouters := {
  AbsentRequest : Type;
  authRoutes : AbsentRequest -> World -> Reply * World;
  planRoutes : option Claims.t -> AbsentRequest -> World -> Reply * World;
  reportRoutes : option Claims.t -> AbsentRequest -> World -> Reply * World
}.

Section App.
Context {P : Platform} {Sv : Services} {Ab : AbsentRouters}.

(** A request, by the mount point its path falls under. *)
Inductive Request : Type :=
| ApiAuth (r : AbsentRequest)
| Api (route : Route)
| ApiPlans (r : AbsentRequest)
| ApiReports (r : AbsentRequest).

(** server.js, the five [app.use]: the auth router is mounted as it is,
    the four others behind [authenticateToken]. *)
Definition app (authHeader : option string) (request : Request)
  : World -> Reply * World :=
  match request with
  | ApiAuth r => authRoutes r
  | Api route => serve authHeader route
  | ApiPlans r =>
      authenticateToken authHeader (fun user => planRoutes user r)
  | ApiReports r =>
      authenticateToken authHeader (fun user => reportRoutes user r)
  end.

End App.

(** Dashboard.js, the condition of the "Upcoming Payment" alert:
    [getDaysRemaining() <= 30]. *)
Definition paymentAlert {P : Platform} (field : JsVal) (today : Z) : bool :=
  getDaysRemaining field today <=? 30.

(** *** Services for the small gym *)

(** Two tokens are valid, Asha's and the owner's; the gateway creates the
    order it is asked for, and calls back with an error when the amount is
    not a finite number. *)
#[local] Instance gymServices : Services := {|
  jwtVerify := fun token =>
    if String.eqb token "asha.token" then Some ashaClaims
    else if String.eqb token "owner.token" then Some adminClaims
    else None;
  ordersCreate := fun options =>
    match Order.o_amount options with
    | Double.Finite a =>
        GatewayOrder (Order.mk "order_1" a (Order.o_currency options))
    | _ => GatewayError
    end
|}.

(** Asha's completed payment for June 2024. *)
Definition junePayment : Payment.doc :=
  Payment.mk (oid "665a5c0000000000000000f1") ashaId 1200 (Some "membership") "card" (Some "pay_1")
    (Some "order_1") (Some "monthly") (Some "completed")
    (Some 1717200000000) (Some 1719792000000) (Some 1717200000000).

(** The gym with that payment on its books. *)
Definition gymWithPayment : World :=
  mkWorld [owner; asha] [junePayment] tickingClock 0 freshIds 0.

(* ================================================================== *)
(** ** Rounding to a double *)
(* ================================================================== *)

Import Double.

Section Rounding.

Local Open Scope Q_scope.

Lemma pow2_pos e : 0 < pow2 e.
Proof. apply Qpower_0_lt. reflexivity. Qed.

Lemma pow2_add a b : pow2 (a + b) == pow2 a * pow2 b.
Proof. apply Qpower_plus. discriminate. Qed.

Lemma pow2_le a b : (a <= b)%Z -> pow2 a <= pow2 b.
Proof. intros H. apply Qpower_le_compat_l; [assumption | discriminate]. Qed.

Lemma pow2_lt a b : (a < b)%Z -> pow2 a < pow2 b.
Proof. intros H. apply Qpower_lt_compat_l; [assumption | reflexivity]. Qed.

Lemma pow2_lt_inv a b : pow2 a < pow2 b -> (a < b)%Z.
Proof. intros H. apply (Qpower_lt_compat_l_inv 2); [assumption | reflexivity]. Qed.

Lemma pow2_Z n : (0 <= n)%Z -> pow2 n == inject_Z (2 ^ n).
Proof. intros H. symmetry. apply (Zpower_Qpower 2 n H). Qed.

Lemma pow2_sub a b : pow2 (a - b) == pow2 a / pow2 b.
Proof.
  unfold Z.sub. rewrite pow2_add. unfold pow2. rewrite Qpower_opp. reflexivity.
Qed.


Lemma pow2_shift n e : (0 <= n)%Z -> inject_Z (2 ^ n) * pow2 e == pow2 (n + e).
Proof. intros H. rewrite pow2_add, (pow2_Z n H). reflexivity. Qed.

(** [ilog2 x] is the binary exponent of a positive [x]. *)
Lemma ilog2_spec x : 0 < x -> pow2 (ilog2 x) <= x < pow2 (ilog2 x + 1).
Proof.
  intros Hx. unfold ilog2.
  destruct x as [n d]. cbn [Qnum Qden].
  assert (Hn : (0 < n)%Z) by (unfold Qlt in Hx; cbn in Hx; lia).
  set (a := Z.log2 n). set (b := Z.log2 (Zpos d)).
  assert (Ha : (2 ^ a <= n < 2 ^ (a + 1))%Z).
  { unfold a. pose proof (Z.log2_spec n Hn). rewrite <- Z.add_1_r in H. lia. }
  assert (Hb : (2 ^ b <= Zpos d < 2 ^ (b + 1))%Z).
  { unfold b. pose proof (Z.log2_spec (Zpos d) eq_refl).
    rewrite <- Z.add_1_r in H. lia. }
  assert (Ha0 : (0 <= a)%Z) by apply Z.log2_nonneg.
  assert (Hb0 : (0 <= b)%Z) by apply Z.log2_nonneg.
  assert (Hnd : n # d == inject_Z n / inject_Z (Zpos d)) by apply Qmake_Qdiv.
  assert (Hd : 0 < inject_Z (Zpos d)) by reflexivity.
  assert (Hlow : pow2 (a - b - 1) < n # d).
  { rewrite Hnd. apply Qlt_shift_div_l; [assumption|].
    apply Qlt_le_trans with (pow2 (a - b - 1) * pow2 (b + 1)).
    - apply Qmult_lt_l; [apply pow2_pos|].
      rewrite (pow2_Z (b + 1)) by lia. rewrite <- Zlt_Qlt. lia.
    - rewrite <- pow2_add. replace (a - b - 1 + (b + 1))%Z with a by lia.
      rewrite (pow2_Z a Ha0). rewrite <- Zle_Qle. lia. }
  assert (Hhigh : n # d < pow2 (a - b + 1)).
  { rewrite Hnd. apply Qlt_shift_div_r; [assumption|].
    apply Qlt_le_trans with (pow2 (a - b + 1) * pow2 b).
    - rewrite <- pow2_add. replace (a - b + 1 + b)%Z with (a + 1)%Z by lia.
      rewrite (pow2_Z (a + 1)) by lia. rewrite <- Zlt_Qlt. lia.
    - apply Qmult_le_l; [apply pow2_pos|].
      rewrite (pow2_Z b Hb0). rewrite <- Zle_Qle. lia. }
  destruct (Qle_bool (pow2 (a - b)) (n # d)) eqn:Hc.
  - apply Qle_bool_iff in Hc. split; assumption.
  - replace (a - b - 1 + 1)%Z with (a - b)%Z by lia. split.
    + apply Qlt_le_weak. assumption.
    + apply Qnot_le_lt. intros H. apply Qle_bool_iff in H. congruence.
Qed.

Lemma ilog2_lt x k : 0 < x -> x < pow2 k -> (ilog2 x < k)%Z.
Proof.
  intros Hx H. destruct (ilog2_spec x Hx) as [Hl _].
  apply pow2_lt_inv. apply Qle_lt_trans with x; assumption.
Qed.

Lemma ilog2_ge x k : 0 < x -> pow2 k <= x -> (k <= ilog2 x)%Z.
Proof.
  intros Hx H. destruct (ilog2_spec x Hx) as [_ Hh].
  assert (k < ilog2 x + 1)%Z; [|lia].
  apply pow2_lt_inv. apply Qle_lt_trans with x; assumption.
Qed.

Lemma ilog2_mono x y : 0 < x -> x <= y -> (ilog2 x <= ilog2 y)%Z.
Proof.
  intros Hx Hxy. destruct (ilog2_spec x Hx) as [Hl _].
  apply ilog2_ge; [apply Qlt_le_trans with x; assumption|].
  apply Qle_trans with x; assumption.
Qed.

(** *** Rounding to the nearest integer, ties to even *)

Lemma rne_cases y :
  let f := Qfloor y in
  inject_Z f <= y < inject_Z (f + 1) /\
  ((y - inject_Z f < 1 # 2 /\ rne y = f)
   \/ (1 # 2 < y - inject_Z f /\ rne y = (f + 1)%Z)
   \/ (y - inject_Z f == 1 # 2
       /\ rne y = if Z.even f then f else (f + 1)%Z)).
Proof.
  cbv zeta. split; [split; [apply Qfloor_le | apply Qlt_floor]|].
  unfold rne. destruct (Qcompare_spec (y - inject_Z (Qfloor y)) (1 # 2));
    [right; right | left | right; left]; auto.
Qed.

Lemma rne_near y : inject_Z (rne y) - (1 # 2) <= y <= inject_Z (rne y) + (1 # 2).
Proof.
  destruct (rne_cases y) as [[Hl Hh] [[H ->] | [[H ->] | [H ->]]]];
    rewrite ?inject_Z_plus in *; cbn [inject_Z] in *.
  - lra.
  - change (inject_Z 1) with 1 in *. lra.
  - destruct (Z.even (Qfloor y)); rewrite ?inject_Z_plus;
      change (inject_Z 1) with 1 in *; lra.
Qed.

Lemma rne_Z z : rne (inject_Z z) = z.
Proof.
  unfold rne. rewrite Qfloor_Z.
  destruct (Qcompare_spec (inject_Z z - inject_Z z) (1 # 2)) as [H | H | H];
    [lra | reflexivity | lra].
Qed.

Lemma rne_comp y y' : y == y' -> rne y = rne y'.
Proof.
  intros H. unfold rne. rewrite (Qfloor_comp _ _ H).
  rewrite H. reflexivity.
Qed.

Ltac case_even :=
  match goal with
  | |- context [Z.even ?f] => destruct (Z.even f)
  end.

Lemma rne_mono y y' : y <= y' -> (rne y <= rne y')%Z.
Proof.
  intros H. pose proof (Qfloor_resp_le _ _ H) as Hf.
  destruct (rne_cases y) as [[Hl Hh] Hy].
  destruct (rne_cases y') as [[Hl' Hh'] Hy'].
  rewrite inject_Z_plus in Hh, Hh'. change (inject_Z 1) with 1 in *.
  destruct (Z.eq_dec (Qfloor y) (Qfloor y')) as [He | Hne].
  - rewrite <- He in *.
    destruct Hy as [[H1 ->] | [[H1 ->] | [H1 ->]]];
    destruct Hy' as [[H2 ->] | [[H2 ->] | [H2 ->]]];
      try lia; try lra; destruct (Z.even (Qfloor y)); try lia; lra.
  - assert (Qfloor y + 1 <= Qfloor y')%Z by lia.
    assert (rne y <= Qfloor y + 1)%Z
      by (destruct Hy as [[_ ->] | [[_ ->] | [_ ->]]]; try case_even; lia).
    assert (Qfloor y' <= rne y')%Z
      by (destruct Hy' as [[_ ->] | [[_ ->] | [_ ->]]]; try case_even; lia).
    lia.
Qed.

Lemma rne_opp y : rne (- y) = (- rne y)%Z.
Proof.
  destruct (rne_cases y) as [[Hl Hh] Hy].
  destruct (rne_cases (- y)) as [[Hl' Hh'] Hy'].
  rewrite inject_Z_plus in Hh, Hh'. change (inject_Z 1) with 1 in *.
  set (f := Qfloor y) in *. set (g := Qfloor (- y)) in *.
  assert (Hfg : (g = - f \/ g = - f - 1)%Z).
  { assert (inject_Z g < inject_Z (- f + 1)) by
      (rewrite inject_Z_plus, inject_Z_opp; change (inject_Z 1) with 1; lra).
    assert (inject_Z (- f - 2) < inject_Z g).
    { unfold Z.sub. rewrite inject_Z_plus, inject_Z_opp.
      change (inject_Z (- (2))) with (-2). lra. }
    rewrite <- Zlt_Qlt in *. lia. }
  destruct Hfg as [Hg | Hg].
  - assert (Hy0 : y == inject_Z f).
    { rewrite Hg, inject_Z_opp in Hl'. lra. }
    rewrite (rne_comp _ _ Hy0), rne_Z.
    assert (Hy1 : - y == inject_Z (- f)) by (rewrite inject_Z_opp; lra).
    rewrite (rne_comp _ _ Hy1), rne_Z. reflexivity.
  - assert (Hgq : inject_Z g == - inject_Z f - 1).
    { rewrite Hg. unfold Z.sub. rewrite inject_Z_plus, inject_Z_opp.
      change (inject_Z (- (1))) with (-1). lra. }
    rewrite Hgq in *.
    assert (Hev : Z.even g = negb (Z.even f)).
    { rewrite Hg. rewrite Z.even_sub, Z.even_opp. cbn.
      destruct (Z.even f); reflexivity. }
    destruct Hy as [[H1 ->] | [[H1 ->] | [H1 ->]]];
    destruct Hy' as [[H2 ->] | [[H2 ->] | [H2 ->]]];
      try lra; try lia.
    rewrite Hev. destruct (Z.even f); cbn [negb]; lia.
Qed.

(** *** Rounding to a double *)

Lemma Qabs_opp_eq x : Qabs (- x) = Qabs x.
Proof. destruct x as [n d]. cbn. rewrite Z.abs_opp. reflexivity. Qed.

Lemma Qabs_pos_eq x : 0 < x -> Qabs x = x.
Proof.
  destruct x as [n d]. unfold Qlt. cbn. intros H.
  rewrite Z.abs_eq by lia. reflexivity.
Qed.

Lemma fexp_opp x : fexp (- x) = fexp x.
Proof. unfold fexp. rewrite Qabs_opp_eq. reflexivity. Qed.

Lemma round_zero x : x == 0 -> round x == 0.
Proof. intros H. unfold round. rewrite (Qeq_eq_bool _ _ H). reflexivity. Qed.

Lemma round_nonzero x :
  ~ x == 0 ->
  round x = inject_Z (rne (x / pow2 (fexp x))) * pow2 (fexp x).
Proof.
  intros H. unfold round. destruct (Qeq_bool x 0) eqn:E; [|reflexivity].
  apply Qeq_bool_iff in E. contradiction.
Qed.

Lemma round_opp x : round (- x) == - round x.
Proof.
  destruct (Qeq_dec x 0) as [H0 | Hn].
  - rewrite (round_zero x H0). apply round_zero. lra.
  - rewrite (round_nonzero x Hn), (round_nonzero (- x)) by lra.
    rewrite fexp_opp.
    assert (H : - x / pow2 (fexp x) == - (x / pow2 (fexp x)))
      by (unfold Qdiv; ring).
    rewrite (rne_comp _ _ H), rne_opp, inject_Z_opp. ring.
Qed.

(** The result is within half a unit in the last place of the argument. *)
Lemma round_error x :
  round x - (1 # 2) * pow2 (fexp x) <= x
  <= round x + (1 # 2) * pow2 (fexp x).
Proof.
  pose proof (pow2_pos (fexp x)) as Hp.
  destruct (Qeq_dec x 0) as [H0 | Hn].
  - pose proof (round_zero x H0). split; lra.
  - rewrite (round_nonzero x Hn).
    set (p := pow2 (fexp x)) in *. set (m := inject_Z (rne (x / p))).
    pose proof (rne_near (x / p)) as [Hl Hh]. fold m in Hl, Hh.
    assert (Hx : x == x / p * p) by (field; lra).
    assert (H1 : (m - (1 # 2)) * p <= x / p * p)
      by (apply Qmult_le_compat_r; lra).
    assert (H2 : x / p * p <= (m + (1 # 2)) * p)
      by (apply Qmult_le_compat_r; lra).
    split; lra.
Qed.

Lemma round_nonneg x : 0 <= x -> 0 <= round x.
Proof.
  intros Hx. destruct (Qeq_dec x 0) as [H0 | Hn].
  - rewrite (round_zero x H0). lra.
  - rewrite (round_nonzero x Hn). pose proof (pow2_pos (fexp x)) as Hp.
    apply Qmult_le_0_compat; [|lra].
    change 0 with (inject_Z 0). rewrite <- Zle_Qle.
    rewrite <- (rne_Z 0). apply rne_mono.
    apply Qle_shift_div_l; [assumption|]. change (inject_Z 0) with 0. lra.
Qed.

Lemma round_nonpos x : x <= 0 -> round x <= 0.
Proof.
  intros Hx. pose proof (round_nonneg (- x) ltac:(lra)) as H.
  rewrite round_opp in H. lra.
Qed.

(** A value on the grid of its own exponent is not changed. *)
Lemma round_exact x m :
  x == inject_Z m * pow2 (fexp x) -> round x == x.
Proof.
  intros H. pose proof (pow2_pos (fexp x)) as Hp.
  destruct (Qeq_dec x 0) as [H0 | Hn].
  - rewrite (round_zero x H0). lra.
  - rewrite (round_nonzero x Hn).
    assert (Hd : x / pow2 (fexp x) == inject_Z m).
    { rewrite H at 1. field. lra. }
    rewrite (rne_comp _ _ Hd), rne_Z. lra.
Qed.

(** Rounding never crosses a value of the grid. *)
Lemma round_le_grid x m :
  ~ x == 0 -> x <= inject_Z m * pow2 (fexp x) ->
  round x <= inject_Z m * pow2 (fexp x).
Proof.
  intros Hn H. pose proof (pow2_pos (fexp x)) as Hp.
  rewrite (round_nonzero x Hn).
  apply Qmult_le_compat_r; [|lra].
  rewrite <- Zle_Qle. rewrite <- (rne_Z m). apply rne_mono.
  apply Qle_shift_div_r; assumption.
Qed.

Lemma round_ge_grid x m :
  ~ x == 0 -> inject_Z m * pow2 (fexp x) <= x ->
  inject_Z m * pow2 (fexp x) <= round x.
Proof.
  intros Hn H. pose proof (pow2_pos (fexp x)) as Hp.
  rewrite (round_nonzero x Hn).
  apply Qmult_le_compat_r; [|lra].
  rewrite <- Zle_Qle. rewrite <- (rne_Z m) at 1. apply rne_mono.
  apply Qle_shift_div_l; assumption.
Qed.

Lemma round_mono_pos x y : 0 < x -> x <= y -> round x <= round y.
Proof.
  intros Hx Hxy.
  assert (Hy : 0 < y) by lra.
  assert (Hnx : ~ x == 0) by lra. assert (Hny : ~ y == 0) by lra.
  pose proof (ilog2_mono x y Hx Hxy) as Hk.
  assert (Hex : fexp x = Z.max (ilog2 x - 52) (-1074))
    by (unfold fexp; rewrite (Qabs_pos_eq x Hx); reflexivity).
  assert (Hey : fexp y = Z.max (ilog2 y - 52) (-1074))
    by (unfold fexp; rewrite (Qabs_pos_eq y Hy); reflexivity).
  destruct (Z.eq_dec (fexp x) (fexp y)) as [He | Hne].
  - rewrite (round_nonzero x Hnx), (round_nonzero y Hny), He.
    pose proof (pow2_pos (fexp y)) as Hp.
    apply Qmult_le_compat_r; [|lra].
    rewrite <- Zle_Qle. apply rne_mono.
    apply Qmult_le_compat_r; [assumption|].
    apply Qlt_le_weak, Qinv_lt_0_compat. assumption.
  - assert (Hlt : (fexp x < fexp y)%Z) by lia.
    assert (Hy52 : fexp y = (ilog2 y - 52)%Z) by lia.
    assert (Hkk : (ilog2 x + 1 <= ilog2 y)%Z) by lia.
    destruct (ilog2_spec x Hx) as [_ Hxh].
    destruct (ilog2_spec y Hy) as [Hyl _].
    apply Qle_trans with (pow2 (ilog2 y)).
    + assert (Hg : pow2 (ilog2 y)
                   == inject_Z (2 ^ (ilog2 y - fexp x)) * pow2 (fexp x)).
      { rewrite pow2_shift by lia. f_equiv. lia. }
      rewrite Hg. apply round_le_grid; [assumption|]. rewrite <- Hg.
      apply Qle_trans with (pow2 (ilog2 x + 1)); [lra|].
      apply pow2_le. assumption.
    + assert (Hg : pow2 (ilog2 y) == inject_Z (2 ^ 52) * pow2 (fexp y)).
      { rewrite pow2_shift by lia. f_equiv. lia. }
      rewrite Hg. apply round_ge_grid; [assumption|]. rewrite <- Hg.
      assumption.
Qed.

(** Rounding is monotone. *)
Lemma round_mono x y : x <= y -> round x <= round y.
Proof.
  intros Hxy.
  destruct (Qlt_le_dec 0 x) as [Hx | Hx].
  - apply round_mono_pos; assumption.
  - destruct (Qlt_le_dec y 0) as [Hy | Hy].
    + assert (H : round (- y) <= round (- x))
        by (apply round_mono_pos; lra).
      rewrite !round_opp in H. lra.
    + pose proof (round_nonpos x Hx). pose proof (round_nonneg y Hy). lra.
Qed.

Lemma ilog2_unique x k : 0 < x -> pow2 k <= x < pow2 (k + 1) -> ilog2 x = k.
Proof.
  intros Hx [Hl Hh].
  pose proof (ilog2_lt x (k + 1) Hx Hh). pose proof (ilog2_ge x k Hx Hl). lia.
Qed.

Lemma ilog2_comp x y : 0 < x -> x == y -> ilog2 x = ilog2 y.
Proof.
  intros Hx He. symmetry. apply ilog2_unique; [rewrite <- He; assumption|].
  rewrite <- He. apply ilog2_spec. assumption.
Qed.

Lemma Qabs_nonzero x : ~ x == 0 -> 0 < Qabs x.
Proof.
  intros H. pose proof (Qabs_nonneg x) as Hn.
  destruct (Qlt_le_dec 0 (Qabs x)) as [|Hle]; [assumption|].
  exfalso. apply H. apply Qabs_Qle_condition in Hle. lra.
Qed.

Lemma fexp_comp x y : ~ x == 0 -> x == y -> fexp x = fexp y.
Proof.
  intros Hx He. unfold fexp. f_equal. f_equal.
  apply ilog2_comp; [apply Qabs_nonzero; assumption|].
  rewrite He. reflexivity.
Qed.

Lemma round_comp x y : x == y -> round x == round y.
Proof.
  intros He. destruct (Qeq_dec x 0) as [H0 | Hn].
  - rewrite (round_zero x H0). symmetry. apply round_zero. lra.
  - assert (Hny : ~ y == 0) by lra.
    rewrite (round_nonzero x Hn), (round_nonzero y Hny).
    rewrite <- (fexp_comp x y Hn He).
    assert (Hd : x / pow2 (fexp x) == y / pow2 (fexp x))
      by (unfold Qdiv; apply Qmult_comp; [assumption | reflexivity]).
    rewrite (rne_comp _ _ Hd). reflexivity.
Qed.

(** The last place of a value below [2^k] is at most [k - 53]. *)
Lemma fexp_below x k :
  ~ x == 0 -> Qabs x < pow2 k -> (fexp x <= Z.max (k - 53) (-1074))%Z.
Proof.
  intros Hn H. unfold fexp.
  pose proof (ilog2_lt (Qabs x) k (Qabs_nonzero x Hn) H). lia.
Qed.

Lemma Qabs_inject_Z z : Qabs (inject_Z z) = inject_Z (Z.abs z).
Proof. reflexivity. Qed.

(** The integers up to [2^53] are doubles. *)
Lemma round_Z z : (Z.abs z <= 2 ^ 53)%Z -> round (inject_Z z) == inject_Z z.
Proof.
  intros Hz. set (x := inject_Z z).
  destruct (Z.eq_dec z 0) as [-> | Hnz]; [reflexivity|].
  assert (Hn : ~ x == 0).
  { unfold x. intros H. apply (inject_Z_injective z 0) in H. contradiction. }
  assert (Hlt : Qabs x < pow2 54).
  { unfold x. rewrite Qabs_inject_Z, (pow2_Z 54) by lia.
    rewrite <- Zlt_Qlt. lia. }
  pose proof (fexp_below x 54 Hn Hlt) as He.
  assert (Hlow : (-1074 <= fexp x)%Z) by (unfold fexp; lia).
  destruct (Z_le_gt_dec (fexp x) 0) as [H0 | H1].
  - apply (round_exact x (z * 2 ^ (- fexp x))).
    rewrite inject_Z_mult, <- Qmult_assoc, pow2_shift by lia.
    replace (- fexp x + fexp x)%Z with 0%Z by lia.
    change (pow2 0) with 1. unfold x. ring.
  - assert (Hf : fexp x = 1%Z) by lia.
    assert (Hk : (53 <= ilog2 (Qabs x))%Z) by (unfold fexp in Hf; lia).
    destruct (ilog2_spec (Qabs x) (Qabs_nonzero x Hn)) as [Hl _].
    assert (Hp : pow2 53 <= Qabs x).
    { apply Qle_trans with (pow2 (ilog2 (Qabs x))); [|assumption].
      apply pow2_le. assumption. }
    unfold x in Hp. rewrite Qabs_inject_Z, (pow2_Z 53) in Hp by lia.
    rewrite <- Zle_Qle in Hp.
    apply (round_exact x (z / 2)). rewrite Hf.
    assert (Hz2 : z = (2 * (z / 2))%Z).
    { assert (z = 2 ^ 53 \/ z = - 2 ^ 53)%Z as [-> | ->] by lia; reflexivity. }
    unfold x. rewrite Hz2 at 1. rewrite inject_Z_mult.
    change (pow2 1) with 2. change (inject_Z 2) with 2. ring.
Qed.

Lemma Qceiling_between r c :
  inject_Z (c - 1) < r -> r <= inject_Z c -> Qceiling r = c.
Proof.
  intros Hl Hh.
  pose proof (Qle_ceiling r) as H1. pose proof (Qceiling_lt r) as H2.
  assert (inject_Z (c - 1) < inject_Z (Qceiling r)) by lra.
  assert (inject_Z (Qceiling r - 1) < inject_Z c) by lra.
  rewrite <- Zlt_Qlt in *. lia.
Qed.

End Rounding.

(* ================================================================== *)
(** ** ObjectIds and their spellings *)
(* ================================================================== *)

Lemma byte_of_hex b :
  match hexValue (hexDigit (N_of_ascii b / 16)),
        hexValue (hexDigit (N_of_ascii b mod 16)) with
  | Some x, Some y => ascii_of_N (16 * x + y) = b
  | _, _ => False
  end.
Proof. destruct b as [[] [] [] [] [] [] [] []]; vm_compute; reflexivity. Qed.

Lemma bytesOfHex_hexOfBytes s : bytesOfHex (hexOfBytes s) = Some s.
Proof.
  induction s as [|b r IH]; [reflexivity|].
  cbn [hexOfBytes bytesOfHex]. pose proof (byte_of_hex b) as H.
  destruct (hexValue (hexDigit (N_of_ascii b / 16))) as [x|]; [|contradiction].
  destruct (hexValue (hexDigit (N_of_ascii b mod 16))) as [y|];
    [|contradiction].
  rewrite IH, H. reflexivity.
Qed.

Lemma ofBytes_toBytes o : ofBytes (toBytes o) = Some o.
Proof. destruct o. reflexivity. Qed.

Lemma ofBytes_hex o : ofBytes (toHexString o) = None.
Proof. destruct o. reflexivity. Qed.

(** An ObjectId is the one its hexadecimal form spells. *)
Lemma ofString_toHexString (o : ObjectId) : ofString o = Some o.
Proof.
  unfold ofString. rewrite ofBytes_hex. unfold toHexString.
  rewrite bytesOfHex_hexOfBytes. apply ofBytes_toBytes.
Qed.

Lemma toHexString_inj (a b : ObjectId) : (a : string) = b -> a = b.
Proof.
  intros H. pose proof (ofString_toHexString a) as Ha.
  rewrite H, ofString_toHexString in Ha. congruence.
Qed.

Lemma oid_eqb (a b : ObjectId) : String.eqb a b = true <-> a = b.
Proof.
  rewrite String.eqb_eq. split; [apply toHexString_inj | congruence].
Qed.

Lemma castObjectId_oid (o : ObjectId) : castObjectId o = CastOk (Some o).
Proof. unfold castObjectId. rewrite ofString_toHexString. reflexivity. Qed.

(** The hexadecimal form in upper case, and the twelve characters
    themselves, spell the same ObjectId; a string of another shape spells
    none. *)
Lemma ofString_spellings :
  ofString "65E1A2B3C4D5E6F7A8B9C0D1" = Some ashaId
  /\ (ashaId : string) = "65e1a2b3c4d5e6f7a8b9c0d1"
  /\ ofString "member-asha!" = Some (oid "6d656d6265722d6173686121")
  /\ ofString "not-an-object-id" = None
  /\ ofString "65e1a2b3c4d5e6f7a8b9c0dg" = None.
Proof. repeat split; vm_compute; reflexivity. Qed.

(* ================================================================== *)
(** ** The calendar *)
(* ================================================================== *)

Lemma DayFromYear_succ y : DayFromYear (y + 1) = DayFromYear y + DaysInYear y.
Proof.
  unfold DayFromYear, DaysInYear, isLeap.
  repeat match goal with
  | |- context [?a =? ?b] => destruct (Z.eqb_spec a b); cbn [negb]
  end; Z.div_mod_to_equations; lia.
Qed.

Lemma DayFromYear_mono y y' : y <= y' -> DayFromYear y <= DayFromYear y'.
Proof. unfold DayFromYear. intros. Z.div_mod_to_equations. lia. Qed.

(** [YearFromDay d] is the year whose days contain [d] ... *)
Lemma YearFromDay_spec d :
  DayFromYear (YearFromDay d) <= d < DayFromYear (YearFromDay d + 1).
Proof.
  unfold YearFromDay.
  set (y0 := 1970 + 400 * d / 146097).
  assert (H0 : DayFromYear (y0 - 1) <= d < DayFromYear (y0 + 2)).
  { unfold DayFromYear, y0. Z.div_mod_to_equations. lia. }
  destruct (Z.ltb_spec d (DayFromYear y0)).
  - replace (y0 - 1 + 1) with y0 by lia. lia.
  - destruct (Z.leb_spec (DayFromYear (y0 + 1)) d).
    + replace (y0 + 1 + 1) with (y0 + 2) by lia. lia.
    + lia.
Qed.

(** ... and the only one: it is the largest [y] with
    [DayFromYear y <= d]. *)
Lemma YearFromDay_unique d y :
  DayFromYear y <= d < DayFromYear (y + 1) -> YearFromDay d = y.
Proof.
  intros Hy. pose proof (YearFromDay_spec d) as Hs.
  destruct (Z.lt_trichotomy (YearFromDay d) y) as [Hlt | [Heq | Hgt]]; auto.
  - pose proof (DayFromYear_mono (YearFromDay d + 1) y ltac:(lia)). lia.
  - pose proof (DayFromYear_mono (y + 1) (YearFromDay d) ltac:(lia)). lia.
Qed.

Lemma YearFromDay_largest d y :
  DayFromYear y <= d <-> y <= YearFromDay d.
Proof.
  pose proof (YearFromDay_spec d) as Hs. split; intros H.
  - destruct (Z.le_gt_cases y (YearFromDay d)); auto.
    pose proof (DayFromYear_mono (YearFromDay d + 1) y ltac:(lia)). lia.
  - pose proof (DayFromYear_mono y (YearFromDay d) H). lia.
Qed.

(** [YearFromTime t] is the largest [y] such that [TimeFromYear y <= t]. *)
Lemma YearFromTime_largest t y : TimeFromYear y <= t <-> y <= YearFromTime t.
Proof.
  unfold YearFromTime, TimeFromYear. rewrite <- YearFromDay_largest.
  unfold Day, msPerDay. split; intros H.
  - apply Z.div_le_lower_bound; lia.
  - pose proof (Z.mul_div_le t 86400000 eq_refl). nia.
Qed.

Lemma DaysInYear_leap y : DaysInYear y = 365 + (if isLeap y then 1 else 0).
Proof. unfold DaysInYear. destruct (isLeap y); reflexivity. Qed.

Lemma DayWithinYear_range t :
  0 <= DayWithinYear t < DaysInYear (YearFromTime t).
Proof.
  unfold DayWithinYear, YearFromTime.
  pose proof (YearFromDay_spec (Day t)) as Hs.
  rewrite DayFromYear_succ in Hs. lia.
Qed.

Lemma Day_MakeDate D tw : 0 <= tw < msPerDay -> Day (MakeDate D tw) = D.
Proof.
  intros H. unfold Day, MakeDate.
  rewrite Z.div_add_l by (unfold msPerDay; lia).
  rewrite Z.div_small by assumption. lia.
Qed.

Lemma TimeWithinDay_MakeDate D tw :
  0 <= tw < msPerDay -> TimeWithinDay (MakeDate D tw) = tw.
Proof.
  intros H. unfold TimeWithinDay, MakeDate.
  rewrite Z.add_comm, Z.mod_add by (unfold msPerDay; lia).
  apply Z.mod_small. assumption.
Qed.

Lemma TimeWithinDay_range t : 0 <= TimeWithinDay t < msPerDay.
Proof. unfold TimeWithinDay. apply Z.mod_pos_bound. reflexivity. Qed.

Lemma MakeDate_Day t : MakeDate (Day t) (TimeWithinDay t) = t.
Proof.
  unfold MakeDate, Day, TimeWithinDay.
  pose proof (Z.div_mod t msPerDay ltac:(discriminate)). lia.
Qed.

Lemma MakeDate_shift t k :
  MakeDate (Day t + k) (TimeWithinDay t) = t + k * msPerDay.
Proof.
  pose proof (MakeDate_Day t) as H. unfold MakeDate in *. lia.
Qed.

Ltac month_cases m :=
  let H := fresh "Hm" in
  assert (H : m = 0 \/ m = 1 \/ m = 2 \/ m = 3 \/ m = 4 \/ m = 5 \/ m = 6
              \/ m = 7 \/ m = 8 \/ m = 9 \/ m = 10 \/ m = 11) by lia;
  repeat (destruct H as [H | H]); subst m.

Ltac split_ltb :=
  repeat match goal with
  | |- context [?a <? ?b] => destruct (Z.ltb_spec a b)
  end.

(** Evaluates [monthStart] at the literal months of the goal and of the
    hypotheses. *)
Ltac eval_monthStart :=
  repeat match goal with
  | |- context [monthStart ?m ?l] =>
      let m' := eval compute in m in
      lazymatch m' with
      | Z0 => idtac | Zpos _ => idtac | Zneg _ => idtac
      end;
      let v := eval cbv beta iota delta [monthStart] in (monthStart m' l) in
      change (monthStart m l) with v
  | H : context [monthStart ?m ?l] |- _ =>
      let m' := eval compute in m in
      lazymatch m' with
      | Z0 => idtac | Zpos _ => idtac | Zneg _ => idtac
      end;
      let v := eval cbv beta iota delta [monthStart] in (monthStart m' l) in
      change (monthStart m l) with v in H
  end.

(** Within a year, [monthOfYearDay] and [monthStart] are inverse. *)
Lemma monthOfYearDay_start m leap dt :
  0 <= m <= 11 -> 0 <= leap <= 1 ->
  1 <= dt <= monthStart (m + 1) leap - monthStart m leap ->
  monthOfYearDay (monthStart m leap + dt - 1) leap = m.
Proof.
  intros Hm Hl Hd. month_cases m; eval_monthStart;
    unfold monthOfYearDay; split_ltb; lia.
Qed.

Lemma monthOfYearDay_range dwy leap :
  0 <= dwy < 365 + leap -> 0 <= leap <= 1 ->
  let m := monthOfYearDay dwy leap in
  0 <= m <= 11 /\
  monthStart m leap <= dwy < monthStart (m + 1) leap.
Proof.
  intros Hd Hl. unfold monthOfYearDay. split_ltb; cbv zeta;
    eval_monthStart; lia.
Qed.

Lemma monthStart_range m leap :
  0 <= m <= 11 -> 0 <= leap <= 1 ->
  0 <= monthStart m leap /\ monthStart (m + 1) leap <= 365 + leap.
Proof. intros Hm Hl. month_cases m; eval_monthStart; lia. Qed.

(** Every time value is the day [MakeDay] makes of its own year, month and
    date. *)
Lemma fields_of_time t :
  let y := YearFromTime t in
  let m := MonthFromTime t in
  let dt := DateFromTime t in
  0 <= m <= 11 /\ 1 <= dt <= DaysInMonth y m /\ Day t = MakeDay y m dt.
Proof.
  cbv zeta.
  pose proof (DayWithinYear_range t) as Hr.
  rewrite DaysInYear_leap in Hr.
  assert (Hl : 0 <= InLeapYear t <= 1)
    by (unfold InLeapYear; destruct (isLeap _); lia).
  assert (Hi : InLeapYear t = if isLeap (YearFromTime t) then 1 else 0)
    by reflexivity.
  rewrite <- Hi in Hr.
  pose proof (monthOfYearDay_range (DayWithinYear t) (InLeapYear t) Hr Hl)
    as [Hm Hs].
  cbv zeta in Hm, Hs. fold (MonthFromTime t) in Hm, Hs.
  split; [assumption|].
  unfold DateFromTime, DaysInMonth, MakeDay.
  rewrite Z.div_small, Z.mod_small, Z.add_0_r by lia. rewrite <- Hi.
  unfold DayWithinYear in *. split; lia.
Qed.

(** Conversely, a year, a month in 0..11, a date of that month and a time
    of day are the fields of the time value made of them. *)
Lemma MakeDay_fields y m dt tw :
  0 <= m <= 11 -> 1 <= dt <= DaysInMonth y m -> 0 <= tw < msPerDay ->
  let t := MakeDate (MakeDay y m dt) tw in
  YearFromTime t = y /\ MonthFromTime t = m /\ DateFromTime t = dt
  /\ TimeWithinDay t = tw.
Proof.
  intros Hm Hd Htw. cbv zeta.
  set (leap := if isLeap y then 1 else 0).
  assert (Hl : 0 <= leap <= 1) by (unfold leap; destruct (isLeap y); lia).
  assert (HD : MakeDay y m dt = DayFromYear y + (monthStart m leap + dt - 1)).
  { unfold MakeDay. rewrite Z.div_small, Z.mod_small, Z.add_0_r by lia.
    fold leap. lia. }
  unfold DaysInMonth in Hd. fold leap in Hd.
  pose proof (monthStart_range m leap Hm Hl) as Hms.
  assert (Hy : YearFromTime (MakeDate (MakeDay y m dt) tw) = y).
  { unfold YearFromTime. rewrite Day_MakeDate by assumption.
    apply YearFromDay_unique. rewrite DayFromYear_succ, DaysInYear_leap.
    fold leap. lia. }
  assert (Hw : DayWithinYear (MakeDate (MakeDay y m dt) tw)
               = monthStart m leap + dt - 1).
  { unfold DayWithinYear. rewrite Hy, Day_MakeDate by assumption. lia. }
  assert (Hi : InLeapYear (MakeDate (MakeDay y m dt) tw) = leap).
  { unfold InLeapYear. rewrite Hy. reflexivity. }
  assert (Hmo : MonthFromTime (MakeDate (MakeDay y m dt) tw) = m).
  { unfold MonthFromTime. rewrite Hw, Hi.
    apply monthOfYearDay_start; assumption. }
  repeat split.
  - assumption.
  - assumption.
  - unfold DateFromTime. rewrite Hmo, Hw, Hi. lia.
  - apply TimeWithinDay_MakeDate. assumption.
Qed.

Ltac eval_month_carry :=
  repeat match goal with
  | |- context [?a / 12] =>
      let v := eval compute in (a / 12) in change (a / 12) with v
  | |- context [?a mod 12] =>
      let v := eval compute in (a mod 12) in change (a mod 12) with v
  end.

(** From the first of a month to the first of the target month there are
    28 to 31 days for a month, 89 to 92 for a quarter, 365 or 366 for a
    year. *)
Lemma targetMonth_days p y m :
  0 <= m <= 11 ->
  let ym := targetMonth p y m in
  let k := MakeDay (fst ym) (snd ym) 1 - MakeDay y m 1 in
  match p with
  | monthly => k = DaysInMonth y m /\ 28 <= k <= 31
  | quarterly => 89 <= k <= 92
  | yearly => 365 <= k <= 366
  end.
Proof.
  intros Hm. cbv zeta.
  pose proof (DayFromYear_succ y) as Hs. rewrite DaysInYear_leap in Hs.
  destruct p; month_cases m; unfold targetMonth, DaysInMonth, MakeDay, fst, snd;
    eval_month_carry; rewrite ?Z.add_0_r;
    destruct (isLeap y); destruct (isLeap (y + 1));
    eval_monthStart; lia.
Qed.

(** A month beyond 0..11 is the month modulo 12 of a later or earlier
    year. *)
Lemma MakeDay_norm y m dt : MakeDay (y + m / 12) (m mod 12) dt = MakeDay y m dt.
Proof.
  unfold MakeDay.
  rewrite Z.mod_mod by discriminate.
  rewrite (Z.div_small (m mod 12)) by (apply Z.mod_pos_bound; reflexivity).
  rewrite Z.add_0_r. reflexivity.
Qed.

Lemma MakeDay_date y m dt : MakeDay y m dt = MakeDay y m 1 + (dt - 1).
Proof. unfold MakeDay. lia. Qed.

Lemma DaysInMonth_range y m : 0 <= m <= 11 -> 28 <= DaysInMonth y m <= 31.
Proof.
  intros Hm. unfold DaysInMonth.
  month_cases m; destruct (isLeap y); eval_monthStart; lia.
Qed.

(** [MakeDay] is what ECMAScript asks for: the day of a time value whose
    year, month and date are [year + floor(month / 12)], [month mod 12] and
    1, plus [date - 1]. *)
Lemma MakeDay_spec year month date :
  exists t,
    YearFromTime t = year + month / 12
    /\ MonthFromTime t = month mod 12
    /\ DateFromTime t = 1
    /\ MakeDay year month date = Day t + date - 1.
Proof.
  set (ym := year + month / 12). set (mn := month mod 12).
  assert (Hmn : 0 <= mn <= 11).
  { unfold mn. pose proof (Z.mod_pos_bound month 12 eq_refl). lia. }
  pose proof (DaysInMonth_range ym mn Hmn) as Hd.
  destruct (MakeDay_fields ym mn 1 0 Hmn ltac:(lia) ltac:(unfold msPerDay; lia))
    as (Hy & Hm & Hdt & _).
  exists (MakeDate (MakeDay ym mn 1) 0).
  repeat split; try assumption.
  rewrite Day_MakeDate by (unfold msPerDay; lia).
  unfold ym, mn. rewrite MakeDay_norm. rewrite (MakeDay_date year month date).
  lia.
Qed.

Lemma targetMonth_range p y m :
  0 <= m <= 11 -> 0 <= snd (targetMonth p y m) <= 11.
Proof.
  intros Hm. destruct p; unfold targetMonth, snd;
    Z.div_mod_to_equations; lia.
Qed.

Section Windows.
Context {P : Platform}.

(** The plan's shift moves the local time by a whole number of days. *)
Lemma shiftedLocal_days p d :
  exists k,
    shiftedLocal p d = LocalTime d + k * msPerDay /\
    match p with
    | monthly =>
        k = DaysInMonth (YearFromTime (LocalTime d))
                        (MonthFromTime (LocalTime d))
        /\ 28 <= k <= 31
    | quarterly => 89 <= k <= 92
    | yearly => 365 <= k <= 366
    end.
Proof.
  unfold shiftedLocal. set (t := LocalTime d).
  destruct (fields_of_time t) as (Hm & Hd & HD).
  pose proof (targetMonth_days p (YearFromTime t) _ Hm) as Hk.
  cbv zeta in Hk.
  set (ym := targetMonth p (YearFromTime t) (MonthFromTime t)) in *.
  exists (MakeDay (fst ym) (snd ym) 1
          - MakeDay (YearFromTime t) (MonthFromTime t) 1).
  split; [| exact Hk].
  rewrite <- MakeDate_shift. f_equal.
  rewrite HD, (MakeDay_date (fst ym)), (MakeDay_date (YearFromTime t)). lia.
Qed.

Lemma shiftedLocal_later p d : d < UTC (shiftedLocal p d).
Proof.
  destruct (shiftedLocal_days p d) as (k & Hk & Hb). unfold UTC.
  rewrite Hk. unfold LocalTime.
  pose proof (LocalTZA_bound d true).
  pose proof (LocalTZA_bound (d + LocalTZA d true + k * msPerDay) false).
  assert (28 <= k) by (destruct p; lia).
  unfold msPerDay in *. lia.
Qed.

(** What the handler's branches compute is the shifted local time, taken
    back to UTC and clipped to the range of a Date. *)
Lemma membershipEnd_shifted p d :
  membershipEnd (JStr (planName p)) d = TimeClip (UTC (shiftedLocal p d)).
Proof.
  unfold shiftedLocal. set (t := LocalTime d).
  destruct (fields_of_time t) as (Hm & _ & _).
  destruct p; unfold membershipEnd, planName, strictEqStr;
    match goal with
    | |- context [String.eqb ?a ?b] =>
        let v := eval compute in (String.eqb a b) in
        change (String.eqb a b) with v
    end; cbv iota;
    repeat match goal with
    | |- context [String.eqb ?a ?b] =>
        let v := eval compute in (String.eqb a b) in
        change (String.eqb a b) with v
    end; cbv iota;
    unfold setMonth, setFullYear, getMonth, getFullYear, targetMonth, fst, snd;
    fold t; rewrite ?MakeDay_norm; reflexivity.
Qed.

End Windows.

(* ================================================================== *)
(** ** The membership window (POST /verify, lines 354-364) *)
(* ================================================================== *)

(** The shifted local time keeps the time of day and falls on the day
    counted from the first of the target month; when the target month has
    that date it is that very date. *)
Lemma shiftedLocal_fields {P : Platform} (p : Plan) (d : Z) :
  let t := LocalTime d in
  let ym := targetMonth p (YearFromTime t) (MonthFromTime t) in
  let s := shiftedLocal p d in
  TimeWithinDay s = TimeWithinDay t /\
  Day s = MakeDay (fst ym) (snd ym) 1 + (DateFromTime t - 1) /\
  (DateFromTime t <= DaysInMonth (fst ym) (snd ym) ->
   YearFromTime s = fst ym /\ MonthFromTime s = snd ym
   /\ DateFromTime s = DateFromTime t).
Proof.
  cbv zeta. unfold shiftedLocal. set (t := LocalTime d).
  set (ym := targetMonth p (YearFromTime t) (MonthFromTime t)).
  pose proof (TimeWithinDay_range t) as Htw.
  destruct (fields_of_time t) as (Hm & Hd & _).
  pose proof (targetMonth_range p (YearFromTime t) _ Hm) as Hr. fold ym in Hr.
  split; [apply TimeWithinDay_MakeDate; assumption|].
  split; [rewrite Day_MakeDate by assumption; apply MakeDay_date|].
  intros Hle.
  destruct (MakeDay_fields (fst ym) (snd ym) (DateFromTime t)
              (TimeWithinDay t) Hr ltac:(lia) Htw) as (Hy & Hmo & Hda & _).
  auto.
Qed.



(** Where the clocks skip an hour the end date does not read the time of
    day of the start: on [springForward], one month after 02:30 of
    February 10th, 2024 is 02:30 of March 10th, an hour that zone does not
    have; the window ends at 07:30 UTC, which reads 03:30 there. *)
Example computeWindow_skipped_hour :
  let d := 1707550200000 in
  TimeWithinDay (@LocalTime springForward d) = 9000000
  /\ TimeWithinDay (@shiftedLocal springForward monthly d) = 9000000
  /\ @computeWindow springForward monthly d = (Some d, Some 1710055800000)
  /\ TimeWithinDay (@LocalTime springForward 1710055800000) = 12600000.
Proof. vm_compute. repeat split; reflexivity. Qed.


(* ================================================================== *)
(** ** Days remaining (Dashboard.js, getDaysRemaining) *)
(* ================================================================== *)

Lemma ceilDiv_spec a b : 0 < b -> (ceilDiv a b - 1) * b < a <= ceilDiv a b * b.
Proof.
  intros Hb. unfold ceilDiv.
  pose proof (Z.div_mod (- a) b ltac:(lia)).
  pose proof (Z.mod_pos_bound (- a) b Hb). nia.
Qed.

Lemma ceilDiv_mono a a' b : 0 < b -> a <= a' -> ceilDiv a b <= ceilDiv a' b.
Proof.
  intros Hb Ha. unfold ceilDiv.
  pose proof (Z.div_le_mono (- a') (- a) b Hb ltac:(lia)). lia.
Qed.

Section Days.

Local Open Scope Q_scope.

(** The quotient of a number of milliseconds up to [2^53] by the length of
    a day rounds to a double whose ceiling is the exact ceiling. *)
Lemma ceiling_days z :
  (Z.abs z <= 2 ^ 53)%Z ->
  Qceiling (round (inject_Z z / inject_Z msPerDay)) = ceilDiv z msPerDay.
Proof.
  intros Hz. set (c := ceilDiv z msPerDay).
  pose proof (ceilDiv_spec z msPerDay eq_refl) as Hc. fold c in Hc.
  set (q := inject_Z z / inject_Z msPerDay).
  assert (HD : 0 < inject_Z msPerDay) by reflexivity.
  assert (Hcb : (Z.abs c <= 2 ^ 53)%Z) by (unfold msPerDay in Hc; lia).
  assert (Hq1 : q <= inject_Z c).
  { unfold q. apply Qle_shift_div_r; [assumption|].
    rewrite <- inject_Z_mult, <- Zle_Qle. lia. }
  assert (Hq2 : inject_Z (c - 1) + / inject_Z msPerDay <= q).
  { unfold q, Qdiv.
    assert (inject_Z (c - 1) * inject_Z msPerDay + 1 <= inject_Z z).
    { rewrite <- inject_Z_mult. change 1 with (inject_Z 1).
      rewrite <- inject_Z_plus, <- Zle_Qle. lia. }
    assert (Hi : 0 < / inject_Z msPerDay) by reflexivity.
    assert (Hm : (inject_Z (c - 1) * inject_Z msPerDay + 1) * / inject_Z msPerDay
                 <= inject_Z z * / inject_Z msPerDay)
      by (apply Qmult_le_compat_r; [assumption | lra]).
    assert (Heq : (inject_Z (c - 1) * inject_Z msPerDay + 1) * / inject_Z msPerDay
                  == inject_Z (c - 1) + / inject_Z msPerDay)
      by (field; discriminate).
    lra. }
  apply Qceiling_between.
  - destruct (Qeq_dec q 0) as [H0 | Hn].
    + rewrite (round_zero q H0).
      assert (0 < / inject_Z msPerDay) by reflexivity. lra.
    + pose proof (round_error q) as [_ Hr].
      assert (Hqa : Qabs q < pow2 27).
      { apply Qabs_Qlt_condition. unfold q. split.
        - apply Qlt_shift_div_l; [assumption|].
          rewrite (pow2_Z 27) by lia. rewrite <- inject_Z_opp, <- inject_Z_mult.
          rewrite <- Zlt_Qlt. unfold msPerDay. lia.
        - apply Qlt_shift_div_r; [assumption|].
          rewrite (pow2_Z 27) by lia. rewrite <- inject_Z_mult.
          rewrite <- Zlt_Qlt. unfold msPerDay. lia. }
      pose proof (fexp_below q 27 Hn Hqa) as He.
      assert (Hp : pow2 (fexp q) <= pow2 (-26)) by (apply pow2_le; lia).
      assert (Hs : (1 # 2) * pow2 (-26) < / inject_Z msPerDay) by reflexivity.
      lra.
  - apply Qle_trans with (round (inject_Z c)).
    + apply round_mono. assumption.
    + rewrite (round_Z c Hcb). lra.
Qed.

End Days.

Lemma daysRemaining_max endDate today :
  Z.abs (endDate - today) <= 2 ^ 53 ->
  daysRemaining endDate today = Z.max 0 (ceilDiv (endDate - today) msPerDay).
Proof.
  intros H. unfold daysRemaining. cbv zeta.
  change (1000 * 60 * 60 * 24) with msPerDay.
  assert (Hq : (round (inject_Z (endDate - today)) / inject_Z msPerDay
                == inject_Z (endDate - today) / inject_Z msPerDay)%Q)
    by (rewrite (round_Z _ H); reflexivity).
  rewrite (Qceiling_comp _ _ (round_comp _ _ Hq)).
  rewrite (ceiling_days _ H).
  destruct (Z.gtb_spec (ceilDiv (endDate - today) msPerDay) 0); lia.
Qed.

Lemma daysRemaining_mono endDate today endDate' today' :
  endDate - today <= endDate' - today' ->
  daysRemaining endDate today <= daysRemaining endDate' today'.
Proof.
  intros H. unfold daysRemaining. cbv zeta.
  set (D := inject_Z (1000 * 60 * 60 * 24)).
  assert (HD : (0 < / D)%Q) by reflexivity.
  assert (Hm : (Qceiling (round (round (inject_Z (endDate - today)) / D))
                <= Qceiling (round (round (inject_Z (endDate' - today')) / D)))).
  { apply Qceiling_resp_le, round_mono. unfold Qdiv.
    apply Qmult_le_compat_r; [|apply Qlt_le_weak; assumption].
    apply round_mono. rewrite <- Zle_Qle. assumption. }
  repeat match goal with
  | |- context [?a >? 0] => destruct (Z.gtb_spec a 0)
  end; lia.
Qed.

Lemma daysRemaining_nonneg endDate today : 0 <= daysRemaining endDate today.
Proof.
  unfold daysRemaining. cbv zeta.
  match goal with
  | |- context [?a >? 0] => destruct (Z.gtb_spec a 0)
  end; lia.
Qed.

(** C5, as the code has it.  [daysRemaining] is never negative, is 0
    from [endDate] on and never grows as [today] advances; it is the
    ceiling of [endDate - today] in whole days, clamped at 0, whenever the
    two dates are at most 2^53 ms apart, the difference and the quotient
    being computed in double precision.  [getDaysRemaining] is that number
    for the date the stored field denotes, and 0 when there is none. *)
Theorem daysRemaining_spec {P : Platform} (endDate today : Z) :
  (Z.abs (endDate - today) <= 2 ^ 53 ->
   daysRemaining endDate today = Z.max 0 (ceilDiv (endDate - today) msPerDay)
   /\ (today < endDate ->
       (daysRemaining endDate today - 1) * msPerDay < endDate - today
         <= daysRemaining endDate today * msPerDay))
  /\ 0 <= daysRemaining endDate today
  /\ (endDate <= today -> daysRemaining endDate today = 0)
  /\ (forall today', today <= today' ->
        daysRemaining endDate today' <= daysRemaining endDate today)
  /\ (forall field,
        truthy field = true -> newDateOf field = Some endDate ->
        getDaysRemaining field today = daysRemaining endDate today)
  /\ (forall field today', today <= today' ->
        0 <= getDaysRemaining field today'
          <= getDaysRemaining field today).
Proof.
  assert (Hb : 0 < msPerDay) by reflexivity.
  split; [|split; [|split; [|split; [|split]]]].
  - intros Hr. rewrite (daysRemaining_max _ _ Hr).
    pose proof (ceilDiv_spec (endDate - today) msPerDay Hb) as Hc.
    split; [reflexivity|]. intros Hlt.
    assert (0 < ceilDiv (endDate - today) msPerDay) by nia. lia.
  - apply daysRemaining_nonneg.
  - intros Hle.
    pose proof (daysRemaining_mono endDate today 0 0 ltac:(lia)) as Hm.
    change (daysRemaining 0 0) with 0 in Hm.
    pose proof (daysRemaining_nonneg endDate today). lia.
  - intros today' Hle. apply daysRemaining_mono. lia.
  - intros field Ht He. unfold getDaysRemaining. rewrite Ht, He. reflexivity.
  - intros field today' Hle. unfold getDaysRemaining.
    destruct (truthy field); cbn [negb]; [|lia].
    destruct (newDateOf field) as [e|]; [|lia].
    pose proof (daysRemaining_nonneg e today').
    pose proof (daysRemaining_mono e today' e today ltac:(lia)). lia.
Qed.

(** Half a day before the end there is one day left, as the exact ceiling
    has it. *)
Lemma daysRemaining_spec_witness :
  Z.abs (1719792000000 - 1719748800000) <= 2 ^ 53
  /\ daysRemaining 1719792000000 1719748800000 = 1.
Proof.
  assert (H : Z.abs (1719792000000 - 1719748800000) <= 2 ^ 53)
    by (vm_compute; discriminate).
  split; [exact H|].
  destruct (@daysRemaining_spec utcPlatform 1719792000000 1719748800000)
    as (Hexact & _).
  destruct (Hexact H) as [-> _]. reflexivity.
Defined.

(** C5 as stated fails for two dates a Date can hold that are more than
    2^53 ms apart: from 367199308800001 ms before the epoch to the last
    instant of the range, the exact ceiling is 104249993 days, but the
    difference rounds to 9007199308800000 ms, which is 104249992 days
    exactly. *)
Lemma daysRemaining_not_always_the_ceiling :
  ~ (forall endDate today : Z,
       Z.abs endDate <= maxTime -> Z.abs today <= maxTime ->
       daysRemaining endDate today
       = Z.max 0 (ceilDiv (endDate - today) msPerDay)).
Proof.
  intros H.
  specialize (H 8640000000000000 (-367199308800001)
                ltac:(vm_compute; discriminate) ltac:(vm_compute; discriminate)).
  vm_compute in H. discriminate.
Qed.

(** Half a day before the end there is one day left, at the end and after
    it none, and 29.5 days before it there are 30. *)
Lemma daysRemaining_around_the_end :
  daysRemaining 1719792000000 1719748800000 = 1
  /\ daysRemaining 1719792000000 1719792000000 = 0
  /\ daysRemaining 1719792000000 1719792000001 = 0
  /\ daysRemaining 1719792000000 1717243200000 = 30.
Proof. repeat split; vm_compute; reflexivity. Qed.

(** The two values at the far ends of the range: what the code gives, and
    the ceiling it misses. *)
Lemma daysRemaining_far_apart :
  daysRemaining 8640000000000000 (-367199308800001) = 104249992
  /\ ceilDiv (8640000000000000 - -367199308800001) msPerDay = 104249993.
Proof. split; vm_compute; reflexivity. Qed.

(* ================================================================== *)
(** ** The users collection *)
(* ================================================================== *)

Lemma hasId_true i d : hasId i d = true <-> ofString i = Some (User._id d).
Proof.
  unfold hasId. destruct (ofString i) as [o|]; [|split; discriminate].
  rewrite oid_eqb. split; congruence.
Qed.

Lemma hasId_false i d : hasId i d = false <-> ofString i <> Some (User._id d).
Proof.
  rewrite <- hasId_true. destruct (hasId i d); split; congruence.
Qed.

(** Two strings that spell the same ObjectId make the same filter. *)
Lemma hasId_spelling i j d : ofString i = ofString j -> hasId i d = hasId j d.
Proof. unfold hasId. intros ->. reflexivity. Qed.

Lemma eqbOpt_eq a b : eqbOpt a b = true <-> a = b.
Proof.
  destruct a as [x|], b as [y|]; cbn; try (split; congruence).
  rewrite String.eqb_eq. split; congruence.
Qed.

Lemma eqbOpt_refl a : eqbOpt a a = true.
Proof. apply eqbOpt_eq. reflexivity. Qed.

Lemma find_hasId i l d :
  find (hasId i) l = Some d -> ofString i = Some (User._id d) /\ In d l.
Proof.
  intros H. apply find_some in H. destruct H as [Hin Hid].
  apply hasId_true in Hid. auto.
Qed.

Lemma find_replaceById_same i d' l d :
  ofString i = Some (User._id d') -> find (hasId i) l = Some d ->
  find (hasId i) (replaceById i d' l) = Some d'.
Proof.
  intros Hid. induction l as [|x r IH]; cbn; [discriminate|].
  destruct (hasId i x) eqn:Hx; intros H.
  - cbn. apply hasId_true in Hid. rewrite Hid. reflexivity.
  - cbn. rewrite Hx. auto.
Qed.

Lemma find_replaceById_other i j d' l :
  ofString i = Some (User._id d') -> ofString j <> ofString i ->
  find (hasId j) (replaceById i d' l) = find (hasId j) l.
Proof.
  intros Hid Hne. induction l as [|x r IH]; cbn; [reflexivity|].
  destruct (hasId i x) eqn:Hx; cbn.
  - apply hasId_true in Hx.
    assert (H1 : hasId j d' = false) by (apply hasId_false; congruence).
    assert (H2 : hasId j x = false) by (apply hasId_false; congruence).
    rewrite H1, H2. reflexivity.
  - destruct (hasId j x); auto.
Qed.

Lemma find_removeById_other i j l :
  ofString j <> ofString i ->
  find (hasId j) (removeById i l) = find (hasId j) l.
Proof.
  intros Hne. induction l as [|x r IH]; cbn; [reflexivity|].
  destruct (hasId i x) eqn:Hx; cbn.
  - apply hasId_true in Hx.
    assert (H2 : hasId j x = false) by (apply hasId_false; congruence).
    rewrite H2. reflexivity.
  - destruct (hasId j x); auto.
Qed.

Lemma find_hasId_none i l o :
  ofString i = Some o ->
  find (hasId i) l = None <-> ~ In o (map User._id l).
Proof.
  intros Ho. induction l as [|x r IH]; cbn; [tauto|].
  destruct (hasId i x) eqn:Hx.
  - apply hasId_true in Hx. split; [discriminate|].
    intros H. exfalso. apply H. left. congruence.
  - apply hasId_false in Hx. rewrite IH. split.
    + intros H [He | Hin]; [apply Hx; congruence | contradiction].
    + tauto.
Qed.

(** With unique [_id]s, the document removed was the only one with its
    [_id]. *)
Lemma find_removeById_same i l :
  NoDup (map User._id l) -> find (hasId i) (removeById i l) = None.
Proof.
  induction l as [|x r IH]; cbn; [reflexivity|].
  intros Hnd. inversion Hnd as [|? ? Hnotin Hnd']; subst.
  destruct (hasId i x) eqn:Hx; cbn.
  - apply hasId_true in Hx. apply (find_hasId_none i r _ Hx). assumption.
  - rewrite Hx. auto.
Qed.

Lemma removeById_ids i l :
  NoDup (map User._id l) -> NoDup (map User._id (removeById i l)).
Proof.
  induction l as [|x r IH]; cbn; [intros; constructor|].
  intros Hnd. inversion Hnd as [|? ? Hnotin Hnd']; subst.
  destruct (hasId i x); cbn; [assumption|].
  constructor; [|auto].
  intros Hin. apply Hnotin. clear - Hin.
  induction r as [|y r IH]; cbn in *; [contradiction|].
  destruct (hasId i y); cbn in *; tauto.
Qed.

(* ================================================================== *)
(** ** GET /members/:id *)
(* ================================================================== *)

Lemma findById_found id w :
  ofString id <> None ->
  UserModel.findById id w = (Returned (find (hasId id) (users w)), w).
Proof.
  intros H. unfold UserModel.findById, castObjectId.
  destruct (ofString id); [reflexivity | contradiction].
Qed.

Lemma findById_malformed id w :
  ofString id = None -> UserModel.findById id w = (Thrown, w).
Proof.
  intros H. unfold UserModel.findById, castObjectId. rewrite H. reflexivity.
Qed.

Lemma find_hasId_cast id l d : find (hasId id) l = Some d -> ofString id <> None.
Proof. intros H. apply find_hasId in H. destruct H as [H _]. congruence. Qed.

Section Members.
Context {P : Platform}.

(** C7, as the code has it.  A requester who is neither an admin nor the
    member asked for is refused with 403; the member asked for, and an
    admin, get the stored document without its password when a member has
    the id, and 404 when the id is that of an ObjectId no member has; an
    id that spells no ObjectId gets an admin 500 "Server error".  Nothing
    is written in any case. *)
Theorem members_get_id_spec (u : Claims.t) (id : string) (w : World) :
  (Claims.role u <> "admin"%string -> (Claims.id u : string) <> id ->
   members_get_id (Some u) id w = (mkResponse 403 (Message "Unauthorized"), w))
  /\ (forall m, (Claims.id u : string) = id ->
      find (hasId id) (users w) = Some m ->
      members_get_id (Some u) id w
      = (mkResponse 200 (Member (User.selectNoPassword m)), w))
  /\ (forall m, Claims.role u = "admin"%string ->
      find (hasId id) (users w) = Some m ->
      members_get_id (Some u) id w
      = (mkResponse 200 (Member (User.selectNoPassword m)), w))
  /\ (Claims.role u = "admin"%string \/ (Claims.id u : string) = id ->
      ofString id <> None ->
      find (hasId id) (users w) = None ->
      members_get_id (Some u) id w
      = (mkResponse 404 (Message "Member not found"), w))
  /\ (Claims.role u = "admin"%string ->
      ofString id = None ->
      members_get_id (Some u) id w
      = (mkResponse 500 (Message "Server error"), w)).
Proof.
  unfold members_get_id, tryCatch, bind, reqUser, ret, respond.
  repeat split.
  - intros Hr Hi. apply String.eqb_neq in Hr, Hi. rewrite Hr, Hi. reflexivity.
  - intros m Hi Hf. apply String.eqb_eq in Hi. rewrite Hi.
    cbn [negb]. rewrite andb_false_r.
    rewrite (findById_found id w (find_hasId_cast _ _ _ Hf)), Hf. reflexivity.
  - intros m Hr Hf. apply String.eqb_eq in Hr. rewrite Hr.
    cbn [negb andb].
    rewrite (findById_found id w (find_hasId_cast _ _ _ Hf)), Hf. reflexivity.
  - intros [Hr | Hi] Hc Hf.
    + apply String.eqb_eq in Hr. rewrite Hr.
      cbn [negb andb]. rewrite (findById_found id w Hc), Hf. reflexivity.
    + apply String.eqb_eq in Hi. rewrite Hi.
      cbn [negb]. rewrite andb_false_r.
      rewrite (findById_found id w Hc), Hf. reflexivity.
  - intros Hr Hc. apply String.eqb_eq in Hr. rewrite Hr.
    cbn [negb andb]. rewrite (findById_malformed id w Hc). reflexivity.
Qed.

End Members.

(** In the gym: the admin asking for an ObjectId nobody has gets 404, and
    asking for an id that is no ObjectId gets 500. *)
Lemma members_get_id_spec_witness :
  members_get_id (Some adminClaims) ghostId gym
  = (mkResponse 404 (Message "Member not found"), gym)
  /\ members_get_id (Some adminClaims) "not-an-object-id" gym
     = (mkResponse 500 (Message "Server error"), gym).
Proof.
  split.
  - destruct (members_get_id_spec adminClaims ghostId gym)
      as (_ & _ & _ & H404 & _).
    apply H404; [left; reflexivity | vm_compute; discriminate
                | vm_compute; reflexivity].
  - destruct (members_get_id_spec adminClaims "not-an-object-id" gym)
      as (_ & _ & _ & _ & H500).
    apply H500; [reflexivity | vm_compute; reflexivity].
Defined.

(** C7 as stated fails for an id that is no ObjectId: no member has it,
    and the admin who asks for it is answered 500, not 404. *)
Lemma members_get_id_unknown_not_always_404 :
  ~ (forall (u : Claims.t) (id : string) (w : World),
       Claims.role u = "admin"%string \/ (Claims.id u : string) = id ->
       (forall d, In d (users w) -> (User._id d : string) <> id) ->
       members_get_id (Some u) id w
       = (mkResponse 404 (Message "Member not found"), w)).
Proof.
  intros H.
  specialize (H adminClaims "not-an-object-id" gym (or_introl eq_refl)).
  assert (Hno : forall d, In d (users gym) ->
                  (User._id d : string) <> "not-an-object-id").
  { intros d [<- | [<- | []]]; vm_compute; discriminate. }
  specialize (H Hno). vm_compute in H. discriminate.
Qed.

(** In the gym: Asha may not read the owner's record, may read her own,
    also under another spelling of the owner's id when the admin asks, and
    the admin asking for an id nobody has gets 404. *)
Lemma members_get_id_in_the_gym :
  status (fst (members_get_id (Some ashaClaims) ownerId gym)) = 403
  /\ fst (members_get_id (Some ashaClaims) ashaId gym)
     = mkResponse 200 (Member (User.selectNoPassword asha))
  /\ fst (members_get_id (Some adminClaims) "65E1A2B3C4D5E6F7A8B9C0D1" gym)
     = mkResponse 200 (Member (User.selectNoPassword asha))
  /\ status (fst (members_get_id (Some ashaClaims) "65E1A2B3C4D5E6F7A8B9C0D1"
                    gym)) = 403
  /\ fst (members_get_id (Some adminClaims) ghostId gym)
     = mkResponse 404 (Message "Member not found").
Proof. repeat split; vm_compute; reflexivity. Qed.

(* ================================================================== *)
(** ** PUT /members/:id *)
(* ================================================================== *)

Section MemberUpdate.
Context {P : Platform}.

(** The handler either applies [$set: memberFields] to the stored document
    and answers 200 with the result, or writes nothing and answers with
    another status (403, 500). *)
Lemma members_put_id_cases user id body w old :
  find (hasId id) (users w) = Some old ->
  let new := User.applyUpdate (memberFields body) old in
  members_put_id user id body w
  = (mkResponse 200 (Member (User.selectNoPassword new)),
     setUsers (replaceById id new (users w)) w)
  \/ (exists r, members_put_id user id body w = (r, w) /\ status r <> 200).
Proof.
  intros Hf. cbv zeta. unfold members_put_id, isAdmin.
  destruct user as [u|]; [|right; eexists; split; [reflexivity | discriminate]].
  destruct (String.eqb (Claims.role u) "admin");
    [|right; eexists; split; [reflexivity | discriminate]].
  destruct (find_hasId _ _ _ Hf) as [Hid _].
  unfold tryCatch, bind, UserModel.findById, UserModel.findByIdAndUpdate,
    castObjectId, respond, ret, throw.
  rewrite Hid, Hf.
  destruct (User.updateCastFailed (memberFields body));
    [right; eexists; split; [reflexivity | discriminate]|].
  rewrite Hf.
  match goal with
  | |- context [if ?c then _ else _] => destruct c
  end.
  - right; eexists; split; [reflexivity | discriminate].
  - left. reflexivity.
Qed.

Lemma setPath_absent {A} (cast : JsVal -> Cast A) (v : JsVal) (old : option A) :
  truthy v = false -> User.setPath (ifSupplied cast v) old = old.
Proof. intros H. unfold ifSupplied. rewrite H. reflexivity. Qed.

(** A truthy value never casts to null or to the empty string. *)
Lemma castString_truthy v :
  truthy v = true ->
  exists s, castString v = CastOk (Some s) /\ s <> EmptyString.
Proof.
  destruct v as [| |b|q|s]; cbn; try discriminate; intros H.
  - subst b. eexists; split; [reflexivity | discriminate].
  - eexists; split; [reflexivity | apply NumberToString_nonempty].
  - exists s. split; [reflexivity|].
    apply negb_true_iff in H. apply String.eqb_neq in H. assumption.
Qed.

Lemma castDate_truthy v :
  truthy v = true ->
  castDate v = CastError \/ exists t, castDate v = CastOk (Some t).
Proof.
  destruct v as [| |b|q|s]; cbn -[newDateOf]; try discriminate; intros H.
  - left. reflexivity.
  - destruct (newDateOf (JNum q)); [right; eauto | left; reflexivity].
  - apply negb_true_iff in H. rewrite H.
    destruct (newDateOf (JStr s)); [right; eauto | left; reflexivity].
Qed.

Lemma setPath_string_kept v old :
  let new := User.setPath (ifSupplied castString v) old in
  blank new = true -> new = old.
Proof.
  cbv zeta. unfold ifSupplied. destruct (truthy v) eqn:Ht; [|cbn; auto].
  destruct (castString_truthy v Ht) as (s & Hs & Hne). rewrite Hs. cbn.
  intros H. apply String.eqb_eq in H. contradiction.
Qed.

Lemma setPath_date_kept v old :
  let new := User.setPath (ifSupplied castDate v) old in
  noDate new = true -> new = old.
Proof.
  cbv zeta. unfold ifSupplied. destruct (truthy v) eqn:Ht; [|cbn; auto].
  destruct (castDate_truthy v Ht) as [He | (t & Hs)].
  - rewrite He. cbn. auto.
  - rewrite Hs. cbn. discriminate.
Qed.

Lemma undefined_falsy v : v = JUndefined -> truthy v = false.
Proof. intros ->. reflexivity. Qed.

(** C8.  Whatever the response, the stored member keeps the value of every
    field the patch does not supply, and its password, role and creation
    time; no other account and no payment is touched.  On 200 the stored
    member is the old one with [$set: memberFields] applied, and it is the
    one sent back. *)
Theorem members_put_id_frame user id body w old r w1 :
  find (hasId id) (users w) = Some old ->
  members_put_id user id body w = (r, w1) ->
  exists new,
    find (hasId id) (users w1) = Some new
    /\ (status r = 200 ->
        new = User.applyUpdate (memberFields body) old
        /\ json r = Member (User.selectNoPassword new))
    /\ User._id new = User._id old
    /\ User.password new = User.password old
    /\ User.role new = User.role old
    /\ User.createdAt new = User.createdAt old
    /\ (MemberBody.name body = JUndefined -> User.name new = User.name old)
    /\ (MemberBody.email body = JUndefined -> User.email new = User.email old)
    /\ (MemberBody.phone body = JUndefined -> User.phone new = User.phone old)
    /\ (MemberBody.membershipType body = JUndefined ->
        User.membershipType new = User.membershipType old)
    /\ (MemberBody.startDate body = JUndefined ->
        User.startDate new = User.startDate old)
    /\ (MemberBody.endDate body = JUndefined ->
        User.endDate new = User.endDate old)
    /\ (MemberBody.status body = JUndefined ->
        User.status new = User.status old)
    /\ (forall j, ofString j <> ofString id ->
        find (hasId j) (users w1) = find (hasId j) (users w))
    /\ payments w1 = payments w.
Proof.
  intros Hf Hrun.
  destruct (find_hasId _ _ _ Hf) as [Hid _].
  destruct (members_put_id_cases user id body w old Hf) as [H | (r' & H & Hne)];
    rewrite H in Hrun; inversion Hrun; subst r w1; clear Hrun.
  - exists (User.applyUpdate (memberFields body) old).
    split; [eapply find_replaceById_same; [assumption | exact Hf]|].
    split; [auto|].
    repeat split; try reflexivity;
      try (intros Hu; apply setPath_absent, undefined_falsy; assumption).
    intros j Hj. apply find_replaceById_other; [assumption | assumption].
  - exists old. split; [assumption|]. split; [intros; contradiction|].
    repeat split; reflexivity.
Qed.

(** C10.  A field supplied with a falsy value (empty string, 0, false,
    null) is left as it was, and no update empties a field: a field that
    is null or the empty string afterwards was so before. *)
Theorem members_put_id_falsy user id body w old r w1 :
  find (hasId id) (users w) = Some old ->
  members_put_id user id body w = (r, w1) ->
  exists new,
    find (hasId id) (users w1) = Some new
    /\ (truthy (MemberBody.name body) = false ->
        User.name new = User.name old)
    /\ (truthy (MemberBody.email body) = false ->
        User.email new = User.email old)
    /\ (truthy (MemberBody.phone body) = false ->
        User.phone new = User.phone old)
    /\ (truthy (MemberBody.membershipType body) = false ->
        User.membershipType new = User.membershipType old)
    /\ (truthy (MemberBody.startDate body) = false ->
        User.startDate new = User.startDate old)
    /\ (truthy (MemberBody.endDate body) = false ->
        User.endDate new = User.endDate old)
    /\ (truthy (MemberBody.status body) = false ->
        User.status new = User.status old)
    /\ (blank (User.name new) = true -> User.name new = User.name old)
    /\ (blank (User.email new) = true -> User.email new = User.email old)
    /\ (blank (User.phone new) = true -> User.phone new = User.phone old)
    /\ (blank (User.membershipType new) = true ->
        User.membershipType new = User.membershipType old)
    /\ (noDate (User.startDate new) = true ->
        User.startDate new = User.startDate old)
    /\ (noDate (User.endDate new) = true ->
        User.endDate new = User.endDate old)
    /\ (blank (User.status new) = true -> User.status new = User.status old).
Proof.
  intros Hf Hrun.
  destruct (find_hasId _ _ _ Hf) as [Hid _].
  destruct (members_put_id_cases user id body w old Hf) as [H | (r' & H & Hne)];
    rewrite H in Hrun; inversion Hrun; subst r w1; clear Hrun.
  - exists (User.applyUpdate (memberFields body) old).
    split; [eapply find_replaceById_same; [assumption | exact Hf]|].
    unfold User.applyUpdate, memberFields; cbn [User.name User.email User.phone
      User.membershipType User.startDate User.endDate User.status
      User.u_name User.u_email User.u_phone User.u_membershipType
      User.u_startDate User.u_endDate User.u_status].
    repeat split; try (apply setPath_absent; assumption);
      try (apply setPath_date_kept); apply setPath_string_kept.
  - exists old. split; [assumption|].
    repeat split; auto.
Qed.

End MemberUpdate.

(** The scenario of the specification: an admin sets Asha's membership
    type to yearly and nothing else. *)
Lemma members_put_id_frame_witness :
  find (hasId ashaId) (users gym) = Some asha /\
  exists new,
    find (hasId ashaId)
         (users (snd (members_put_id (Some adminClaims) ashaId yearlyOnly gym)))
    = Some new
    /\ User.membershipType new = Some "yearly"
    /\ User.startDate new = User.startDate asha
    /\ User.endDate new = User.endDate asha.
Proof.
  split; [reflexivity|].
  destruct (members_put_id (Some adminClaims) ashaId yearlyOnly gym)
    as [r w1] eqn:E.
  destruct (members_put_id_frame (Some adminClaims) ashaId yearlyOnly gym asha
              r w1 eq_refl E)
    as (new & Hf & H200 & _ & _ & _ & _ & _ & _ & _ & _ & Hs & He & _).
  exists new. cbn [snd]. split; [exact Hf|].
  split.
  - vm_compute in E. inversion E; subst r.
    destruct (H200 eq_refl) as [-> _]. reflexivity.
  - split; [apply Hs | apply He]; reflexivity.
Defined.

Lemma members_put_id_falsy_witness :
  find (hasId ashaId) (users gym) = Some asha /\
  find (hasId ashaId)
       (users (snd (members_put_id (Some adminClaims) ashaId falsyPatch gym)))
  = Some asha.
Proof.
  split; [reflexivity|].
  destruct (members_put_id (Some adminClaims) ashaId falsyPatch gym)
    as [r w1] eqn:E.
  destruct (members_put_id_falsy (Some adminClaims) ashaId falsyPatch gym asha
              r w1 eq_refl E)
    as (new & Hf & Hn & He & Hp & Hm & Hs & Hd & Hst & _).
  cbn [snd]. rewrite Hf. f_equal.
  vm_compute in E. inversion E. subst w1. vm_compute in Hf.
  inversion Hf. reflexivity.
Defined.


(* ================================================================== *)
(** ** DELETE /members/:id *)
(* ================================================================== *)

(** A delete that answered 200 was given the id of a stored account,
    removed the first account with the id and touched no payment. *)
Lemma members_delete_id_outcome user id w r w1 :
  members_delete_id user id w = (r, w1) ->
  status r = 200 ->
  (exists d, find (hasId id) (users w) = Some d)
  /\ (exists u, user = Some u /\ Claims.role u = "admin")
  /\ users w1 = removeById id (users w) /\ payments w1 = payments w.
Proof.
  intros Hrun H200. unfold members_delete_id, isAdmin in Hrun.
  destruct user as [u|]; [|inversion Hrun; subst; discriminate].
  destruct (String.eqb_spec (Claims.role u) "admin") as [Hr | Hr];
    [|inversion Hrun; subst; discriminate].
  unfold tryCatch, bind, UserModel.findById, UserModel.findByIdAndDelete,
    castObjectId, respond, ret, throw in Hrun.
  destruct (ofString id); [|inversion Hrun; subst; discriminate].
  destruct (find (hasId id) (users w)) as [d|];
    [|inversion Hrun; subst; discriminate].
  inversion Hrun; subst.
  split; [eexists; reflexivity|]. split; [exists u; auto|]. auto.
Qed.

(** A delete by an admin of an id that is that of an ObjectId nobody has
    answers 404 and writes nothing. *)
Lemma members_delete_id_unknown u id w :
  Claims.role u = "admin" ->
  ofString id <> None ->
  find (hasId id) (users w) = None ->
  members_delete_id (Some u) id w
  = (mkResponse 404 (Message "Member not found"), w).
Proof.
  intros Hr Hc Hf. unfold members_delete_id, isAdmin.
  apply String.eqb_eq in Hr. rewrite Hr.
  unfold tryCatch, bind, respond, ret.
  rewrite (findById_found id w Hc), Hf. reflexivity.
Qed.

Section MemberDelete.
Context {P : Platform}.

(** C9.  After a delete that answered 200 the collection (whose [_id]s
    are unique) has no member with that id, and the same delete again
    answers 404 "Member not found" and writes nothing.  The other accounts
    and all payments, the deleted member's included, stay. *)
Theorem members_delete_id_twice user id w r w1 :
  NoDup (map User._id (users w)) ->
  members_delete_id user id w = (r, w1) ->
  status r = 200 ->
  find (hasId id) (users w1) = None
  /\ members_delete_id user id w1
     = (mkResponse 404 (Message "Member not found"), w1)
  /\ (forall j, ofString j <> ofString id ->
      find (hasId j) (users w1) = find (hasId j) (users w))
  /\ payments w1 = payments w.
Proof.
  intros Hnd Hrun H200.
  destruct (members_delete_id_outcome user id w r w1 Hrun H200)
    as ((d & Hf) & (u & -> & Hr) & Hus & Hps).
  assert (Hgone : find (hasId id) (users w1) = None)
    by (rewrite Hus; apply find_removeById_same; exact Hnd).
  repeat split; auto.
  - apply members_delete_id_unknown;
      [exact Hr | exact (find_hasId_cast _ _ _ Hf) | exact Hgone].
  - intros j Hj. rewrite Hus. apply find_removeById_other. assumption.
Qed.

End MemberDelete.

Lemma members_delete_id_twice_witness :
  NoDup (map User._id (users gym))
  /\ status (fst (members_delete_id (Some adminClaims) ashaId gym)) = 200
  /\ status (fst (members_delete_id (Some adminClaims) ashaId
                    (snd (members_delete_id (Some adminClaims) ashaId gym))))
     = 404.
Proof.
  assert (Hnd : NoDup (map User._id (users gym))).
  { cbn. repeat constructor; cbn; intuition discriminate. }
  destruct (members_delete_id (Some adminClaims) ashaId gym) as [r w1] eqn:E.
  assert (H200 : status r = 200) by (vm_compute in E; inversion E; reflexivity).
  destruct (members_delete_id_twice (Some adminClaims) ashaId gym r w1 Hnd E H200)
    as (_ & H404 & _).
  cbn [fst snd]. rewrite H404. repeat split; assumption.
Defined.


(* ================================================================== *)
(** ** POST /members *)
(* ================================================================== *)

Section MemberCreate.
Context {P : Platform}.

Lemma requiredString_cast c s :
  requiredString c = Some s -> c = CastOk (Some s).
Proof.
  destruct c as [|[x|]|]; cbn; try discriminate.
  destruct (String.eqb x EmptyString); congruence.
Qed.

(** A path that is set holds what the document stores. *)
Lemma optional_cast {A} (c : Cast A) v :
  optional c = Some v -> c <> CastUndefined -> c = CastOk v.
Proof. destruct c; cbn; congruence. Qed.

Lemma optional_ok {A} (v : option A) : optional (CastOk v) = Some v.
Proof. reflexivity. Qed.

(** What a document that passed validation is made of. *)
Lemma validate_fields i now f d :
  User.validate i now f = Some d ->
  User._id d = i
  /\ (exists e, User.email d = Some e /\ e <> EmptyString)
  /\ User.f_email f = CastOk (User.email d)
  /\ User.f_password f = CastOk (User.password d)
  /\ optional (withDefault "member"%string (User.f_role f))
     = Some (User.role d)
  /\ User.status d = Some "active"
  /\ User.createdAt d = Some now.
Proof.
  unfold User.validate. cbv zeta.
  destruct (requiredString (User.f_name f)) as [n|] eqn:Hn; [|discriminate].
  destruct (requiredString (User.f_email f)) as [e|] eqn:He; [|discriminate].
  destruct (requiredString (User.f_password f)) as [pw|] eqn:Hpw;
    [|discriminate].
  destruct (requiredString (User.f_phone f)) as [ph|] eqn:Hph; [|discriminate].
  destruct (optional (withDefault "member"%string (User.f_role f)))
    as [r|] eqn:Hr; [|discriminate].
  destruct (User.requiredIfMember r (User.f_membershipType f)) as [mt|];
    [|discriminate].
  destruct (User.requiredIfMember r (User.f_startDate f)) as [sd|];
    [|discriminate].
  destruct (User.requiredIfMember r (User.f_endDate f)) as [ed|];
    [|discriminate].
  destruct (inEnum User.roles (withDefault "member"%string (User.f_role f))
            && inEnum User.membershipTypes (User.f_membershipType f));
    [|discriminate].
  intros H. inversion H; subst d; clear H. cbn.
  apply requiredString_cast in Hpw.
  pose proof (requiredString_cast _ _ He) as He'.
  repeat split; auto.
  exists e. split; [reflexivity|].
  rewrite He' in He. cbn in He.
  destruct (String.eqb e EmptyString) eqn:Hee; [discriminate|].
  apply String.eqb_neq. assumption.
Qed.

(** A 201 means: no account had the email, and one account was added that
    has it, with the role member, the status active and the placeholder
    password. *)
Lemma members_post_created user body w r w1 :
  members_post user body w = (r, w1) -> status r = 201 ->
  exists e d,
    castString (MemberBody.email body) = CastOk (Some e)
    /\ find (hasEmail (Some e)) (users w) = None
    /\ User.email d = Some e
    /\ User.role d = Some "member"
    /\ User.password d = Some "123456"
    /\ User.status d = Some "active"
    /\ users w1 = users w ++ [d]
    /\ payments w1 = payments w.
Proof.
  intros Hrun H201. unfold members_post, isAdmin in Hrun.
  destruct user as [u|]; [|inversion Hrun; subst; discriminate].
  destruct (String.eqb (Claims.role u) "admin");
    [|inversion Hrun; subst; discriminate].
  unfold tryCatch, bind, UserModel.findOneByEmail in Hrun.
  destruct (optional (castString (MemberBody.email body))) as [v|] eqn:Hc;
    [|inversion Hrun; subst; discriminate].
  destruct (find (hasEmail v) (users w)) as [x|] eqn:Hfind;
    [inversion Hrun; subst; discriminate|].
  unfold UserModel.new, UserModel.save, newObjectId, currentTime, bind, ret,
    respond in Hrun.
  cbn [users payments clock ticks oids made] in Hrun.
  match type of Hrun with
  | context [User.validate ?i ?now ?f] =>
      destruct (User.validate i now f) as [d|] eqn:Hv
  end; [|inversion Hrun; subst; discriminate].
  cbn [users payments clock ticks oids made] in Hrun.
  match type of Hrun with
  | context [if ?c then _ else _] => destruct c
  end; [inversion Hrun; subst; discriminate|].
  inversion Hrun; subst r w1; clear Hrun.
  destruct (validate_fields _ _ _ _ Hv)
    as (_ & (e & He & _) & Hfe & Hfp & Hfr & Hst & _).
  cbn [User.f_email User.f_password User.f_role optional stored withDefault]
    in Hfe, Hfp, Hfr.
  exists e, d. rewrite Hfe in Hc. cbn [optional stored] in Hc. rewrite He in *.
  inversion Hc; subst v. inversion Hfp. inversion Hfr.
  repeat split; auto.
Qed.

Lemma find_hasEmail_some e l a :
  In a l -> User.email a = e -> exists x, find (hasEmail e) l = Some x.
Proof.
  intros Hin He. destruct (find (hasEmail e) l) as [x|] eqn:Hf; [eauto|].
  pose proof (find_none _ _ Hf a Hin) as Hn. unfold hasEmail in Hn.
  rewrite He, eqbOpt_refl in Hn. discriminate.
Qed.

Lemma filter_hasEmail_none e l :
  find (hasEmail e) l = None -> filter (hasEmail e) l = [].
Proof.
  induction l as [|x r IH]; cbn; [reflexivity|].
  destruct (hasEmail e x); [discriminate | assumption].
Qed.

(** An admin asking for an account with an email some account already has,
    whatever that account's role, gets 400 "User already exists" and
    nothing is written. *)
Lemma members_post_conflict u body w a :
  Claims.role u = "admin" ->
  In a (users w) ->
  castString (MemberBody.email body) = CastOk (User.email a) ->
  members_post (Some u) body w
  = (mkResponse 400 (Message "User already exists"), w).
Proof.
  intros Hr Hin Hc. unfold members_post, isAdmin.
  apply String.eqb_eq in Hr. rewrite Hr.
  unfold tryCatch, bind, UserModel.findOneByEmail. rewrite Hc.
  cbn [optional stored].
  destruct (find_hasEmail_some (User.email a) (users w) a Hin eq_refl)
    as [x Hx].
  rewrite Hx. reflexivity.
Qed.

(** C6.  When a create has answered 201, a create by an admin with the
    same email answers 400 "User already exists" and writes nothing;
    exactly one account, of any role, has that email; and if emails were
    unique across the accounts before, they still are. *)
Theorem members_post_duplicate_email user1 u2 b1 b2 w r1 w1 :
  members_post user1 b1 w = (r1, w1) ->
  status r1 = 201 ->
  Claims.role u2 = "admin" ->
  MemberBody.email b2 = MemberBody.email b1 ->
  members_post (Some u2) b2 w1
  = (mkResponse 400 (Message "User already exists"), w1)
  /\ (exists e,
        castString (MemberBody.email b1) = CastOk (Some e)
        /\ List.length (filter (hasEmail (Some e)) (users w1)) = 1%nat)
  /\ (NoDup (map User.email (users w)) ->
      NoDup (map User.email (users w1))).
Proof.
  intros Hrun H201 Hadmin Hsame.
  destruct (members_post_created _ _ _ _ _ Hrun H201)
    as (e & d & Hc & Hnone & He & _ & _ & _ & Hus & _).
  split; [|split].
  - apply (members_post_conflict u2 b2 w1 d Hadmin).
    + rewrite Hus. apply in_or_app. right. left. reflexivity.
    + rewrite Hsame, He. exact Hc.
  - exists e. split; [exact Hc|].
    rewrite Hus, filter_app, (filter_hasEmail_none _ _ Hnone). cbn.
    unfold hasEmail. rewrite He, eqbOpt_refl. reflexivity.
  - intros Hnd. rewrite Hus, map_app. cbn. rewrite He.
    assert (Hnot : ~ In (Some e) (map User.email (users w))).
    { intros Hin. apply in_map_iff in Hin. destruct Hin as (a & Ha & Hina).
      pose proof (find_none _ _ Hnone a Hina) as Hn. unfold hasEmail in Hn.
      rewrite Ha, eqbOpt_refl in Hn. discriminate. }
    clear - Hnd Hnot. induction (map User.email (users w)) as [|x r IH].
    + cbn. constructor; [intros []|constructor].
    + cbn. inversion Hnd; subst. constructor.
      * intros Hin. apply in_app_or in Hin. destruct Hin as [Hin | [Hin | []]].
        -- contradiction.
        -- apply Hnot. left. symmetry. assumption.
      * apply IH; [assumption|]. intros Hin. apply Hnot. right. assumption.
Qed.

End MemberCreate.

Lemma members_post_duplicate_email_witness :
  status (fst (members_post (Some adminClaims) ravi gym)) = 201
  /\ members_post (Some adminClaims) raviAgain
       (snd (members_post (Some adminClaims) ravi gym))
     = (mkResponse 400 (Message "User already exists"),
        snd (members_post (Some adminClaims) ravi gym)).
Proof.
  destruct (members_post (Some adminClaims) ravi gym) as [r1 w1] eqn:E.
  assert (H201 : status r1 = 201)
    by (vm_compute in E; inversion E; reflexivity).
  split; [exact H201|].
  exact (proj1 (members_post_duplicate_email (Some adminClaims) adminClaims
                  ravi raviAgain gym r1 w1 E H201 eq_refl eq_refl)).
Defined.


(* ================================================================== *)
(** ** POST /payments/verify *)
(* ================================================================== *)

Section Verify.
Context {P : Platform}.

Lemma required_cast {A} (c : Cast A) a : required c = Some a -> c = CastOk (Some a).
Proof. destruct c as [|[x|]|]; cbn; congruence. Qed.

(** What a payment that passed validation is made of. *)
Lemma payment_validate_fields i now f d :
  Payment.validate i now f = Some d ->
  Payment._id d = i
  /\ Payment.f_userId f = CastOk (Some (Payment.userId d))
  /\ optional (Payment.f_membership f) = Some (Payment.membership d)
  /\ optional (withDefault "pending"%string (Payment.f_status f))
     = Some (Payment.status d)
  /\ optional (Payment.f_startDate f) = Some (Payment.startDate d)
  /\ optional (Payment.f_endDate f) = Some (Payment.endDate d)
  /\ inEnum Payment.memberships (Payment.f_membership f) = true.
Proof.
  unfold Payment.validate. cbv zeta.
  destruct (required (Payment.f_userId f)) as [uid|] eqn:Hu; [|discriminate].
  destruct (required (Payment.f_amount f)) as [a|]; [|discriminate].
  destruct (optional (withDefault "membership"%string (Payment.f_paymentType f)))
    as [pt|]; [|discriminate].
  destruct (requiredString (Payment.f_paymentMethod f)) as [pm|];
    [|discriminate].
  destruct (optional (Payment.f_razorpayPaymentId f)) as [rp|];
    [|discriminate].
  destruct (optional (Payment.f_razorpayOrderId f)) as [ro|]; [|discriminate].
  destruct (optional (Payment.f_membership f)) as [m|] eqn:Hm; [|discriminate].
  destruct (optional (withDefault "pending"%string (Payment.f_status f)))
    as [st|] eqn:Hst; [|discriminate].
  destruct (optional (Payment.f_startDate f)) as [sd|] eqn:Hsd;
    [|discriminate].
  destruct (optional (Payment.f_endDate f)) as [ed|] eqn:Hed; [|discriminate].
  destruct (inEnum Payment.paymentTypes
              (withDefault "membership"%string (Payment.f_paymentType f)));
    [|discriminate].
  cbn [andb].
  destruct (inEnum Payment.paymentMethods (Payment.f_paymentMethod f));
    [|discriminate].
  cbn [andb].
  destruct (inEnum Payment.memberships (Payment.f_membership f)) eqn:Hen;
    [|discriminate].
  cbn [andb].
  destruct (inEnum Payment.statuses
              (withDefault "pending"%string (Payment.f_status f)));
    [|discriminate].
  intros H. inversion H; subst d; clear H. cbn.
  apply required_cast in Hu.
  repeat split; assumption.
Qed.

Lemma castDateObject_ok d v : castDateObject d = CastOk v -> d = v /\ v <> None.
Proof. destruct d; cbn; intros H; inversion H; split; congruence. Qed.

Lemma castString_optional v : optional (castString v) = Some (stored (castString v)).
Proof. destruct v; reflexivity. Qed.

(** The handler, evaluated.  It answers 200 exactly when the amount is a
    number, the membership passes the enum, the end date is a Date and the
    payment's ObjectId is not taken, and then it has stored the payment and
    updated the caller's account, when there is one; otherwise it answers
    500 and both collections are as they were. *)
Lemma payments_post_verify_eval u body w :
  let membership := VerifyBody.membership body in
  let t0 := clock w (ticks w) in
  let t1 := clock w (S (ticks w)) in
  let read := mkWorld (users w) (payments w) (clock w) (S (S (S (ticks w))))
                      (oids w) (S (made w)) in
  payments_post_verify (Some u) body w
  = match paiseToINR (VerifyBody.amount body), membershipEnd membership t1 with
    | Some a, Some e =>
        if inEnum Payment.memberships (castString membership)
           && negb (existsb (fun x => String.eqb (Payment._id x)
                                        (oids w (made w))) (payments w))
        then
          let p :=
            Payment.mk (oids w (made w)) (Claims.id u) a (Some "membership")
              "card" (stored (castString (VerifyBody.razorpayPaymentId body)))
              (stored (castString (VerifyBody.razorpayOrderId body)))
              (stored (castString membership)) (Some "completed")
              (Some t0) (Some e) (Some (clock w (S (S (ticks w))))) in
          let renewed m :=
            User.applyUpdate
              (User.mkUpdate None None None (Some (castString membership))
                 (Some (CastOk (Some t0))) (Some (CastOk (Some e)))
                 (Some (CastOk (Some "active")))) m in
          (mkResponse 200 (Success "Payment verified and membership updated"),
           mkWorld
             match find (hasId (Claims.id u)) (users w) with
             | Some m => replaceById (Claims.id u) (renewed m) (users w)
             | None => users w
             end
             (payments w ++ [p]) (clock w) (S (S (S (ticks w)))) (oids w)
             (S (made w)))
        else (mkResponse 500 (Message "Server error"), read)
    | _, _ => (mkResponse 500 (Message "Server error"), read)
    end.
Proof.
  cbv zeta.
  unfold payments_post_verify, PaymentModel.new, PaymentModel.save, tryCatch.
  unfold bind, currentTime, newObjectId, reqUser, ret, respond.
  cbv beta iota zeta.
  cbn [users payments clock ticks oids made].
  rewrite castObjectId_oid.
  unfold Payment.validate. cbv zeta.
  cbn [Payment.f_userId Payment.f_amount Payment.f_paymentType
       Payment.f_paymentMethod Payment.f_razorpayPaymentId
       Payment.f_razorpayOrderId Payment.f_membership Payment.f_status
       Payment.f_startDate Payment.f_endDate
       required optional requiredString inEnum withDefault].
  rewrite !castString_optional.
  change (String.eqb "card" EmptyString) with false. cbv beta iota.
  change (existsb (String.eqb "membership") Payment.paymentTypes) with true.
  change (existsb (String.eqb "card") Payment.paymentMethods) with true.
  change (existsb (String.eqb "completed") Payment.statuses) with true.
  cbn [andb]. rewrite andb_true_r.
  destruct (paiseToINR (VerifyBody.amount body)) as [a|];
    cbn [castNumber required]; [|reflexivity].
  destruct (membershipEnd (VerifyBody.membership body) (clock w (S (ticks w))))
    as [e|]; cbn [castDateObject optional]; [|reflexivity].
  destruct (inEnum Payment.memberships (castString (VerifyBody.membership body)));
    cbn [andb]; [|reflexivity].
  cbn [users payments clock ticks oids made Payment._id].
  destruct (existsb _ (payments w)); cbn [negb]; [reflexivity|].
  unfold UserModel.findByIdAndUpdate, User.updateCastFailed, User.castFailed,
    setPayments.
  cbn [User.u_name User.u_email User.u_phone User.u_membershipType
       User.u_startDate User.u_endDate User.u_status orb
       users payments clock ticks oids made].
  rewrite castObjectId_oid.
  assert (Hc : match castString (VerifyBody.membership body) with
               | CastError => true | _ => false end = false)
    by (destruct (VerifyBody.membership body); reflexivity).
  rewrite Hc. cbn [orb users payments clock ticks oids made stored].
  destruct (find (hasId (Claims.id u)) (users w)) as [m|]; [|reflexivity].
  unfold User.applyUpdate. cbn [User.email User.u_email User.setPath].
  rewrite eqbOpt_refl. reflexivity.
Qed.

(** Every answer of the handler is one of two: 200, with one payment added
    and the caller's account (when there is one) given the payment's
    membership, dates and the status active; or 500 "Server error", with
    both collections as they were, for one of four reasons. *)
Lemma payments_post_verify_outcome u body w r w1 :
  payments_post_verify (Some u) body w = (r, w1) ->
  let membership := VerifyBody.membership body in
  let fresh :=
    negb (existsb (fun x => String.eqb (Payment._id x) (oids w (made w)))
                  (payments w)) in
  (r = mkResponse 200 (Success "Payment verified and membership updated")
   /\ inEnum Payment.memberships (castString membership) = true
   /\ fresh = true
   /\ exists p e,
       membershipEnd membership (clock w (S (ticks w))) = Some e
       /\ paiseToINR (VerifyBody.amount body) = Some (Payment.amount p)
       /\ payments w1 = payments w ++ [p]
       /\ Payment._id p = oids w (made w)
       /\ Payment.userId p = Claims.id u
       /\ Payment.status p = Some "completed"
       /\ Payment.membership p = stored (castString membership)
       /\ Payment.startDate p = Some (clock w (ticks w))
       /\ Payment.endDate p = Some e
       /\ Payment.razorpayPaymentId p
          = stored (castString (VerifyBody.razorpayPaymentId body))
       /\ Payment.razorpayOrderId p
          = stored (castString (VerifyBody.razorpayOrderId body))
       /\ users w1
          = match find (hasId (Claims.id u)) (users w) with
            | Some m =>
                replaceById (Claims.id u)
                  (User.applyUpdate
                     (User.mkUpdate None None None
                        (Some (CastOk (Payment.membership p)))
                        (Some (CastOk (Payment.startDate p)))
                        (Some (CastOk (Payment.endDate p)))
                        (Some (CastOk (Some "active")))) m)
                  (users w)
            | None => users w
            end)
  \/ (r = mkResponse 500 (Message "Server error")
      /\ users w1 = users w /\ payments w1 = payments w
      /\ (paiseToINR (VerifyBody.amount body) = None
          \/ membershipEnd membership (clock w (S (ticks w))) = None
          \/ inEnum Payment.memberships (castString membership) = false
          \/ fresh = false)).
Proof.
  rewrite payments_post_verify_eval. cbv zeta.
  destruct (paiseToINR (VerifyBody.amount body)) as [a|];
    [|intros H; inversion H; right; auto 6].
  destruct (membershipEnd (VerifyBody.membership body) (clock w (S (ticks w))))
    as [e|]; [|intros H; inversion H; right; auto 6].
  destruct (inEnum Payment.memberships (castString (VerifyBody.membership body)))
    eqn:Hen; cbn [andb]; [|intros H; inversion H; right; auto 7].
  destruct (negb (existsb _ (payments w))) eqn:Hfresh;
    [|intros H; inversion H; right; auto 8].
  intros H. inversion H; subst r w1; clear H. left.
  split; [reflexivity|]. split; [reflexivity|]. split; [reflexivity|].
  eexists. exists e. cbn [users payments Payment._id Payment.userId
    Payment.amount Payment.status Payment.membership Payment.startDate
    Payment.endDate Payment.razorpayPaymentId Payment.razorpayOrderId].
  repeat split.
  destruct (find (hasId (Claims.id u)) (users w)) as [m|]; [|reflexivity].
  f_equal. unfold User.applyUpdate.
  cbn [User.u_name User.u_email User.u_phone User.u_membershipType
       User.u_startDate User.u_endDate User.u_status User.setPath stored].
  destruct (castString (VerifyBody.membership body)) eqn:Hc;
    try reflexivity.
  destruct (VerifyBody.membership body); discriminate.
Qed.

(** What an accepted verification has done.  With [t0] and [t1] the two
    readings of the clock ([startDate], then [endDate]): one payment was
    added, completed, owned by the caller, from [t0] to the membership end
    computed from [t1]; and the caller's account, when there is one, has
    the payment's membership and dates and is active.  When there is no
    such account the payment is added all the same. *)
Lemma payments_post_verify_accepted u body w r w1 :
  payments_post_verify (Some u) body w = (r, w1) ->
  status r = 200 ->
  let t0 := clock w (ticks w) in
  let t1 := clock w (S (ticks w)) in
  exists p e,
    membershipEnd (VerifyBody.membership body) t1 = Some e
    /\ payments w1 = payments w ++ [p]
    /\ Payment.userId p = Claims.id u
    /\ Payment.status p = Some "completed"
    /\ Payment.membership p = stored (castString (VerifyBody.membership body))
    /\ Payment.startDate p = Some t0
    /\ Payment.endDate p = Some e
    /\ match find (hasId (Claims.id u)) (users w) with
       | None => users w1 = users w
       | Some m =>
           exists m',
             find (hasId (Claims.id u)) (users w1) = Some m'
             /\ User.membershipType m' = Payment.membership p
             /\ User.startDate m' = Payment.startDate p
             /\ User.endDate m' = Payment.endDate p
             /\ User.status m' = Some "active"
             /\ User.name m' = User.name m
             /\ User.email m' = User.email m
       end.
Proof.
  intros Hrun H200. cbv zeta.
  destruct (payments_post_verify_outcome u body w r w1 Hrun)
    as [(_ & _ & _ & p & e & He & _ & Hps & _ & Hu & Hst & Hm & Hsd & Hed & _
         & _ & Hus) | (Hr & _)]; [|rewrite Hr in H200; discriminate].
  exists p, e. repeat split; auto.
  destruct (find (hasId (Claims.id u)) (users w)) as [m|] eqn:Hf; [|exact Hus].
  rewrite Hus. eexists. split.
  - eapply find_replaceById_same; [|exact Hf].
    cbn. apply (find_hasId _ _ _ Hf).
  - cbn. repeat split.
Qed.

Lemma inEnum_memberships s :
  inEnum Payment.memberships (CastOk (Some s)) = true -> exists p, s = planName p.
Proof.
  cbn. intros H. apply orb_true_iff in H. destruct H as [H | H];
    [apply String.eqb_eq in H; exists monthly; assumption|].
  apply orb_true_iff in H. destruct H as [H | H];
    [apply String.eqb_eq in H; exists quarterly; assumption|].
  apply orb_true_iff in H. destruct H as [H | H];
    [apply String.eqb_eq in H; exists yearly; assumption | discriminate].
Qed.

(** What suffices for a 200, the membership being whatever the schema
    lets through. *)
Lemma payments_post_verify_lets_through u body w q e :
  inEnum Payment.memberships (castString (VerifyBody.membership body)) = true ->
  ToNumber (VerifyBody.amount body) = Some q ->
  membershipEnd (VerifyBody.membership body) (clock w (S (ticks w))) = Some e ->
  existsb (fun x => String.eqb (Payment._id x) (oids w (made w))) (payments w)
  = false ->
  fst (payments_post_verify (Some u) body w)
  = mkResponse 200 (Success "Payment verified and membership updated").
Proof.
  intros Hen Ha He Hfresh. rewrite payments_post_verify_eval. cbv zeta.
  unfold paiseToINR. rewrite Ha, He, Hen, Hfresh. reflexivity.
Qed.

(** What suffices for a 200: a plan, a numeric amount, an end date a Date
    can hold and a fresh payment id.  Neither the signature nor the
    existence of the caller's account is asked for. *)
Lemma payments_post_verify_accepts u body w p q e :
  VerifyBody.membership body = JStr (planName p) ->
  ToNumber (VerifyBody.amount body) = Some q ->
  membershipEnd (JStr (planName p)) (clock w (S (ticks w))) = Some e ->
  existsb (fun x => String.eqb (Payment._id x) (oids w (made w))) (payments w)
  = false ->
  fst (payments_post_verify (Some u) body w)
  = mkResponse 200 (Success "Payment verified and membership updated").
Proof.
  intros Hm Ha He Hfresh.
  apply (payments_post_verify_lets_through u body w q e); auto.
  - rewrite Hm. destruct p; reflexivity.
  - rewrite Hm. exact He.
Qed.

End Verify.

(** The handler's answer does not depend on the signature it is sent. *)
Lemma payments_post_verify_signature_unused {P : Platform}
  user pid oid signature signature' membership amount w :
  payments_post_verify user
    (VerifyBody.mk pid oid signature membership amount) w
  = payments_post_verify user
      (VerifyBody.mk pid oid signature' membership amount) w.
Proof. reflexivity. Qed.

(** C1, at the failing input.  Asha's token, identifiers the caller made
    up and any value at all as the signature (none, null, a forged
    string): the handler answers 200, stores a completed payment carrying
    the made-up identifiers and renews Asha's membership.  No input makes
    it check the signature: its answer is the same for every signature. *)
Theorem payments_post_verify_unverified :
  (forall signature : JsVal,
     let res :=
       payments_post_verify (Some ashaClaims) (verifyBody signature "monthly")
                            gym in
     fst res
     = mkResponse 200 (Success "Payment verified and membership updated")
     /\ (exists p,
           payments (snd res) = [p]
           /\ Payment.status p = Some "completed"
           /\ Payment.userId p = ashaId
           /\ Payment.razorpayPaymentId p = Some "pay_made_up"
           /\ Payment.razorpayOrderId p = Some "order_made_up")
     /\ (exists m,
           find (hasId ashaId) (users (snd res)) = Some m
           /\ User.membershipType m = Some "monthly"
           /\ User.status m = Some "active"
           /\ User.endDate m = Some 1719792000001))
  /\ (forall (P : Platform) user pid oid signature signature' membership
             amount w,
        payments_post_verify user
          (VerifyBody.mk pid oid signature membership amount) w
        = payments_post_verify user
            (VerifyBody.mk pid oid signature' membership amount) w).
Proof.
  split.
  - intros signature. cbv zeta. vm_compute.
    split; [reflexivity|]. split; eexists; repeat split; reflexivity.
  - intros. reflexivity.
Qed.

(** C2, at the failing input.  A token whose account is not in the
    collection: the handler answers 200, not 404, and a completed payment
    owned by the unknown id is stored; no account is changed. *)
Theorem payments_post_verify_unknown_member :
  let res :=
    payments_post_verify (Some ghostClaims) (verifyBody JUndefined "monthly")
                         gym in
  find (hasId ghostId) (users gym) = None
  /\ fst res
     = mkResponse 200 (Success "Payment verified and membership updated")
  /\ users (snd res) = users gym
  /\ (exists p,
        payments (snd res) = [p]
        /\ Payment.userId p = ghostId
        /\ Payment.status p = Some "completed").
Proof.
  cbv zeta. vm_compute.
  repeat split; try reflexivity. eexists; repeat split; reflexivity.
Qed.

(** C3, at the failing input.  Asha pays for a year while the clock ticks
    between the handler's two [new Date()]: her membership is yearly and
    active and starts at the first reading, the payment is completed with
    her dates, but the end date is one year after the second reading, a
    millisecond later than one year after the start date. *)
Theorem payments_post_verify_yearly_end :
  let res :=
    payments_post_verify (Some ashaClaims) (verifyBody JUndefined "yearly")
                         gym in
  fst res = mkResponse 200 (Success "Payment verified and membership updated")
  /\ (exists m p,
        find (hasId ashaId) (users (snd res)) = Some m
        /\ payments (snd res) = [p]
        /\ User.membershipType m = Some "yearly"
        /\ User.status m = Some "active"
        /\ Payment.status p = Some "completed"
        /\ Payment.startDate p = User.startDate m
        /\ Payment.endDate p = User.endDate m
        /\ User.startDate m = Some 1717200000000
        /\ User.endDate m = Some 1748736000001)
  /\ snd (computeWindow yearly 1717200000000) = Some 1748736000000.
Proof.
  cbv zeta. vm_compute.
  split; [reflexivity|]. split; [|reflexivity].
  do 2 eexists. repeat split; reflexivity.
Qed.

(* ================================================================== *)
(** ** The indexes stay unique *)
(* ================================================================== *)

Lemma replaceById_ids i d' l :
  ofString i = Some (User._id d') ->
  map User._id (replaceById i d' l) = map User._id l.
Proof.
  intros Hid. induction l as [|x r IH]; cbn; [reflexivity|].
  destruct (hasId i x) eqn:Hx; cbn.
  - apply hasId_true in Hx. congruence.
  - rewrite IH. reflexivity.
Qed.

Lemma replaceById_email_in i d' l e :
  In e (map User.email (replaceById i d' l)) ->
  e = User.email d' \/ In e (map User.email l).
Proof.
  induction l as [|x r IH]; cbn; [tauto|].
  destruct (hasId i x); cbn; intros [H | H]; auto.
  destruct (IH H); auto.
Qed.

Lemma replaceById_emails i d d' l :
  find (hasId i) l = Some d ->
  NoDup (map User.email l) ->
  User.email d' = User.email d \/ ~ In (User.email d') (map User.email l) ->
  NoDup (map User.email (replaceById i d' l)).
Proof.
  induction l as [|x r IH]; cbn; [intros; constructor|].
  intros Hf Hnd Hfresh. inversion Hnd as [|? ? Hnotin Hnd']; subst.
  destruct (hasId i x) eqn:Hx.
  - inversion Hf; subst x. cbn. constructor; [|assumption].
    destruct Hfresh as [He | Hn]; [rewrite He; assumption|].
    intros Hin. apply Hn. right. assumption.
  - cbn. constructor.
    + intros Hin. apply replaceById_email_in in Hin.
      destruct Hin as [He | Hin]; [|contradiction].
      destruct Hfresh as [He' | Hn].
      * apply find_some in Hf. destruct Hf as [Hind _].
        apply Hnotin. rewrite He, He'. apply in_map. assumption.
      * apply Hn. left. congruence.
    + apply (IH Hf Hnd').
      destruct Hfresh as [He' | Hn]; [left; assumption|].
      right. intros Hin. apply Hn. right. assumption.
Qed.

Lemma removeById_incl i l d : In d (removeById i l) -> In d l.
Proof.
  induction l as [|x r IH]; cbn; [tauto|].
  destruct (hasId i x); cbn; [tauto|]. intros [H | H]; auto.
Qed.

Lemma removeById_emails i l :
  NoDup (map User.email l) -> NoDup (map User.email (removeById i l)).
Proof.
  induction l as [|x r IH]; cbn; [intros; constructor|].
  intros Hnd. inversion Hnd as [|? ? Hnotin Hnd']; subst.
  destruct (hasId i x); cbn; [assumption|].
  constructor; [|auto].
  intros Hin. apply Hnotin. apply in_map_iff in Hin.
  destruct Hin as (d & Hd & Hin). apply removeById_incl in Hin.
  rewrite <- Hd. apply in_map. assumption.
Qed.

Lemma existsb_hasId_false (i : ObjectId) l :
  existsb (hasId i) l = false -> ~ In i (map User._id l).
Proof.
  intros H Hin. apply in_map_iff in Hin. destruct Hin as (d & Hd & Hin).
  assert (Ht : existsb (hasId i) l = true).
  { apply existsb_exists. exists d. split; [assumption|].
    apply hasId_true. rewrite ofString_toHexString. congruence. }
  congruence.
Qed.

Lemma existsb_hasEmail_false e l :
  existsb (hasEmail e) l = false -> ~ In e (map User.email l).
Proof.
  intros H Hin. apply in_map_iff in Hin. destruct Hin as (d & Hd & Hin).
  assert (Ht : existsb (hasEmail e) l = true).
  { apply existsb_exists. exists d. split; [assumption|].
    unfold hasEmail. rewrite Hd. apply eqbOpt_refl. }
  congruence.
Qed.

Lemma NoDup_snoc {A} (l : list A) (a : A) :
  NoDup l -> ~ In a l -> NoDup (l ++ [a]).
Proof.
  induction l as [|x r IH]; cbn; intros Hnd Hn.
  - constructor; [intros [] | constructor].
  - inversion Hnd; subst. constructor.
    + intros Hin. apply in_app_or in Hin.
      destruct Hin as [Hin | [Hin | []]]; [contradiction|].
      apply Hn. left. symmetry. assumption.
    + apply IH; [assumption|]. intros Hin. apply Hn. right. assumption.
Qed.

Section Indexes.
Context {P : Platform}.

Lemma findByIdAndUpdate_unique i u w o w1 :
  UserModel.findByIdAndUpdate i u w = (o, w1) ->
  (uniqueIds w -> uniqueIds w1) /\ (uniqueEmails w -> uniqueEmails w1).
Proof.
  unfold UserModel.findByIdAndUpdate, castObjectId, uniqueIds, uniqueEmails,
    throw.
  destruct (User.updateCastFailed u);
    [intros H; inversion H; subst; auto|].
  destruct (ofString i); [|intros H; inversion H; subst; auto].
  destruct (find (hasId i) (users w)) as [d|] eqn:Hf;
    [|intros H; inversion H; subst; auto].
  destruct (negb (eqbOpt (User.email d) (User.email (User.applyUpdate u d))))
    eqn:Hchg; cbn [andb].
  - destruct (existsb (hasEmail (User.email (User.applyUpdate u d))) (users w))
      eqn:Hex; intros H; inversion H; subst; clear H; [auto|].
    cbn [users setUsers]. split; intros Hnd.
    + rewrite replaceById_ids; [assumption|].
      cbn. apply (find_hasId _ _ _ Hf).
    + apply (replaceById_emails i d _ _ Hf Hnd). right.
      apply existsb_hasEmail_false. assumption.
  - intros H; inversion H; subst; clear H.
    cbn [users setUsers]. split; intros Hnd.
    + rewrite replaceById_ids; [assumption|].
      cbn. apply (find_hasId _ _ _ Hf).
    + apply (replaceById_emails i d _ _ Hf Hnd). left.
      apply negb_false_iff, eqbOpt_eq in Hchg. symmetry. assumption.
Qed.

Lemma user_save_unique m w o w1 :
  UserModel.save m w = (o, w1) ->
  (uniqueIds w -> uniqueIds w1) /\ (uniqueEmails w -> uniqueEmails w1).
Proof.
  destruct m as [[i now] f]. unfold UserModel.save, uniqueIds, uniqueEmails.
  destruct (User.validate i now f) as [d|] eqn:Hv;
    [|intros H; inversion H; subst; auto].
  destruct (existsb (hasId i) (users w)) eqn:Hi; cbn [orb];
    [intros H; inversion H; subst; auto|].
  destruct (existsb (hasEmail (User.email d)) (users w)) eqn:He;
    intros H; inversion H; subst; clear H; [auto|].
  cbn [users setUsers]. rewrite !map_app. cbn [map].
  destruct (validate_fields _ _ _ _ Hv) as (Hid & _).
  split; intros Hnd; apply NoDup_snoc; try assumption.
  - rewrite Hid. apply existsb_hasId_false. assumption.
  - apply existsb_hasEmail_false. assumption.
Qed.

(** Every handler keeps the [_id]s and the emails of the accounts unique,
    whoever calls it and whatever it answers. *)
Lemma handlers_keep_indexes :
  forall w,
    uniqueIds w -> uniqueEmails w ->
    (forall user id,
       let w1 := snd (members_get_id user id w) in
       uniqueIds w1 /\ uniqueEmails w1)
    /\ (forall user body,
          let w1 := snd (members_post user body w) in
          uniqueIds w1 /\ uniqueEmails w1)
    /\ (forall user id body,
          let w1 := snd (members_put_id user id body w) in
          uniqueIds w1 /\ uniqueEmails w1)
    /\ (forall user id,
          let w1 := snd (members_delete_id user id w) in
          uniqueIds w1 /\ uniqueEmails w1)
    /\ (forall user body,
          let w1 := snd (payments_post_verify user body w) in
          uniqueIds w1 /\ uniqueEmails w1).
Proof.
  intros w Hi He. repeat split; cbv zeta.
  all: try (unfold members_get_id, tryCatch, bind, reqUser, UserModel.findById,
              castObjectId, respond, ret, throw;
            destruct user as [u|]; [|assumption];
            destruct (negb (String.eqb (Claims.role u) "admin")
                      && negb (String.eqb (Claims.id u) id)); [assumption|];
            destruct (ofString id); [|assumption];
            destruct (find (hasId id) (users w)); assumption).
  all: try (unfold members_delete_id, isAdmin, tryCatch, bind,
              UserModel.findById, UserModel.findByIdAndDelete, castObjectId,
              respond, ret, throw;
            destruct user as [u|]; [|assumption];
            destruct (String.eqb (Claims.role u) "admin"); [|assumption];
            destruct (ofString id); [|assumption];
            destruct (find (hasId id) (users w)); [|assumption];
            cbn [snd users setUsers];
            first [apply removeById_ids | apply removeById_emails];
            assumption).
  all: try (unfold members_put_id, isAdmin, tryCatch, bind,
              UserModel.findById, castObjectId, respond, ret, throw;
            destruct user as [u|]; [|assumption];
            destruct (String.eqb (Claims.role u) "admin"); [|assumption];
            destruct (ofString id) as [i|]; [|assumption];
            destruct (find (hasId id) (users w)); [|assumption];
            destruct (UserModel.findByIdAndUpdate id (memberFields body) w)
              as [[o|] w1] eqn:E; cbn [snd];
            apply findByIdAndUpdate_unique in E; destruct E; auto).
  all: try (unfold members_post, isAdmin;
            destruct user as [u|]; [|assumption];
            destruct (String.eqb (Claims.role u) "admin"); [|assumption];
            unfold tryCatch, bind, UserModel.findOneByEmail;
            destruct (optional (castString (MemberBody.email body)))
              as [v|]; [|assumption];
            destruct (find (hasEmail v) (users w)); [assumption|];
            unfold UserModel.new, newObjectId, currentTime, bind, ret, respond;
            cbv beta iota;
            match goal with
            | |- context [UserModel.save ?m ?w0] =>
                destruct (UserModel.save m w0) as [[o|] w1] eqn:E;
                apply user_save_unique in E; destruct E; cbn [snd]; auto
            end).
  all: destruct user as [u|]; [|assumption];
       destruct (payments_post_verify (Some u) body w) as [r w1] eqn:Hrun;
       cbn [snd];
       destruct (payments_post_verify_outcome u body w r w1 Hrun)
         as [(_ & _ & _ & p & e & _ & _ & _ & _ & _ & _ & _ & _ & _ & _ & _
              & Hus) | (_ & Hus & _)];
       unfold uniqueIds, uniqueEmails in *; rewrite Hus; try assumption;
       destruct (find (hasId (Claims.id u)) (users w)) as [m|] eqn:Hf;
       try assumption.
  - rewrite replaceById_ids; [assumption|]. cbn. apply (find_hasId _ _ _ Hf).
  - apply (replaceById_emails _ m _ _ Hf He). left. reflexivity.
Qed.

(** When the clock does not move between the handler's two readings, an
    accepted yearly payment of an existing member leaves the member with
    the window of [computeWindow]. *)
Lemma payments_post_verify_yearly_frozen u body w r w1 m :
  payments_post_verify (Some u) body w = (r, w1) ->
  status r = 200 ->
  VerifyBody.membership body = JStr "yearly" ->
  clock w (S (ticks w)) = clock w (ticks w) ->
  find (hasId (Claims.id u)) (users w) = Some m ->
  exists m',
    find (hasId (Claims.id u)) (users w1) = Some m'
    /\ User.membershipType m' = Some "yearly"
    /\ User.status m' = Some "active"
    /\ (User.startDate m', User.endDate m')
       = computeWindow yearly (clock w (ticks w)).
Proof.
  intros Hrun H200 Hy Hfrozen Hf.
  destruct (payments_post_verify_accepted u body w r w1 Hrun H200)
    as (p & e & Hend & _ & _ & _ & Hm & Hsd & Hed & Hmem).
  rewrite Hf in Hmem. destruct Hmem as (m' & Hf' & Hmt & Hs & He & Hst & _).
  exists m'. rewrite Hy in Hm, Hend. cbn in Hm. inversion Hm as [Hm'].
  repeat split; try assumption; try congruence.
  unfold computeWindow. cbn [planName].
  rewrite Hfrozen in Hend. rewrite Hend, Hs, He, Hsd, Hed. reflexivity.
Qed.

End Indexes.

(* ================================================================== *)
(** ** authenticateToken and the mounting of the routers *)
(* ================================================================== *)

Lemma split_not_nil sep s : split sep s <> [].
Proof.
  destruct s as [|c r]; cbn; [discriminate|].
  destruct (Ascii.eqb c sep); [discriminate|].
  destruct (split sep r); discriminate.
Qed.

(** A string without the separator is its own single piece. *)
Lemma split_whole sep s : occurs sep s = false -> split sep s = [s].
Proof.
  induction s as [|c r IH]; cbn; [reflexivity|].
  intros H. apply orb_false_iff in H. destruct H as [Hc Hr].
  rewrite Hc, (IH Hr). reflexivity.
Qed.

(** The first piece ends at the first separator. *)
Lemma split_first sep a b :
  occurs sep a = false ->
  split sep (a ++ String sep b) = a :: split sep b.
Proof.
  induction a as [|c r IH]; cbn; intros H.
  - rewrite Ascii.eqb_refl. reflexivity.
  - apply orb_false_iff in H. destruct H as [Hc Hr].
    rewrite Hc, (IH Hr). reflexivity.
Qed.

Lemma append_not_empty a c b : (a ++ String c b)%string <> EmptyString.
Proof. destruct a; discriminate. Qed.

(** The token is what stands between the first and the second space. *)
Lemma tokenOf_second scheme token tail :
  occurs " " scheme = false ->
  occurs " " token = false ->
  tail = EmptyString \/ (exists x, tail = String " " x) ->
  tokenOf (Some (scheme ++ String " " (token ++ tail))%string) = Some token.
Proof.
  intros Hs Ht Htail. unfold tokenOf.
  destruct (String.eqb_spec (scheme ++ String " " (token ++ tail)) EmptyString)
    as [He | _]; [destruct (append_not_empty _ _ _ He)|].
  rewrite split_first by assumption. cbn [nth_error].
  destruct Htail as [-> | [x ->]].
  - replace (token ++ "")%string with token
      by (clear; induction token; cbn; congruence).
    rewrite split_whole by assumption. reflexivity.
  - rewrite split_first by assumption. reflexivity.
Qed.

Lemma tokenOf_one_word h :
  occurs " " h = false -> tokenOf (Some h) = None \/ tokenOf (Some h) = Some "".
Proof.
  intros H. unfold tokenOf. destruct (String.eqb h ""); [right; reflexivity|].
  rewrite split_whole by assumption. left. reflexivity.
Qed.

Section Mounting.
Context {P : Platform} {Sv : Services}.


(** X2.  With a header "<scheme> <token>", whatever the scheme word and
    whatever follows a further space, the route's handler runs with the
    claims [jwt.verify] reads off the token, and the answer is 401 "Invalid
    token", with nothing written, when [jwt.verify] refuses it. *)
Theorem serve_with_token (scheme token tail : string) (route : Route)
  (w : World) :
  occurs " " scheme = false ->
  occurs " " token = false ->
  token <> EmptyString ->
  tail = EmptyString \/ (exists x, tail = String " " x) ->
  serve (Some (scheme ++ String " " (token ++ tail))%string) route w
  = match jwtVerify token with
    | Some claims => dispatch (Some claims) route w
    | None => (mkReply 401 (Plain (Message "Invalid token")), w)
    end.
Proof.
  intros Hs Ht Hne Htail. unfold serve, authenticateToken.
  rewrite tokenOf_second by assumption.
  apply String.eqb_neq in Hne. rewrite Hne. reflexivity.
Qed.

(** A caller whose role is not admin is answered 403 "Unauthorized.
    Admin access required" by the five admin routes (list, create, update
    and delete a member, list all payments), and nothing is written. *)
Theorem admin_routes_refuse (u : Claims.t) (w : World) :
  Claims.role u <> "admin" ->
  let refused :=
    (mkReply 403 (Plain (Message "Unauthorized. Admin access required")), w) in
  dispatch (Some u) GetMembers w = refused
  /\ (forall body, dispatch (Some u) (PostMember body) w = refused)
  /\ (forall id body, dispatch (Some u) (PutMember id body) w = refused)
  /\ (forall id, dispatch (Some u) (DeleteMember id) w = refused)
  /\ dispatch (Some u) GetPayments w = refused.
Proof.
  intros Hr. apply String.eqb_neq in Hr. cbv zeta.
  unfold dispatch, lift, members_get, payments_get, members_post,
    members_put_id, members_delete_id, isAdmin, isAdminReply.
  rewrite Hr. repeat split.
Qed.

End Mounting.

Lemma serve_with_token_witness :
  occurs " " "Basic" = false /\ occurs " " "asha.token" = false
  /\ fst (serve (Some "Basic asha.token extra") (GetMember ashaId) gym)
     = mkReply 200 (Plain (Member (User.selectNoPassword asha))).
Proof.
  split; [reflexivity|]. split; [reflexivity|].
  change (Some "Basic asha.token extra")
    with (Some ("Basic" ++ String " " ("asha.token" ++ " extra"))%string).
  rewrite (serve_with_token "Basic" "asha.token" " extra" (GetMember ashaId) gym
             eq_refl eq_refl ltac:(discriminate)
             (or_intror (ex_intro _ "extra" eq_refl))).
  reflexivity.
Defined.

Lemma admin_routes_refuse_witness :
  Claims.role ashaClaims <> "admin"
  /\ code (fst (dispatch (Some ashaClaims) (DeleteMember ownerId) gym)) = 403.
Proof.
  assert (H : Claims.role ashaClaims <> "admin") by discriminate.
  split; [exact H|].
  destruct (admin_routes_refuse ashaClaims gym H) as (_ & _ & _ & Hd & _).
  rewrite Hd. reflexivity.
Defined.

(* ================================================================== *)
(** ** POST /payments/verify: what it writes and what it leaves *)
(* ================================================================== *)

Section VerifyOutcome.
Context {P : Platform}.

(** What the enum of [membership] lets through: no membership at all, or
    a value that casts to one of the three plans.  Null is refused. *)
Lemma inEnum_memberships_iff v :
  inEnum Payment.memberships (castString v) = true
  <-> v = JUndefined \/ exists p, castString v = CastOk (Some (planName p)).
Proof.
  split.
  - intros H. destruct (castString v) as [|[s|]|] eqn:Hc; try discriminate.
    + left. destruct v; try discriminate. reflexivity.
    + right. destruct (inEnum_memberships s H) as [p ->]. eauto.
  - intros [-> | (p & ->)]; [reflexivity | destruct p; reflexivity].
Qed.

(** No rollback: when an awaited step has returned and a later one throws,
    the handler answers 500 and what the first step wrote stays written. *)
Lemma tryCatch_keeps_writes {A} (first : M A) (next : A -> M Response)
  w a w1 w2 :
  first w = (Returned a, w1) ->
  next a w1 = (Thrown, w2) ->
  tryCatch (bind first next) w
  = (mkResponse 500 (Message "Server error"), w2).
Proof. intros H1 H2. unfold tryCatch, bind. rewrite H1, H2. reflexivity. Qed.


(** X4.  Whatever it answers, the handler changes no account but the
    caller's, and of the caller's account it leaves the name, email,
    phone, password, role and creation time as they were. *)
Theorem payments_post_verify_frame u body w r w1 :
  payments_post_verify (Some u) body w = (r, w1) ->
  (forall j : ObjectId, j <> Claims.id u ->
     find (hasId j) (users w1) = find (hasId j) (users w))
  /\ (forall m, find (hasId (Claims.id u)) (users w) = Some m ->
      exists m',
        find (hasId (Claims.id u)) (users w1) = Some m'
        /\ User.name m' = User.name m
        /\ User.email m' = User.email m
        /\ User.phone m' = User.phone m
        /\ User.password m' = User.password m
        /\ User.role m' = User.role m
        /\ User.createdAt m' = User.createdAt m)
  /\ (find (hasId (Claims.id u)) (users w) = None -> users w1 = users w).
Proof.
  intros Hrun.
  destruct (payments_post_verify_outcome u body w r w1 Hrun)
    as [(_ & _ & _ & p & e & _ & _ & _ & _ & _ & _ & _ & _ & _ & _ & _ & Hus)
       | (_ & Hus & _)].
  - destruct (find (hasId (Claims.id u)) (users w)) as [m|] eqn:Hf.
    + destruct (find_hasId _ _ _ Hf) as [Hid _].
      rewrite Hus. repeat split.
      * intros j Hj. apply find_replaceById_other; [exact Hid|].
        rewrite !ofString_toHexString. congruence.
      * intros m0 Hm0. inversion Hm0; subst m0. eexists. split.
        -- eapply find_replaceById_same; [exact Hid | exact Hf].
        -- repeat split.
      * discriminate.
    + rewrite Hus. repeat split; auto. discriminate.
  - rewrite Hus. repeat split; auto.
    intros m Hm. exists m. repeat split. assumption.
Qed.

(** X5.  An amount that is not a number (absent, or a string the platform
    does not read as one), a membership string that is none of the three
    plans, or a boolean membership: the answer is 500 "Server error", no
    payment is stored and no account is changed. *)
Theorem payments_post_verify_rejects u body w r w1 :
  payments_post_verify (Some u) body w = (r, w1) ->
  ToNumber (VerifyBody.amount body) = None
  \/ (exists s, VerifyBody.membership body = JStr s
                /\ forall p, s <> planName p)
  \/ (exists b, VerifyBody.membership body = JBool b) ->
  r = mkResponse 500 (Message "Server error")
  /\ users w1 = users w /\ payments w1 = payments w.
Proof.
  intros Hrun Hbad.
  destruct (payments_post_verify_outcome u body w r w1 Hrun)
    as [(_ & Hen & _ & p & e & _ & Ha & _) | (Hr & Hus & Hps & _)];
    [exfalso | auto].
  cbv zeta in Hen.
  destruct Hbad as [Hnan | [(s & Hs & Hno) | (b & Hb)]].
  - unfold paiseToINR in Ha. rewrite Hnan in Ha. discriminate.
  - rewrite Hs in Hen. cbn [castString] in Hen.
    destruct (inEnum_memberships s Hen) as [q Hq]. exact (Hno q Hq).
  - rewrite Hb in Hen. destruct b; discriminate.
Qed.


End VerifyOutcome.

(* ================================================================== *)
(** ** GET /payments, GET /payments/user/:userId, POST /create-order *)
(* ================================================================== *)

Section PaymentRoutes.
Context {P : Platform} {Sv : Services}.

Lemma paidBy_oid (o : ObjectId) p :
  paidBy o p = String.eqb (Payment.userId p) o.
Proof. unfold paidBy. rewrite ofString_toHexString. reflexivity. Qed.

Lemma findPaymentsOf_oid (o : ObjectId) w :
  findPaymentsOf o w = (Returned (filter (paidBy o) (payments w)), w).
Proof. unfold findPaymentsOf. rewrite castObjectId_oid. reflexivity. Qed.

Lemma find_hasId_spelling i j l :
  ofString i = ofString j -> find (hasId i) l = find (hasId j) l.
Proof.
  intros H. induction l as [|x l IH]; [reflexivity|]. cbn.
  rewrite (hasId_spelling i j x H), IH. reflexivity.
Qed.

(** X7.  After an accepted verification the caller's own payment list is
    the list as it was, followed by the new payment, which is completed
    and the caller's. *)
Theorem verify_then_own_payments u body w r w1 :
  payments_post_verify (Some u) body w = (r, w1) ->
  status r = 200 ->
  exists l p,
    payments_get_user (Some u) (Claims.id u) w = (mkReply 200 (PaymentList l), w)
    /\ payments_get_user (Some u) (Claims.id u) w1
       = (mkReply 200 (PaymentList (l ++ [p])), w1)
    /\ Payment.userId p = Claims.id u
    /\ Payment.status p = Some "completed".
Proof.
  intros Hrun H200.
  destruct (payments_post_verify_outcome u body w r w1 Hrun)
    as [(_ & _ & _ & p & e & _ & _ & Hps & _ & Hu & Hst & _) | (Hr & _)];
    [|rewrite Hr in H200; discriminate].
  exists (filter (paidBy (Claims.id u)) (payments w)), p.
  unfold payments_get_user, tryCatchReply, bind, reqUser, ret, reply.
  rewrite String.eqb_refl. cbn [negb]. rewrite andb_false_r.
  rewrite !findPaymentsOf_oid.
  split; [reflexivity|]. split; [|auto].
  rewrite Hps, filter_app. cbn [filter].
  rewrite paidBy_oid, Hu, String.eqb_refl. reflexivity.
Qed.

(** X8.  A caller who is not an admin never receives a payment of anybody
    else, whichever user id is asked for.  Asked for any id but the
    caller's own, as the token spells it, the handler answers 403
    "Unauthorized"; asked for the caller's own it answers 200 with the
    payments of the collection that are the caller's, in their order.
    The world is unchanged either way. *)
Theorem payments_get_user_isolation u userId w :
  Claims.role u <> "admin" ->
  ((Claims.id u : string) <> userId ->
   payments_get_user (Some u) userId w
   = (mkReply 403 (Plain (Message "Unauthorized")), w))
  /\ ((Claims.id u : string) = userId ->
      let l := filter (fun p => String.eqb (Payment.userId p) (Claims.id u))
                      (payments w) in
      payments_get_user (Some u) userId w = (mkReply 200 (PaymentList l), w)
      /\ Forall (fun p => Payment.userId p = Claims.id u /\ In p (payments w))
                l).
Proof.
  intros Hr. apply String.eqb_neq in Hr.
  unfold payments_get_user, tryCatchReply, bind, reqUser, ret, reply.
  rewrite Hr. cbn [negb andb]. split.
  - intros Hne. apply String.eqb_neq in Hne. rewrite Hne. reflexivity.
  - intros <-. cbv zeta. rewrite String.eqb_refl. cbn [negb].
    rewrite findPaymentsOf_oid. unfold ret. split.
    + do 3 f_equal. apply filter_ext. intros p. apply paidBy_oid.
    + apply Forall_forall. intros p Hin. apply filter_In in Hin.
      destruct Hin as [Hin Hp]. apply oid_eqb in Hp. auto.
Qed.


(** X10.  Creating an order stores nothing: users and payments are as
    they were whatever the gateway answers, so no pending payment exists
    after it.  The gateway is asked, in INR, for the product [amount * 100]
    as doubles give it: not a number when the amount is none, else the
    double nearest to 100 times the amount, or an infinity when that
    leaves the range of the doubles.  For a whole number of rupees within
    2^53 paise this is the exact number of paise; for a fraction it need
    not be a whole number of paise.  The caller and the body's membership
    have no influence on the answer; a 200 relays the id, amount and
    currency of the order the gateway created, and 500 is answered when
    the gateway throws or reports an error. *)
Theorem create_order_stores_nothing user body w :
  let res := payments_post_create_order user body w in
  let options :=
    Order.mkOptions (inrToPaise (OrderBody.amount body)) "INR"
      (String.append "receipt_"
         (NumberToString (inject_Z (clock w (ticks w))))) in
  users (snd res) = users w
  /\ payments (snd res) = payments w
  /\ (forall user' membership',
        payments_post_create_order user'
          (OrderBody.mk (OrderBody.amount body) membership') w = res)
  /\ match ordersCreate options with
     | GatewayOrder order =>
         fst res
         = mkReply 200 (OrderJson (Order.id order) (Order.amount order)
                                  (Order.currency order))
     | GatewayError =>
         fst res = mkReply 500 (Plain (Message "Error creating order"))
     | GatewayThrew => fst res = mkReply 500 (Plain (Message "Server error"))
     end
  /\ match ToNumber (OrderBody.amount body) with
     | None => Order.o_amount options = Double.NaN
     | Some q =>
         let paise := Double.round (q * 100)%Q in
         Order.o_amount options
         = (if Qle_bool (Double.pow2 1024) (Qabs paise)
            then Double.Infinity (negb (Qle_bool 0 paise))
            else Double.Finite paise)
         /\ (Qabs (paise - q * 100)
             <= (1 # 2) * Double.pow2 (Double.fexp (q * 100)))%Q
         /\ (forall n : Z, Z.abs (n * 100) <= 2 ^ 53 -> (q == inject_Z n)%Q ->
             Order.o_amount options = Double.Finite paise
             /\ (paise == inject_Z (n * 100))%Q)
     end.
Proof.
  cbv zeta. split; [|split; [|split; [|split]]].
  1-4: unfold payments_post_create_order, tryCatchReply, bind, currentTime,
         ret, reply, throw;
       cbn [OrderBody.amount users payments clock ticks];
       destruct (ordersCreate _); cbn [fst snd users payments]; auto.
  cbn [Order.o_amount]. unfold inrToPaise.
  destruct (ToNumber (OrderBody.amount body)) as [q|]; [|reflexivity].
  split; [reflexivity|]. split.
  { pose proof (round_error (q * 100)) as He.
    apply Qabs_Qle_condition. split; lra. }
  intros n Hn Hq.
  assert (Hr : round (q * 100) == inject_Z (n * 100)).
  { rewrite <- (round_Z (n * 100) Hn). apply round_comp.
    rewrite Hq, inject_Z_mult. reflexivity. }
  split; [|exact Hr].
  unfold overflowing. cbv zeta.
  destruct (Qle_bool (pow2 1024) (Qabs (round (q * 100)))) eqn:Hle;
    [exfalso | reflexivity].
  apply Qle_bool_iff in Hle. rewrite Hr, Qabs_inject_Z in Hle.
  unfold pow2 in Hle.
  assert (H53 : (inject_Z (2 ^ 53) < 2 ^ 1024)%Q) by (vm_compute; reflexivity).
  rewrite Zle_Qle in Hn. lra.
Qed.

(** [0.07 * 100] is not 7: the gateway is asked for 7.000000000000001
    paise, the double one step above 7. *)
Example inrToPaise_seven_paise :
  exists paise,
    inrToPaise (JNum (Double.round (7 # 100))) = Double.Finite paise
    /\ (paise == 7 + Double.pow2 (-50))%Q.
Proof. eexists. split; [vm_compute; reflexivity | vm_compute; reflexivity]. Qed.

(** Past 2^53 paise the way to paise and back loses the amount:
    360287970189641 rupees come back as 360287970189640.9375. *)
Example paise_and_back_past_2_53 :
  exists paise back,
    inrToPaise (JNum (inject_Z 360287970189641)) = Double.Finite paise
    /\ paiseToINR (JNum paise) = Some back
    /\ (back == inject_Z 360287970189641 - (1 # 16))%Q.
Proof.
  do 2 eexists. split; [vm_compute; reflexivity|].
  split; [vm_compute; reflexivity | vm_compute; reflexivity].
Qed.

(** X11.  Paise and rupees: when the gateway creates the order for the
    amount it was asked for, an order for a whole number [n] of rupees
    that makes no more than 2^53 paise, verified with the order's amount,
    is stored as a payment of [n]. *)
Theorem order_then_verify_amount (n : Z) user membership u vbody w w1 w2
  oid a cur r :
  Z.abs (n * 100) <= 2 ^ 53 ->
  (forall options order,
     ordersCreate options = GatewayOrder order ->
     Order.o_amount options = Double.Finite (Order.amount order)) ->
  payments_post_create_order user
    (OrderBody.mk (JNum (inject_Z n)) membership) w
  = (mkReply 200 (OrderJson oid a cur), w1) ->
  VerifyBody.amount vbody = JNum a ->
  payments_post_verify (Some u) vbody w1 = (r, w2) ->
  status r = 200 ->
  exists p,
    payments w2 = payments w ++ [p]
    /\ (Payment.amount p == inject_Z n)%Q.
Proof.
  intros Hn Hecho Horder Hamt Hrun H200.
  unfold payments_post_create_order, tryCatchReply, bind, currentTime, ret,
    reply, throw in Horder.
  cbn [OrderBody.amount users payments clock ticks] in Horder.
  match type of Horder with
  | context [ordersCreate ?o] =>
      destruct (ordersCreate o) as [| |order] eqn:Hg
  end; inversion Horder; subst; clear Horder.
  apply Hecho in Hg. cbn [Order.o_amount] in Hg.
  unfold inrToPaise, overflowing in Hg. cbn [ToNumber] in Hg.
  destruct (Qle_bool _ _) in Hg; [discriminate|].
  inversion Hg as [Ha].
  destruct (payments_post_verify_outcome u vbody _ r w2 Hrun)
    as [(_ & _ & _ & p & e & _ & Hp & Hps & _) | (Hr & _)];
    [|rewrite Hr in H200; discriminate].
  exists p. split; [exact Hps|].
  rewrite Hamt in Hp. unfold paiseToINR in Hp. cbn [ToNumber] in Hp.
  inversion Hp as [Hp']. rewrite <- Ha.
  assert (Hz : (Z.abs n <= 2 ^ 53)%Z) by lia.
  rewrite <- (round_Z n Hz) at 2. apply round_comp.
  assert (Hr : round (inject_Z n * 100) == inject_Z n * 100).
  { rewrite <- (round_Z (n * 100) Hn) at 2. apply round_comp.
    rewrite inject_Z_mult. reflexivity. }
  rewrite Hr. field.
Qed.

End PaymentRoutes.

(* ================================================================== *)
(** ** POST /members: what a 201 has stored *)
(* ================================================================== *)

Lemma requiredString_blank c s :
  requiredString c = Some s -> c = CastOk (Some s) /\ blank (Some s) = false.
Proof.
  destruct c as [|[x|]|]; cbn; try discriminate.
  destruct (String.eqb x EmptyString) eqn:He; [discriminate|].
  intros H. inversion H; subst. auto.
Qed.

Lemma requiredIfMember_cast {A} r (c : Cast A) v :
  User.requiredIfMember r c = Some v ->
  optional c = Some v
  /\ (User.isMember r = true -> c = CastOk v /\ v <> None).
Proof.
  unfold User.requiredIfMember. destruct (User.isMember r).
  - destruct c as [|[a|]|]; cbn; try discriminate.
    intros H. inversion H; subst. repeat split; discriminate.
  - intros H. split; [assumption | discriminate].
Qed.

(** Everything validation lets into the users collection. *)
Lemma validate_document i now f d :
  User.validate i now f = Some d ->
  User._id d = i
  /\ User.createdAt d = Some now
  /\ User.status d = Some "active"
  /\ User.f_name f = CastOk (User.name d) /\ blank (User.name d) = false
  /\ User.f_email f = CastOk (User.email d) /\ blank (User.email d) = false
  /\ User.f_phone f = CastOk (User.phone d) /\ blank (User.phone d) = false
  /\ User.f_password f = CastOk (User.password d)
  /\ optional (withDefault "member"%string (User.f_role f))
     = Some (User.role d)
  /\ optional (User.f_membershipType f) = Some (User.membershipType d)
  /\ optional (User.f_startDate f) = Some (User.startDate d)
  /\ optional (User.f_endDate f) = Some (User.endDate d)
  /\ inEnum User.membershipTypes (User.f_membershipType f) = true
  /\ (User.isMember (User.role d) = true ->
      (User.f_membershipType f = CastOk (User.membershipType d)
       /\ User.membershipType d <> None)
      /\ (User.f_startDate f = CastOk (User.startDate d)
          /\ User.startDate d <> None)
      /\ (User.f_endDate f = CastOk (User.endDate d)
          /\ User.endDate d <> None)).
Proof.
  unfold User.validate. cbv zeta.
  destruct (requiredString (User.f_name f)) as [n|] eqn:Hn; [|discriminate].
  destruct (requiredString (User.f_email f)) as [e|] eqn:He; [|discriminate].
  destruct (requiredString (User.f_password f)) as [pw|] eqn:Hpw;
    [|discriminate].
  destruct (requiredString (User.f_phone f)) as [ph|] eqn:Hph; [|discriminate].
  destruct (optional (withDefault "member"%string (User.f_role f)))
    as [r|] eqn:Hr; [|discriminate].
  destruct (User.requiredIfMember r (User.f_membershipType f)) as [mt|] eqn:Hmt;
    [|discriminate].
  destruct (User.requiredIfMember r (User.f_startDate f)) as [sd|] eqn:Hsd;
    [|discriminate].
  destruct (User.requiredIfMember r (User.f_endDate f)) as [ed|] eqn:Hed;
    [|discriminate].
  destruct (inEnum User.roles (withDefault "member"%string (User.f_role f)));
    [|discriminate].
  destruct (inEnum User.membershipTypes (User.f_membershipType f)) eqn:Hen;
    [|discriminate].
  cbn [andb]. intros H. inversion H; subst d; clear H. cbn.
  apply requiredString_blank in Hn, He, Hph.
  apply requiredString_cast in Hpw.
  apply requiredIfMember_cast in Hmt, Hsd, Hed.
  destruct Hn, He, Hph, Hmt as [Hmt Hmt'], Hsd as [Hsd Hsd'],
    Hed as [Hed Hed'].
  repeat split; auto;
    match goal with
    | Hm : User.isMember _ = true |- _ =>
        specialize (Hmt' Hm); specialize (Hsd' Hm); specialize (Hed' Hm)
    end; tauto.
Qed.

Lemma inEnum_membershipTypes s :
  inEnum User.membershipTypes (CastOk (Some s)) = true ->
  exists p, s = planName p.
Proof. exact (inEnum_memberships s). Qed.

Lemma find_app_new (i : ObjectId) l d :
  existsb (hasId i) l = false -> User._id d = i ->
  find (hasId i) (l ++ [d]) = Some d.
Proof.
  intros Hn Hid. induction l as [|x r IH]; cbn in *.
  - assert (H : hasId i d = true)
      by (apply hasId_true; rewrite ofString_toHexString, Hid; reflexivity).
    rewrite H. reflexivity.
  - apply orb_false_iff in Hn. destruct Hn as [Hx Hr]. rewrite Hx. auto.
Qed.

(** An admin, or the member itself, gets the stored account without its
    password. *)
Lemma members_get_id_found {P : Platform} u id w m :
  Claims.role u = "admin" \/ (Claims.id u : string) = id ->
  find (hasId id) (users w) = Some m ->
  members_get_id (Some u) id w
  = (mkResponse 200 (Member (User.selectNoPassword m)), w).
Proof.
  intros Hauth Hf.
  unfold members_get_id, tryCatch, bind, reqUser, ret, respond.
  assert (Hc : negb (String.eqb (Claims.role u) "admin")
               && negb (String.eqb (Claims.id u) id) = false).
  { destruct Hauth as [H | H]; apply String.eqb_eq in H; rewrite H;
      cbn [negb andb]; [reflexivity | apply andb_false_r]. }
  rewrite Hc, (findById_found id w (find_hasId_cast _ _ _ Hf)), Hf.
  reflexivity.
Qed.

Section MemberCreated.
Context {P : Platform} {Sv : Services}.

(** Every answer of POST /members is one of two: 201 with one account
    added at the end of the collection, validated from the body, under the
    next ObjectId and the current time; or 400, 403 or 500 with both
    collections as they were. *)
Lemma members_post_outcome user body w r w1 :
  members_post user body w = (r, w1) ->
  (r = mkResponse 201 (Message "Member added successfully")
   /\ exists d,
       User.validate (oids w (made w)) (clock w (ticks w))
         (User.mkFields
            (castString (MemberBody.name body))
            (castString (MemberBody.email body))
            (CastOk (Some "123456"))
            (castString (MemberBody.phone body))
            (CastOk (Some "member"))
            (castString (MemberBody.membershipType body))
            (castDate (MemberBody.startDate body))
            (castDate (MemberBody.endDate body))) = Some d
       /\ existsb (hasId (oids w (made w))) (users w) = false
       /\ users w1 = users w ++ [d]
       /\ payments w1 = payments w)
  \/ ((status r = 400 \/ status r = 403 \/ status r = 500)
      /\ users w1 = users w /\ payments w1 = payments w).
Proof.
  intros Hrun. unfold members_post, isAdmin in Hrun.
  destruct user as [u|]; [|right; inversion Hrun; subst; cbn; auto].
  destruct (String.eqb (Claims.role u) "admin");
    [|right; inversion Hrun; subst; cbn; auto].
  unfold tryCatch, bind, UserModel.findOneByEmail in Hrun.
  destruct (optional (castString (MemberBody.email body))) as [v|] eqn:Hc;
    [|right; inversion Hrun; subst; cbn; auto].
  destruct (find (hasEmail v) (users w)) as [x|] eqn:Hfind;
    [right; inversion Hrun; subst; cbn; auto|].
  unfold UserModel.new, UserModel.save, newObjectId, currentTime, bind, ret,
    respond in Hrun.
  cbn [users payments clock ticks oids made] in Hrun.
  match type of Hrun with
  | context [User.validate ?i ?now ?f] =>
      destruct (User.validate i now f) as [d|] eqn:Hv
  end; [|right; inversion Hrun; subst; cbn; auto].
  cbn [users payments clock ticks oids made] in Hrun.
  destruct (existsb (hasId (oids w (made w))) (users w)) eqn:Hid;
    cbn [orb] in Hrun; [right; inversion Hrun; subst; cbn; auto|].
  match type of Hrun with
  | context [if ?c then _ else _] => destruct c
  end; [right; inversion Hrun; subst; cbn; auto|].
  inversion Hrun; subst r w1; clear Hrun.
  left. split; [reflexivity|]. exists d. repeat split; reflexivity.
Qed.

(** X12.  What a 201 has stored: one new account, under the next
    ObjectId, created at the current time, with the placeholder password
    123456, the role member and the status active whatever status the body
    carried; its name, email and phone are the body's, cast to strings and
    not empty; its membership type is one of the three plans; its start
    and end dates are the body's and are there.  An admin who then asks
    for the new id gets exactly this account, without the password. *)
Theorem members_post_stores user body w r w1 :
  members_post user body w = (r, w1) ->
  status r = 201 ->
  exists d,
    users w1 = users w ++ [d]
    /\ payments w1 = payments w
    /\ User._id d = oids w (made w)
    /\ User.createdAt d = Some (clock w (ticks w))
    /\ User.password d = Some "123456"
    /\ User.role d = Some "member"
    /\ User.status d = Some "active"
    /\ castString (MemberBody.name body) = CastOk (User.name d)
    /\ castString (MemberBody.email body) = CastOk (User.email d)
    /\ castString (MemberBody.phone body) = CastOk (User.phone d)
    /\ blank (User.name d) = false
    /\ blank (User.email d) = false
    /\ blank (User.phone d) = false
    /\ (exists p, User.membershipType d = Some (planName p))
    /\ castString (MemberBody.membershipType body)
       = CastOk (User.membershipType d)
    /\ castDate (MemberBody.startDate body) = CastOk (User.startDate d)
    /\ castDate (MemberBody.endDate body) = CastOk (User.endDate d)
    /\ User.startDate d <> None
    /\ User.endDate d <> None
    /\ (forall a, Claims.role a = "admin" ->
        members_get_id (Some a) (User._id d) w1
        = (mkResponse 200 (Member (User.selectNoPassword d)), w1)).
Proof.
  intros Hrun H201.
  destruct (members_post_outcome user body w r w1 Hrun)
    as [(_ & d & Hv & Hfresh & Hus & Hps) | ([H | [H | H]] & _)];
    try (rewrite H in H201; discriminate).
  destruct (validate_document _ _ _ _ Hv)
    as (Hid & Hat & Hst & Hn & Hnb & He & Heb & Hph & Hpb & Hpw & Hr & _
        & _ & _ & Hen & Hmem).
  cbn [User.f_name User.f_email User.f_phone User.f_password User.f_role
       User.f_membershipType User.f_startDate User.f_endDate
       withDefault optional stored]
    in Hn, He, Hph, Hpw, Hr, Hen, Hmem.
  inversion Hpw as [Hpw']. inversion Hr as [Hr'].
  assert (Hm : User.isMember (User.role d) = true)
    by (rewrite <- Hr'; reflexivity).
  destruct (Hmem Hm) as ((Hmt & Hmt0) & (Hsd & Hsd0) & (Hed & Hed0)).
  exists d. repeat split; auto.
  - destruct (User.membershipType d) as [s|] eqn:Hs; [|contradiction].
    rewrite Hmt in Hen.
    destruct (inEnum_membershipTypes s Hen) as [p Hp]. exists p. congruence.
  - intros a Ha. apply members_get_id_found; [left; assumption|].
    rewrite Hus. apply find_app_new; [rewrite Hid; assumption | reflexivity].
Qed.

End MemberCreated.

(* ================================================================== *)
(** ** POST and PUT /members: refusals, and what is not checked *)
(* ================================================================== *)

Section MemberChecks.
Context {P : Platform} {Sv : Services}.

(** X13.  A create that does not answer 201 answers 400, 403 or 500 and
    leaves both collections as they were; and it answers 400 exactly when
    the caller is an admin and some account, of any role, has the body's
    email.  The email of the body is a scalar of JSON or absent, as every
    value of a body is here, and it is compared as the query casts it: a
    string as it is, a number or a boolean as its string, null or no email
    at all as the email of an account that has none. *)
Theorem members_post_refusals user body w r w1 :
  members_post user body w = (r, w1) ->
  (status r <> 201 ->
   (status r = 400 \/ status r = 403 \/ status r = 500)
   /\ users w1 = users w /\ payments w1 = payments w)
  /\ (status r = 400 <->
      (exists u, user = Some u /\ Claims.role u = "admin")
      /\ exists a, In a (users w)
                   /\ stored (castString (MemberBody.email body))
                      = User.email a).
Proof.
  intros Hrun. split.
  - intros Hne.
    destruct (members_post_outcome user body w r w1 Hrun) as [[Hr _] | H];
      [rewrite Hr in Hne; contradiction Hne; reflexivity | exact H].
  - unfold members_post, isAdmin in Hrun.
    destruct user as [u|];
      [|inversion Hrun; subst; split;
        [discriminate | intros [(x & Hx & _) _]; discriminate]].
    destruct (String.eqb_spec (Claims.role u) "admin") as [Hr | Hr];
      [|inversion Hrun; subst; split;
        [discriminate
        | intros [(x & Hx & Hrx) _]; inversion Hx; subst; contradiction]].
    unfold tryCatch, bind, UserModel.findOneByEmail in Hrun.
    rewrite castString_optional in Hrun.
    destruct (find (hasEmail (stored (castString (MemberBody.email body))))
                (users w)) as [x|] eqn:Hfind.
    + inversion Hrun; subst. split; [intros _ | reflexivity].
      split; [eauto|]. apply find_some in Hfind. destruct Hfind as [Hin He].
      exists x. split; [assumption|]. apply eqbOpt_eq in He. congruence.
    + split.
      * intros H400. exfalso. revert Hrun H400.
        unfold UserModel.new, UserModel.save, newObjectId, currentTime,
          bind, ret, respond.
        cbn [users payments clock ticks oids made].
        match goal with
        | |- context [User.validate ?i ?now ?f] =>
            destruct (User.validate i now f)
        end; [|intros H; inversion H; subst; discriminate].
        cbn [users payments clock ticks oids made].
        match goal with
        | |- context [if ?c then _ else _] => destruct c
        end; intros H; inversion H; subst; discriminate.
      * intros [_ (a & Hin & Ha)]. exfalso.
        pose proof (find_none _ _ Hfind a Hin) as Hn. unfold hasEmail in Hn.
        rewrite Ha, eqbOpt_refl in Hn. discriminate.
Qed.

(** X14.  The two dates are never compared: a body is answered with the
    same status as the body with its start and end dates exchanged, so a
    membership that ends before it starts is created whenever the
    reversed one would be. *)
Theorem members_post_dates_unordered user name email phone membershipType
  startDate endDate status' w :
  status (fst (members_post user
                 (MemberBody.mk name email phone membershipType
                                startDate endDate status') w))
  = status (fst (members_post user
                   (MemberBody.mk name email phone membershipType
                                  endDate startDate status') w)).
Proof.
  unfold members_post, isAdmin.
  destruct user as [u|]; [|reflexivity].
  destruct (String.eqb (Claims.role u) "admin"); [|reflexivity].
  unfold tryCatch, bind, UserModel.findOneByEmail.
  cbn [MemberBody.name MemberBody.email MemberBody.phone
       MemberBody.membershipType MemberBody.startDate MemberBody.endDate].
  rewrite castString_optional.
  destruct (find (hasEmail (stored (castString email))) (users w));
    [reflexivity|].
  unfold UserModel.new, UserModel.save, newObjectId, currentTime, bind, ret,
    respond.
  cbn [users payments clock ticks oids made].
  unfold User.validate. cbv zeta.
  cbn [User.f_name User.f_email User.f_password User.f_phone User.f_role
       User.f_membershipType User.f_startDate User.f_endDate
       withDefault optional stored].
  destruct (requiredString (castString name)); [|reflexivity].
  destruct (requiredString (castString email)); [|reflexivity].
  cbn [requiredString].
  change (String.eqb "123456" EmptyString) with false. cbv beta iota.
  destruct (requiredString (castString phone)); [|reflexivity].
  destruct (User.requiredIfMember (Some "member") (castString membershipType));
    [|reflexivity].
  destruct (User.requiredIfMember (Some "member") (castDate startDate));
    destruct (User.requiredIfMember (Some "member") (castDate endDate));
    try reflexivity.
  destruct (inEnum User.roles (CastOk (Some "member"))
            && inEnum User.membershipTypes (castString membershipType));
    [|reflexivity].
  cbn [users payments clock ticks oids made User.email].
  match goal with
  | |- context [if ?c then _ else _] => destruct c
  end; reflexivity.
Qed.

(** X15.  The update route stores what the create route refuses: an admin
    who sends any non-empty string as the only field membershipType of an
    existing account gets 200 and the string is stored, plan or not,
    whereas no create whose membershipType is a string other than the
    three plans is ever answered 201. *)
Theorem members_put_id_skips_enum (s : string) a id old w :
  s <> EmptyString ->
  Claims.role a = "admin" ->
  find (hasId id) (users w) = Some old ->
  (exists new w1,
     members_put_id (Some a) id
       (MemberBody.mk JUndefined JUndefined JUndefined (JStr s) JUndefined
                      JUndefined JUndefined) w
     = (mkResponse 200 (Member (User.selectNoPassword new)), w1)
     /\ find (hasId id) (users w1) = Some new
     /\ User.membershipType new = Some s)
  /\ ((forall p, s <> planName p) ->
      forall user body w',
        MemberBody.membershipType body = JStr s ->
        status (fst (members_post user body w')) <> 201).
Proof.
  intros Hs Ha Hf. split.
  - apply String.eqb_eq in Ha. apply String.eqb_neq in Hs.
    destruct (find_hasId _ _ _ Hf) as [Hid _].
    unfold members_put_id, isAdmin. rewrite Ha.
    unfold tryCatch, bind, UserModel.findById, UserModel.findByIdAndUpdate,
      castObjectId, respond, ret, throw.
    rewrite Hid, Hf. unfold memberFields, ifSupplied.
    cbn [MemberBody.name MemberBody.email MemberBody.phone
         MemberBody.membershipType MemberBody.startDate MemberBody.endDate
         MemberBody.status truthy castString].
    rewrite Hs. cbn [negb].
    unfold User.updateCastFailed, User.castFailed.
    cbn [User.u_name User.u_email User.u_phone User.u_membershipType
         User.u_startDate User.u_endDate User.u_status orb].
    rewrite Hf. unfold User.applyUpdate.
    cbn [User.u_name User.u_email User.u_phone User.u_membershipType
         User.u_startDate User.u_endDate User.u_status User.setPath
         User.email stored].
    rewrite eqbOpt_refl. cbn [negb andb jsonOfMember].
    do 2 eexists. split; [reflexivity|]. cbn [users setUsers]. split.
    + eapply find_replaceById_same; [|exact Hf]. exact Hid.
    + reflexivity.
  - intros Hno user body w' Hb H201.
    destruct (members_post user body w') as [r w1] eqn:Hrun. cbn [fst] in H201.
    destruct (members_post_outcome user body w' r w1 Hrun)
      as [(_ & d & Hv & _) | ([H | [H | H]] & _)];
      try (rewrite H in H201; discriminate).
    destruct (validate_document _ _ _ _ Hv)
      as (_ & _ & _ & _ & _ & _ & _ & _ & _ & _ & _ & _ & _ & _ & Hen & _).
    cbn [User.f_membershipType] in Hen. rewrite Hb in Hen.
    cbn [castString] in Hen.
    destruct (inEnum_membershipTypes s Hen) as [p Hp]. exact (Hno p Hp).
Qed.

End MemberChecks.

Section MemberReads.
Context {P : Platform} {Sv : Services}.

(** X16.  What an admin's update is refused for, each time with nothing
    written: 404 "Member not found" for an id that spells an ObjectId no
    account has; 500 "Server error" for an id that spells no ObjectId,
    when the email sent belongs to another account, and when a boolean is
    sent as a start or an end date. *)
Theorem members_put_id_refusals a id body w :
  Claims.role a = "admin" ->
  (ofString id <> None ->
   find (hasId id) (users w) = None ->
   members_put_id (Some a) id body w
   = (mkResponse 404 (Message "Member not found"), w))
  /\ (ofString id = None ->
      members_put_id (Some a) id body w
      = (mkResponse 500 (Message "Server error"), w))
  /\ (forall old other e,
        find (hasId id) (users w) = Some old ->
        In other (users w) ->
        User.email other = Some e ->
        User.email old <> Some e ->
        MemberBody.email body = JStr e ->
        e <> EmptyString ->
        members_put_id (Some a) id body w
        = (mkResponse 500 (Message "Server error"), w))
  /\ (forall old,
        find (hasId id) (users w) = Some old ->
        MemberBody.startDate body = JBool true
        \/ MemberBody.endDate body = JBool true ->
        members_put_id (Some a) id body w
        = (mkResponse 500 (Message "Server error"), w)).
Proof.
  intros Ha. apply String.eqb_eq in Ha.
  unfold members_put_id, isAdmin. rewrite Ha.
  unfold tryCatch, bind, respond, ret, throw.
  repeat split.
  - intros Hc Hf. rewrite (findById_found id w Hc), Hf. reflexivity.
  - intros Hc. rewrite (findById_malformed id w Hc). reflexivity.
  - intros old other e Hf Hin He Hne Hb Hnb.
    rewrite (findById_found id w (find_hasId_cast _ _ _ Hf)), Hf.
    destruct (find_hasId _ _ _ Hf) as [Hid _].
    unfold UserModel.findByIdAndUpdate, castObjectId, throw.
    destruct (User.updateCastFailed (memberFields body)); [reflexivity|].
    rewrite Hid, Hf.
    assert (Hnew : User.email (User.applyUpdate (memberFields body) old)
                   = Some e).
    { unfold User.applyUpdate, memberFields, ifSupplied.
      cbn [User.email User.u_email]. rewrite Hb. cbn [truthy castString].
      apply String.eqb_neq in Hnb. rewrite Hnb. reflexivity. }
    rewrite Hnew.
    assert (Hd : eqbOpt (User.email old) (Some e) = false).
    { destruct (eqbOpt (User.email old) (Some e)) eqn:Hq; [|reflexivity].
      apply eqbOpt_eq in Hq. contradiction. }
    assert (Hex : existsb (hasEmail (Some e)) (users w) = true).
    { apply existsb_exists. exists other. split; [assumption|].
      unfold hasEmail. rewrite He. apply eqbOpt_refl. }
    rewrite Hd, Hex. reflexivity.
  - intros old Hf Hb.
    rewrite (findById_found id w (find_hasId_cast _ _ _ Hf)), Hf.
    unfold UserModel.findByIdAndUpdate, throw.
    assert (Hc : User.updateCastFailed (memberFields body) = true).
    { unfold User.updateCastFailed, memberFields, ifSupplied.
      cbn [User.u_name User.u_email User.u_phone User.u_membershipType
           User.u_startDate User.u_endDate User.u_status].
      destruct Hb as [Hb | Hb]; rewrite Hb; cbn [truthy castDate User.castFailed];
        rewrite ?orb_true_r; reflexivity. }
    rewrite Hc. reflexivity.
Qed.

(** X17.  Reading back an update: after an update answered 200, an admin,
    and the member itself, get from GET /members/:id the very answer the
    update gave. *)
Theorem members_put_then_get user id body w r w1 u :
  members_put_id user id body w = (r, w1) ->
  status r = 200 ->
  Claims.role u = "admin" \/ (Claims.id u : string) = id ->
  members_get_id (Some u) id w1 = (r, w1).
Proof.
  intros Hrun H200 Hauth.
  destruct (find (hasId id) (users w)) as [old|] eqn:Hf.
  - destruct (members_put_id_cases user id body w old Hf)
      as [H | (r' & H & Hne)]; rewrite H in Hrun; inversion Hrun; subst r w1.
    + apply members_get_id_found; [assumption|]. cbn [users setUsers].
      eapply find_replaceById_same; [|exact Hf].
      cbn. apply (find_hasId _ _ _ Hf).
    + contradiction.
  - exfalso. unfold members_put_id, isAdmin in Hrun.
    destruct user as [x|]; [|inversion Hrun; subst; discriminate].
    destruct (String.eqb (Claims.role x) "admin");
      [|inversion Hrun; subst; discriminate].
    unfold tryCatch, bind, UserModel.findById, respond, ret, throw in Hrun.
    destruct (castObjectId id); try (inversion Hrun; subst; discriminate).
    rewrite Hf in Hrun. inversion Hrun; subst; discriminate.
Qed.

Lemma isMember_role r : User.isMember r = true <-> r = Some "member".
Proof.
  destruct r as [s|]; cbn; [|split; discriminate].
  rewrite String.eqb_eq. split; congruence.
Qed.

(** X18.  The list of members an admin gets holds exactly the accounts
    whose role is member, in the order of the collection and without their
    passwords; admins are never in it; and after a create answered 201 it
    is the former list followed by the new member. *)
Theorem members_get_lists a w :
  Claims.role a = "admin" ->
  exists l,
    members_get (Some a) w = (mkReply 200 (MemberList l), w)
    /\ (forall d', In d' l <->
          exists d, In d (users w) /\ User.role d = Some "member"
                    /\ d' = User.selectNoPassword d)
    /\ (forall user body r w1,
          members_post user body w = (r, w1) -> status r = 201 ->
          exists d,
            users w1 = users w ++ [d]
            /\ members_get (Some a) w1
               = (mkReply 200 (MemberList (l ++ [User.selectNoPassword d])),
                  w1)).
Proof.
  intros Ha. apply String.eqb_eq in Ha.
  exists (map User.selectNoPassword
              (filter (fun d => User.isMember (User.role d)) (users w))).
  unfold members_get, isAdminReply, tryCatchReply, bind, reply, ret,
    findMembers. rewrite Ha. cbv beta iota.
  split; [reflexivity|]. split.
  - intros d'. rewrite in_map_iff. split.
    + intros (d & Hd & Hin). apply filter_In in Hin. destruct Hin as [Hin Hm].
      exists d. apply isMember_role in Hm. auto.
    + intros (d & Hin & Hr & Hd). exists d. split; [auto|].
      apply filter_In. split; [assumption|]. apply isMember_role. assumption.
  - intros user body r w1 Hrun H201.
    destruct (members_post_outcome user body w r w1 Hrun)
      as [(_ & d & Hv & _ & Hus & _) | ([H | [H | H]] & _)];
      try (rewrite H in H201; discriminate).
    destruct (validate_document _ _ _ _ Hv)
      as (_ & _ & _ & _ & _ & _ & _ & _ & _ & _ & Hrole & _).
    cbn [User.f_role withDefault optional stored] in Hrole.
    inversion Hrole as [Hr].
    exists d. split; [assumption|].
    rewrite Hus, filter_app, map_app. cbn [filter map].
    rewrite <- Hr. reflexivity.
Qed.

End MemberReads.

(* ================================================================== *)
(** ** The API as a whole *)
(* ================================================================== *)

Section WholeApi.
Context {P : Platform} {Sv : Services}.

Lemma lift_snd h w : snd (lift h w) = snd (h w).
Proof. unfold lift. destruct (h w). reflexivity. Qed.

Lemma lift_code h w : code (fst (lift h w)) = status (fst (h w)).
Proof. unfold lift. destruct (h w). reflexivity. Qed.

Lemma lift_payload h w : payload (fst (lift h w)) = Plain (json (fst (h w))).
Proof. unfold lift. destruct (h w). reflexivity. Qed.

(** The routes that only read. *)
Lemma reading_routes_write_nothing user w :
  (forall id, snd (members_get_id user id w) = w)
  /\ snd (members_get user w) = w
  /\ snd (payments_get user w) = w
  /\ (forall userId, snd (payments_get_user user userId w) = w).
Proof.
  repeat split; intros;
    unfold members_get_id, members_get, payments_get, payments_get_user,
      isAdminReply, tryCatch, tryCatchReply, bind, reqUser, findMembers,
      findPaymentsPopulated, findPaymentsOf, UserModel.findById, reply,
      respond, ret, throw;
    destruct user as [u|]; try reflexivity;
    repeat match goal with
    | |- context [if ?c then _ else _] => destruct c
    | |- context [match castObjectId ?i with _ => _ end] =>
        destruct (castObjectId i)
    | |- context [match find ?f ?l with _ => _ end] => destruct (find f l)
    end; reflexivity.
Qed.

Lemma create_order_collections user body w :
  users (snd (payments_post_create_order user body w)) = users w
  /\ payments (snd (payments_post_create_order user body w)) = payments w.
Proof.
  unfold payments_post_create_order, tryCatchReply, bind, currentTime, ret,
    reply, throw.
  destruct (ordersCreate _); auto.
Qed.

Lemma members_put_id_payments user id body w :
  payments (snd (members_put_id user id body w)) = payments w.
Proof.
  destruct (find (hasId id) (users w)) as [old|] eqn:Hf.
  - destruct (members_put_id_cases user id body w old Hf)
      as [H | (r & H & _)]; rewrite H; reflexivity.
  - unfold members_put_id, isAdmin.
    destruct user as [u|]; [|reflexivity].
    destruct (String.eqb (Claims.role u) "admin"); [|reflexivity].
    unfold tryCatch, bind, UserModel.findById, respond, ret, throw.
    destruct (castObjectId id); try reflexivity.
    rewrite Hf. reflexivity.
Qed.

Lemma members_delete_id_payments user id w :
  payments (snd (members_delete_id user id w)) = payments w.
Proof.
  unfold members_delete_id, isAdmin.
  destruct user as [u|]; [|reflexivity].
  destruct (String.eqb (Claims.role u) "admin"); [|reflexivity].
  unfold tryCatch, bind, UserModel.findById, UserModel.findByIdAndDelete,
    respond, ret, throw.
  destruct (castObjectId id); try reflexivity.
  destruct (find (hasId id) (users w)); reflexivity.
Qed.

(** A caller who is not an admin is turned away by the three writing
    member routes before anything is written. *)
Lemma admin_refusal_unchanged u w :
  Claims.role u <> "admin" ->
  (forall body, snd (members_post (Some u) body w) = w)
  /\ (forall id body, snd (members_put_id (Some u) id body w) = w)
  /\ (forall id, snd (members_delete_id (Some u) id w) = w).
Proof.
  intros Hr. apply String.eqb_neq in Hr.
  unfold members_post, members_put_id, members_delete_id, isAdmin.
  rewrite Hr. repeat split.
Qed.

(** X19.  The payments are a ledger that none of the nine routes of the
    members and payments routers rewrites.  A request to one of them
    leaves the payments as they were, unless it is a verification answered
    200; and a verification answered 200 has added exactly one payment, a
    completed one, after the payments that were there.  None of the nine
    routes deletes or changes a stored payment. *)
Theorem payments_only_grow authHeader route w :
  let res := serve authHeader route w in
  (payments (snd res) = payments w
   /\ ~ (exists body, route = PostVerify body /\ code (fst res) = 200))
  \/ (exists body p,
        route = PostVerify body
        /\ code (fst res) = 200
        /\ payments (snd res) = payments w ++ [p]
        /\ Payment.status p = Some "completed").
Proof.
  cbv zeta. unfold serve, authenticateToken.
  assert (Hno : forall (r : Reply),
            code r <> 200 ->
            ~ (exists body, route = PostVerify body /\ code r = 200))
    by (intros r Hr (b & _ & Hc); contradiction).
  destruct (tokenOf authHeader) as [token|];
    [|left; split; [reflexivity | apply Hno; discriminate]].
  destruct (String.eqb token EmptyString);
    [left; split; [reflexivity | apply Hno; discriminate]|].
  destruct (jwtVerify token) as [u|];
    [|left; split; [reflexivity | apply Hno; discriminate]].
  clear Hno.
  destruct (reading_routes_write_nothing (Some u) w) as (Hg & Hl & Hp & Hu).
  destruct route as [|id|body|id body|id| |userId|body|body]; cbn [dispatch];
    rewrite ?lift_snd;
    try (left; split; [|intros (b & Hb & _); discriminate Hb]).
  - rewrite Hl. reflexivity.
  - rewrite Hg. reflexivity.
  - destruct (members_post (Some u) body w) as [r w1] eqn:Hrun.
    destruct (members_post_outcome _ _ _ _ _ Hrun)
      as [(_ & d & _ & _ & _ & Hps) | (_ & _ & Hps)]; exact Hps.
  - apply members_put_id_payments.
  - apply members_delete_id_payments.
  - rewrite Hp. reflexivity.
  - rewrite Hu. reflexivity.
  - apply create_order_collections.
  - rewrite lift_code.
    destruct (payments_post_verify (Some u) body w) as [r w1] eqn:Hrun.
    destruct (payments_post_verify_outcome u body w r w1 Hrun)
      as [(Hr & _ & _ & p & e & _ & _ & Hps & _ & _ & Hst & _)
         | (Hr & _ & Hps & _)].
    + right. exists body, p. rewrite Hr. cbn. auto.
    + left. split; [exact Hps|]. rewrite Hr. cbn.
      intros (b & _ & Hc). discriminate.
Qed.

(** X20.  A caller who is not an admin can change no account but its own:
    whichever of the nine routes of the members and payments routers it
    calls, every other account is afterwards as it was, and of its own
    account the name, email, phone, password, role and creation time are
    as they were. *)
Theorem non_admin_changes_only_itself u route w :
  Claims.role u <> "admin" ->
  let w1 := snd (dispatch (Some u) route w) in
  (forall j : ObjectId, j <> Claims.id u ->
     find (hasId j) (users w1) = find (hasId j) (users w))
  /\ (forall m, find (hasId (Claims.id u)) (users w) = Some m ->
      exists m',
        find (hasId (Claims.id u)) (users w1) = Some m'
        /\ User.name m' = User.name m
        /\ User.email m' = User.email m
        /\ User.phone m' = User.phone m
        /\ User.password m' = User.password m
        /\ User.role m' = User.role m
        /\ User.createdAt m' = User.createdAt m).
Proof.
  intros Hr. cbv zeta.
  assert (Hsame : forall w1, users w1 = users w ->
            (forall j : ObjectId, j <> Claims.id u ->
               find (hasId j) (users w1) = find (hasId j) (users w))
            /\ (forall m, find (hasId (Claims.id u)) (users w) = Some m ->
                exists m',
                  find (hasId (Claims.id u)) (users w1) = Some m'
                  /\ User.name m' = User.name m
                  /\ User.email m' = User.email m
                  /\ User.phone m' = User.phone m
                  /\ User.password m' = User.password m
                  /\ User.role m' = User.role m
                  /\ User.createdAt m' = User.createdAt m)).
  { intros w1 Hus. rewrite Hus. split; [reflexivity|].
    intros m Hm. exists m. repeat split. assumption. }
  destruct (admin_refusal_unchanged u w Hr) as (Hpost & Hput & Hdel).
  destruct (reading_routes_write_nothing (Some u) w) as (Hg & Hl & Hp & Hu).
  destruct route as [|id|body|id body|id| |userId|body|body]; cbn [dispatch];
    rewrite ?lift_snd.
  - apply Hsame. rewrite Hl. reflexivity.
  - apply Hsame. rewrite Hg. reflexivity.
  - apply Hsame. rewrite Hpost. reflexivity.
  - apply Hsame. rewrite Hput. reflexivity.
  - apply Hsame. rewrite Hdel. reflexivity.
  - apply Hsame. rewrite Hp. reflexivity.
  - apply Hsame. rewrite Hu. reflexivity.
  - apply Hsame. apply create_order_collections.
  - destruct (payments_post_verify (Some u) body w) as [r w1] eqn:Hrun.
    cbn [snd].
    destruct (payments_post_verify_outcome u body w r w1 Hrun)
      as [(_ & _ & _ & p & e & _ & _ & _ & _ & _ & _ & _ & _ & _ & _ & _ & Hus)
         | (_ & Hus & _)];
      [|apply Hsame; exact Hus].
    destruct (find (hasId (Claims.id u)) (users w)) as [m|] eqn:Hf;
      [|apply Hsame; exact Hus].
    destruct (find_hasId _ _ _ Hf) as [Hid _]. rewrite Hus. split.
    + intros j Hj. apply find_replaceById_other; [exact Hid|].
      rewrite !ofString_toHexString. congruence.
    + intros m0 Hm0. inversion Hm0; subst m0. eexists. split.
      * eapply find_replaceById_same; [exact Hid | exact Hf].
      * repeat split.
Qed.

End WholeApi.

Section Replies.
Context {P : Platform} {Sv : Services}.

Lemma member_json_has_no_password (r : Response) :
  (forall d, json r = Member d -> exists m, d = User.selectNoPassword m) ->
  match Plain (json r) with
  | Plain (Member d) => User.password d = None
  | MemberList l => Forall (fun d => User.password d = None) l
  | Other _ => False
  | _ => True
  end.
Proof.
  intros H. destruct (json r) as [|m|d|m]; auto.
  destruct (H d eq_refl) as [m ->]. reflexivity.
Qed.

(** X21.  No answer of the nine routes of the members and payments
    routers carries a password: a member sent back by GET or PUT
    /members/:id, and every member of the list of GET /members, has had
    its password removed, and the other answers are messages, payments or
    an order, and hold no account at all. *)
Theorem no_reply_carries_a_password user route w :
  match payload (fst (dispatch user route w)) with
  | Plain (Member d) => User.password d = None
  | MemberList l => Forall (fun d => User.password d = None) l
  | Plain _ | PaymentList _ | PaymentsWithOwner _ | OrderJson _ _ _ => True
  | Other _ => False
  end.
Proof.
  destruct route as [|id|body|id body|id| |userId|body|body]; cbn [dispatch];
    rewrite ?lift_payload.
  - unfold members_get, isAdminReply, tryCatchReply, bind, reply, ret,
      findMembers.
    destruct user as [u|]; [|exact I].
    destruct (String.eqb (Claims.role u) "admin"); [|exact I].
    cbn [fst payload]. apply Forall_forall. intros d Hd.
    apply in_map_iff in Hd. destruct Hd as (m & <- & _). reflexivity.
  - apply member_json_has_no_password.
    unfold members_get_id, tryCatch, bind, reqUser, UserModel.findById,
      respond, ret, throw.
    destruct user as [u|]; [|discriminate].
    destruct (negb (String.eqb (Claims.role u) "admin")
              && negb (String.eqb (Claims.id u) id)); [discriminate|].
    destruct (castObjectId id); try discriminate.
    destruct (find (hasId id) (users w)) as [m|]; [|discriminate].
    cbn. intros d Hd. inversion Hd. eauto.
  - apply member_json_has_no_password.
    destruct (members_post user body w) as [r w1] eqn:Hrun. cbn [fst].
    destruct (members_post_outcome _ _ _ _ _ Hrun)
      as [(-> & _) | ([H | [H | H]] & _)]; [discriminate| | |];
      revert Hrun; unfold members_post, isAdmin;
      (destruct user as [u|]; [|intros H'; inversion H'; subst; discriminate]);
      (destruct (String.eqb (Claims.role u) "admin");
         [|intros H'; inversion H'; subst; discriminate]);
      unfold tryCatch, bind, UserModel.findOneByEmail;
      rewrite castString_optional;
      (destruct (find _ (users w));
         [intros H'; inversion H'; subst; discriminate|]);
      unfold UserModel.new, UserModel.save, newObjectId, currentTime, bind,
        ret, respond;
      cbn [users payments clock ticks oids made];
      (match goal with
       | |- context [User.validate ?i ?now ?f] =>
           destruct (User.validate i now f)
       end; [|intros H'; inversion H'; subst; discriminate]);
      cbn [users payments clock ticks oids made];
      match goal with
      | |- context [if ?c then _ else _] => destruct c
      end; intros H'; inversion H'; subst; discriminate.
  - apply member_json_has_no_password.
    unfold members_put_id, isAdmin.
    destruct user as [u|]; [|discriminate].
    destruct (String.eqb (Claims.role u) "admin"); [|discriminate].
    unfold tryCatch, bind, UserModel.findById, respond, ret, throw.
    destruct (castObjectId id); try discriminate.
    destruct (find (hasId id) (users w)) as [m|]; [|discriminate].
    destruct (UserModel.findByIdAndUpdate id (memberFields body) w)
      as [[[m'|]|] w1]; cbn; try discriminate.
    intros d Hd. inversion Hd. eauto.
  - apply member_json_has_no_password.
    unfold members_delete_id, isAdmin.
    destruct user as [u|]; [|discriminate].
    destruct (String.eqb (Claims.role u) "admin"); [|discriminate].
    unfold tryCatch, bind, UserModel.findById, UserModel.findByIdAndDelete,
      respond, ret, throw.
    destruct (castObjectId id); try discriminate.
    destruct (find (hasId id) (users w)); discriminate.
  - unfold payments_get, isAdminReply, tryCatchReply, bind, reply, ret,
      findPaymentsPopulated.
    destruct user as [u|]; [|exact I].
    destruct (String.eqb (Claims.role u) "admin"); exact I.
  - unfold payments_get_user, tryCatchReply, bind, reqUser, reply, ret,
      throw, findPaymentsOf.
    destruct user as [u|]; [|exact I].
    destruct (negb (String.eqb (Claims.role u) "admin")
              && negb (String.eqb (Claims.id u) userId)); [exact I|].
    destruct (castObjectId userId); exact I.
  - unfold payments_post_create_order, tryCatchReply, bind, currentTime,
      reply, ret, throw.
    destruct (ordersCreate _); exact I.
  - apply member_json_has_no_password.
    destruct user as [u|].
    + destruct (payments_post_verify (Some u) body w) as [r w1] eqn:Hrun.
      destruct (payments_post_verify_outcome u body w r w1 Hrun)
        as [(-> & _) | (-> & _)]; discriminate.
    + unfold payments_post_verify, tryCatch, bind, currentTime, reqUser,
        throw. discriminate.
Qed.

(** X22.  The indexes hold across the nine routes of the members and
    payments routers: if the accounts have unique ids and unique emails
    and the payments unique ids before a request to one of them, they have
    them after it, whatever the request and its answer. *)
Theorem serve_keeps_indexes authHeader route w :
  uniqueIds w -> uniqueEmails w ->
  NoDup (map Payment._id (payments w)) ->
  let w1 := snd (serve authHeader route w) in
  uniqueIds w1 /\ uniqueEmails w1 /\ NoDup (map Payment._id (payments w1)).
Proof.
  intros Hi He Hp. cbv zeta.
  assert (Hsame : forall w1, users w1 = users w -> payments w1 = payments w ->
            uniqueIds w1 /\ uniqueEmails w1
            /\ NoDup (map Payment._id (payments w1))).
  { intros w1 Hu Hps. unfold uniqueIds, uniqueEmails. rewrite Hu, Hps. auto. }
  unfold serve, authenticateToken.
  destruct (tokenOf authHeader) as [token|]; [|apply Hsame; reflexivity].
  destruct (String.eqb token EmptyString); [apply Hsame; reflexivity|].
  destruct (jwtVerify token) as [u|]; [|apply Hsame; reflexivity].
  destruct (handlers_keep_indexes w Hi He) as (Hget & Hpost & Hput & Hdel & Hv).
  destruct (reading_routes_write_nothing (Some u) w) as (Hg & Hl & Hpp & Hu).
  destruct route as [|id|body|id body|id| |userId|body|body]; cbn [dispatch];
    rewrite ?lift_snd.
  - rewrite Hl. auto.
  - rewrite Hg. auto.
  - destruct (Hpost (Some u) body) as [H1 H2]. repeat split; auto.
    destruct (members_post (Some u) body w) as [r w1] eqn:Hrun. cbn [snd].
    destruct (members_post_outcome _ _ _ _ _ Hrun)
      as [(_ & d & _ & _ & _ & Hps) | (_ & _ & Hps)]; rewrite Hps; exact Hp.
  - destruct (Hput (Some u) id body) as [H1 H2]. repeat split; auto.
    rewrite members_put_id_payments. exact Hp.
  - destruct (Hdel (Some u) id) as [H1 H2]. repeat split; auto.
    rewrite members_delete_id_payments. exact Hp.
  - rewrite Hpp. auto.
  - rewrite Hu. auto.
  - destruct (create_order_collections (Some u) body w) as [H1 H2].
    apply Hsame; assumption.
  - destruct (Hv (Some u) body) as [H1 H2]. repeat split; auto.
    destruct (payments_post_verify (Some u) body w) as [r w1] eqn:Hrun.
    cbn [snd].
    destruct (payments_post_verify_outcome u body w r w1 Hrun)
      as [(_ & _ & Hfresh & p & e & _ & _ & Hps & Hid & _)
         | (_ & _ & Hps & _)]; [|rewrite Hps; exact Hp].
    cbv zeta in Hfresh. apply negb_true_iff in Hfresh.
    rewrite Hps, map_app. apply NoDup_snoc; [exact Hp|].
    intros Hin. apply in_map_iff in Hin. destruct Hin as (x & Hx & Hin).
    assert (Ht : existsb (fun x => String.eqb (Payment._id x)
                                     (oids w (made w))) (payments w) = true)
      by (apply existsb_exists; exists x; split;
          [exact Hin | apply String.eqb_eq; congruence]).
    congruence.
Qed.

End Replies.

(* ================================================================== *)
(** ** How long a window lasts; when the dashboard warns *)
(* ================================================================== *)

(** X23.  The length of a window: the end date the handler computes for a
    plan lies 26 to 33 days after the moment it is computed from for a
    month, 87 to 94 days for a quarter and 363 to 368 days for a year; and
    when the zone offset is the same at both ends it is a whole number of
    days, 28 to 31 (the length of the current month), 89 to 92, and 365 or
    366. *)
Theorem window_length {P : Platform} (p : Plan) (d e : Z) :
  snd (computeWindow p d) = Some e ->
  match p with
  | monthly => 26 * msPerDay < e - d < 33 * msPerDay
  | quarterly => 87 * msPerDay < e - d < 94 * msPerDay
  | yearly => 363 * msPerDay < e - d < 368 * msPerDay
  end
  /\ (LocalTZA d true = LocalTZA (shiftedLocal p d) false ->
      exists k,
        e - d = k * msPerDay
        /\ match p with
           | monthly =>
               k = DaysInMonth (YearFromTime (LocalTime d))
                               (MonthFromTime (LocalTime d))
               /\ 28 <= k <= 31
           | quarterly => 89 <= k <= 92
           | yearly => 365 <= k <= 366
           end).
Proof.
  intros He. unfold computeWindow, snd in He.
  rewrite membershipEnd_shifted in He. unfold TimeClip in He.
  destruct (Z.abs (UTC (shiftedLocal p d)) <=? maxTime); [|discriminate].
  inversion He as [He']; clear He. subst e.
  destruct (shiftedLocal_days p d) as (k & Hk & Hb).
  pose proof (LocalTZA_bound d true) as B1.
  pose proof (LocalTZA_bound (shiftedLocal p d) false) as B2.
  unfold UTC.
  set (z2 := LocalTZA (shiftedLocal p d) false) in *.
  rewrite Hk. unfold LocalTime.
  split.
  - unfold msPerDay in *. destruct p; lia.
  - intros Hz. exists k. split; [lia | exact Hb].
Qed.

Lemma window_length_witness :
  snd (computeWindow monthly 1706659200000) = Some 1709337600000
  /\ 1709337600000 - 1706659200000 = 31 * msPerDay.
Proof.
  assert (H : snd (computeWindow monthly 1706659200000) = Some 1709337600000)
    by (vm_compute; reflexivity).
  split; [exact H|].
  destruct (window_length monthly 1706659200000 1709337600000 H) as [_ Hk].
  destruct (Hk eq_refl) as (k & Hlen & Hd & _).
  rewrite Hlen, Hd. vm_compute. reflexivity.
Defined.

(** X24.  The "Upcoming Payment" alert of the dashboard is shown exactly
    when the end date is at most 30 days ahead (or past), and it is also
    shown, with 0 days remaining, to a member whose record has no end date
    or one that is no date. *)
Theorem paymentAlert_spec {P : Platform} (field : JsVal) (today : Z) :
  (truthy field = false \/ newDateOf field = None ->
   paymentAlert field today = true /\ getDaysRemaining field today = 0)
  /\ (forall e, truthy field = true -> newDateOf field = Some e ->
      (paymentAlert field today = true <-> e - today <= 30 * msPerDay)).
Proof.
  unfold paymentAlert, getDaysRemaining. split.
  - intros [Ht | Hn].
    + rewrite Ht. cbn [negb]. split; reflexivity.
    + destruct (truthy field); cbn [negb]; [|split; reflexivity].
      rewrite Hn. split; reflexivity.
  - intros e Ht He. rewrite Ht, He. cbn [negb]. rewrite Z.leb_le.
    assert (H30 : daysRemaining (30 * msPerDay) 0 = 30)
      by (vm_compute; reflexivity).
    assert (H31 : daysRemaining (30 * msPerDay + 1) 0 = 31)
      by (vm_compute; reflexivity).
    split; intros H.
    + destruct (Z_le_gt_dec (e - today) (30 * msPerDay)) as [Hle | Hgt];
        [exact Hle | exfalso].
      pose proof (daysRemaining_mono (30 * msPerDay + 1) 0 e today
                    ltac:(lia)) as Hm.
      lia.
    + pose proof (daysRemaining_mono e today (30 * msPerDay) 0 ltac:(lia))
        as Hm.
      lia.
Qed.

(* ================================================================== *)
(** ** The theorems above, in the small gym *)
(* ================================================================== *)

Lemma gym_indexes :
  uniqueIds gym /\ uniqueEmails gym /\ NoDup (map Payment._id (payments gym)).
Proof.
  unfold uniqueIds, uniqueEmails. cbn.
  repeat split; repeat constructor; cbn; intuition discriminate.
Qed.

Lemma gymWithPayment_ids : uniqueIds gymWithPayment.
Proof.
  unfold uniqueIds. cbn. repeat constructor; cbn; intuition discriminate.
Qed.


Lemma payments_post_verify_frame_witness :
  find (hasId ownerId)
       (users (snd (payments_post_verify (Some ashaClaims)
                      (verifyBody JUndefined "monthly") gym)))
  = Some owner.
Proof.
  destruct (payments_post_verify (Some ashaClaims)
              (verifyBody JUndefined "monthly") gym) as [r w1] eqn:E.
  destruct (payments_post_verify_frame
              ashaClaims (verifyBody JUndefined "monthly") gym r w1 E)
    as (Hother & _).
  cbn [snd].
  rewrite (Hother ownerId ltac:(intros H; vm_compute in H; discriminate H)).
  reflexivity.
Defined.

Lemma payments_post_verify_rejects_witness :
  ToNumber (VerifyBody.amount
              (VerifyBody.mk (JStr "pay_1") (JStr "order_1") JUndefined
                             (JStr "monthly") JUndefined)) = None
  /\ fst (payments_post_verify (Some ashaClaims)
            (VerifyBody.mk (JStr "pay_1") (JStr "order_1") JUndefined
                           (JStr "monthly") JUndefined) gym)
     = mkResponse 500 (Message "Server error").
Proof.
  split; [reflexivity|].
  destruct (payments_post_verify (Some ashaClaims)
              (VerifyBody.mk (JStr "pay_1") (JStr "order_1") JUndefined
                             (JStr "monthly") JUndefined) gym)
    as [r w1] eqn:E.
  destruct (payments_post_verify_rejects ashaClaims _ gym r w1 E
              (or_introl eq_refl)) as (Hr & _).
  exact Hr.
Defined.


Lemma verify_then_own_payments_witness :
  code (fst (payments_get_user (Some ashaClaims) ashaId
               (snd (payments_post_verify (Some ashaClaims)
                       (verifyBody JUndefined "monthly") gymWithPayment))))
  = 200.
Proof.
  destruct (payments_post_verify (Some ashaClaims)
              (verifyBody JUndefined "monthly") gymWithPayment)
    as [r w1] eqn:E.
  assert (H200 : status r = 200)
    by (vm_compute in E; inversion E; reflexivity).
  destruct (verify_then_own_payments ashaClaims _ gymWithPayment r w1 E H200)
    as (l & p & _ & Hafter & _).
  cbn [snd]. change (Claims.id ashaClaims) with ashaId in Hafter.
  rewrite Hafter. reflexivity.
Defined.

Lemma payments_get_user_isolation_witness :
  Claims.role ashaClaims <> "admin"
  /\ payments_get_user (Some ashaClaims) ownerId gymWithPayment
     = (mkReply 403 (Plain (Message "Unauthorized")), gymWithPayment)
  /\ payments_get_user (Some ashaClaims) ashaId gymWithPayment
     = (mkReply 200 (PaymentList [junePayment]), gymWithPayment).
Proof.
  assert (H : Claims.role ashaClaims <> "admin") by discriminate.
  split; [exact H|]. split.
  - apply (proj1 (payments_get_user_isolation ashaClaims ownerId
                    gymWithPayment H)).
    intros He. vm_compute in He. discriminate He.
  - destruct (proj2 (payments_get_user_isolation ashaClaims ashaId
                       gymWithPayment H) eq_refl) as [Hown _].
    rewrite Hown. vm_compute. reflexivity.
Defined.


Lemma gymServices_echo options order :
  ordersCreate options = GatewayOrder order ->
  Order.o_amount options = Double.Finite (Order.amount order).
Proof.
  cbn. destruct (Order.o_amount options); intros H; inversion H. reflexivity.
Qed.

Lemma order_then_verify_amount_witness :
  exists p,
    payments
      (snd (payments_post_verify (Some ashaClaims)
              (VerifyBody.mk (JStr "pay_1") (JStr "order_1") JUndefined
                 (JStr "monthly") (JNum (Double.round (inject_Z 12 * 100))))
              (snd (payments_post_create_order (Some ashaClaims)
                      (OrderBody.mk (JNum (inject_Z 12)) (JStr "monthly"))
                      gym))))
    = [p]
    /\ (Payment.amount p == inject_Z 12)%Q.
Proof.
  set (paise := Double.round (inject_Z 12 * 100)).
  assert (Eo : payments_post_create_order (Some ashaClaims)
                 (OrderBody.mk (JNum (inject_Z 12)) (JStr "monthly")) gym
               = (mkReply 200 (OrderJson "order_1" paise "INR"),
                  mkWorld [owner; asha] [] tickingClock 1 freshIds 0))
    by (vm_compute; reflexivity).
  rewrite Eo. cbn [snd].
  destruct (payments_post_verify (Some ashaClaims)
              (VerifyBody.mk (JStr "pay_1") (JStr "order_1") JUndefined
                             (JStr "monthly") (JNum paise))
              (mkWorld [owner; asha] [] tickingClock 1 freshIds 0))
    as [r w2] eqn:Ev.
  assert (H200 : status r = 200)
    by (vm_compute in Ev; inversion Ev; reflexivity).
  destruct (order_then_verify_amount 12 (Some ashaClaims) (JStr "monthly")
              ashaClaims
              (VerifyBody.mk (JStr "pay_1") (JStr "order_1") JUndefined
                             (JStr "monthly") (JNum paise))
              gym _ w2 "order_1" paise "INR" r
              ltac:(vm_compute; discriminate)
              gymServices_echo Eo eq_refl Ev H200) as (p & Hp & Ha).
  exists p. cbn [snd]. split; [exact Hp | exact Ha].
Defined.

Lemma members_post_stores_witness :
  status (fst (members_post (Some adminClaims) ravi gym)) = 201
  /\ exists d,
      users (snd (members_post (Some adminClaims) ravi gym))
      = users gym ++ [d]
      /\ User.password d = Some "123456"
      /\ User.status d = Some "active".
Proof.
  destruct (members_post (Some adminClaims) ravi gym) as [r w1] eqn:E.
  assert (H201 : status r = 201)
    by (vm_compute in E; inversion E; reflexivity).
  split; [exact H201|].
  destruct (members_post_stores (Some adminClaims) ravi gym r w1 E H201)
    as (d & Hus & _ & _ & _ & Hpw & _ & Hst & _).
  exists d. cbn [snd]. auto.
Defined.

Lemma members_post_refusals_witness :
  status (fst (members_post (Some adminClaims)
                 (MemberBody.mk (JStr "Asha B") (JStr "a@x.com")
                    (JStr "5555555555") (JStr "monthly") (JNum 1717200000000)
                    (JNum 1719792000000) JUndefined) gym)) = 400
  /\ users (snd (members_post (Some adminClaims)
                   (MemberBody.mk (JStr "Asha B") (JStr "a@x.com")
                      (JStr "5555555555") (JStr "monthly")
                      (JNum 1717200000000) (JNum 1719792000000) JUndefined)
                   gym)) = users gym.
Proof.
  destruct (members_post (Some adminClaims)
              (MemberBody.mk (JStr "Asha B") (JStr "a@x.com")
                 (JStr "5555555555") (JStr "monthly") (JNum 1717200000000)
                 (JNum 1719792000000) JUndefined) gym) as [r w1] eqn:E.
  assert (H400 : status r = 400)
    by (vm_compute in E; inversion E; reflexivity).
  split; [exact H400|].
  destruct (members_post_refusals (Some adminClaims) _ gym r w1 E)
    as (Hrefused & _).
  destruct (Hrefused ltac:(rewrite H400; discriminate)) as (_ & Hus & _).
  exact Hus.
Defined.

Lemma members_put_id_skips_enum_witness :
  "weekly" <> EmptyString
  /\ exists new w1,
      members_put_id (Some adminClaims) ashaId
        (MemberBody.mk JUndefined JUndefined JUndefined (JStr "weekly")
                       JUndefined JUndefined JUndefined) gym
      = (mkResponse 200 (Member (User.selectNoPassword new)), w1)
      /\ User.membershipType new = Some "weekly".
Proof.
  assert (Hs : "weekly" <> EmptyString) by discriminate.
  split; [exact Hs|].
  destruct (members_put_id_skips_enum "weekly" adminClaims ashaId asha gym
              Hs eq_refl eq_refl) as ((new & w1 & Hrun & _ & Hm) & _).
  exists new, w1. split; [exact Hrun | exact Hm].
Defined.

Lemma members_put_id_refusals_witness :
  members_put_id (Some adminClaims) ghostId yearlyOnly gym
  = (mkResponse 404 (Message "Member not found"), gym)
  /\ members_put_id (Some adminClaims) ashaId
       (MemberBody.mk JUndefined (JStr "owner@x.com") JUndefined JUndefined
                      JUndefined JUndefined JUndefined) gym
     = (mkResponse 500 (Message "Server error"), gym).
Proof.
  split.
  - apply (proj1 (members_put_id_refusals adminClaims ghostId yearlyOnly gym
                    eq_refl)).
    + vm_compute. discriminate.
    + vm_compute. reflexivity.
  - destruct (members_put_id_refusals adminClaims ashaId
                (MemberBody.mk JUndefined (JStr "owner@x.com") JUndefined
                   JUndefined JUndefined JUndefined JUndefined) gym eq_refl)
      as (_ & _ & Hconflict & _).
    apply (Hconflict asha owner "owner@x.com"); try reflexivity.
    + left. reflexivity.
    + discriminate.
    + discriminate.
Defined.

Lemma members_put_then_get_witness :
  members_get_id (Some ashaClaims) ashaId
    (snd (members_put_id (Some adminClaims) ashaId yearlyOnly gym))
  = members_put_id (Some adminClaims) ashaId yearlyOnly gym.
Proof.
  destruct (members_put_id (Some adminClaims) ashaId yearlyOnly gym)
    as [r w1] eqn:E.
  assert (H200 : status r = 200)
    by (vm_compute in E; inversion E; reflexivity).
  cbn [snd].
  exact (members_put_then_get (Some adminClaims) ashaId yearlyOnly gym r w1
           ashaClaims E H200 (or_intror eq_refl)).
Defined.

Lemma members_get_lists_witness :
  members_get (Some adminClaims) gym
  = (mkReply 200 (MemberList [User.selectNoPassword asha]), gym).
Proof.
  destruct (members_get_lists adminClaims gym eq_refl) as (l & Hl & _).
  rewrite Hl. vm_compute in Hl. inversion Hl. reflexivity.
Defined.

Lemma non_admin_changes_only_itself_witness :
  Claims.role ashaClaims <> "admin"
  /\ find (hasId ownerId)
          (users (snd (dispatch (Some ashaClaims)
                         (PostVerify (verifyBody JUndefined "monthly")) gym)))
     = Some owner.
Proof.
  assert (H : Claims.role ashaClaims <> "admin") by discriminate.
  split; [exact H|].
  destruct (non_admin_changes_only_itself ashaClaims
              (PostVerify (verifyBody JUndefined "monthly")) gym H)
    as (Hother & _).
  rewrite (Hother ownerId ltac:(intros H'; vm_compute in H'; discriminate H')).
  reflexivity.
Defined.

Lemma serve_keeps_indexes_witness :
  uniqueIds gym
  /\ uniqueEmails (snd (serve (Some "Bearer owner.token") (PostMember ravi)
                          gym)).
Proof.
  destruct gym_indexes as (Hi & He & Hp).
  split; [exact Hi|].
  destruct (serve_keeps_indexes (Some "Bearer owner.token") (PostMember ravi)
              gym Hi He Hp) as (_ & He' & _).
  exact He'.
Defined.
